(** * The isolated ADW phase scripts (adws/adw_*_iso.py)

    A shallow embedding of the five phase entry points
    - adw_plan_iso.py, adw_build_iso.py, adw_test_iso.py,
      adw_review_iso.py, adw_document_iso.py
    as functions from the command line and an environment of collaborators
    (the functions imported from adw_modules and the Python runtime) to the
    chronological trace of observable effects and the way the process ends. *)

From Stdlib Require Import ZArith Lia Bool Ascii String List.
From stdpp Require Import base option list strings gmap pretty.
Import ListNotations.

Set Warnings "-register-all".

Local Open Scope string_scope.
Local Open Scope Z_scope.
Local Open Scope list_scope.

(* ===================================================================== *)
(** ** Python values *)
(* ===================================================================== *)

(** What json.loads can return and what ADWState.get can yield.  Numbers
    are the integers; a dict is kept as its list of items. *)
Inductive value : Type :=
| PNone
| PBool (b : bool)
| PInt (z : Z)
| PStr (s : string)
| PList (l : list value)
| PDict (items : list (string * value)).

(** Python truthiness, as tested by [if x:] and [not x]. *)
Definition truthy (v : value) : bool :=
  match v with
  | PNone => false
  | PBool b => b
  | PInt z => negb (z =? 0)
  | PStr s => negb (String.eqb s "")
  | PList l => match l with [] => false | _ => true end
  | PDict d => match d with [] => false | _ => true end
  end.

(** An Optional[str] seen as a value. *)
Definition of_opt (o : option string) : value :=
  match o with None => PNone | Some s => PStr s end.

(** [x == "lit"] for a str literal. *)
Definition eq_str (v : value) (lit : string) : bool :=
  match v with PStr s => String.eqb s lit | _ => false end.

(** str(n) for an int. *)
Definition str_int (z : Z) : string := pretty z.

(* ===================================================================== *)
(** ** str methods used by the scripts *)
(* ===================================================================== *)

Module Str.

(** A character of a string is one code point of U+0000..U+00FF, held in
    an [ascii]; the scripts' text outside that range is not modelled.

    str.isspace on one such character: tab, newline, vertical tab, form
    feed, carriage return, the four separators 0x1c..0x1f, the blank, and
    above the ASCII range the next-line control U+0085 and the no-break
    space U+00A0.  These are the characters str.strip() removes. *)
Definition is_space (c : ascii) : bool :=
  let n := nat_of_ascii c in
  (((9 <=? n) && (n <=? 13)) || ((28 <=? n) && (n <=? 32))
   || (n =? 133) || (n =? 160))%nat.

Fixpoint lstrip (s : string) : string :=
  match s with
  | EmptyString => EmptyString
  | String c s' => if is_space c then lstrip s' else s
  end.

Fixpoint rstrip (s : string) : string :=
  match s with
  | EmptyString => EmptyString
  | String c s' =>
      let r := rstrip s' in
      if is_space c && String.eqb r "" then EmptyString else String c r
  end.

(** s.strip() *)
Definition strip (s : string) : string := lstrip (rstrip s).

(** s[n:] *)
Fixpoint drop (n : nat) (s : string) : string :=
  match n, s with
  | O, _ => s
  | S n', String _ s' => drop n' s'
  | S _, EmptyString => EmptyString
  end.

(** s[:n] *)
Fixpoint take (n : nat) (s : string) : string :=
  match n, s with
  | O, _ => EmptyString
  | S n', String c s' => String c (take n' s')
  | S _, EmptyString => EmptyString
  end.

(** s[i:j] for 0 <= i and 0 <= j. *)
Definition slice (s : string) (i j : nat) : string := take (j - i) (drop i s).

(** s.startswith(p) *)
Fixpoint startswith (p s : string) : bool :=
  match p, s with
  | EmptyString, _ => true
  | String a p', String b s' => Ascii.eqb a b && startswith p' s'
  | String _ _, EmptyString => false
  end.

(** Lowest index at which [sub] occurs in [s], if any. *)
Fixpoint find0 (sub s : string) : option nat :=
  if startswith sub s then Some O
  else match s with
       | EmptyString => None
       | String _ s' => option_map S (find0 sub s')
       end.

(** s.find(sub, start): [None] stands for the -1 of Python. *)
Definition find (s sub : string) (start : nat) : option nat :=
  if (start <=? String.length s)%nat
  then option_map (Nat.add start) (find0 sub (drop start s))
  else None.

(** sub in s *)
Definition contains (sub s : string) : bool :=
  match find0 sub s with Some _ => true | None => false end.

End Str.

(* ===================================================================== *)
(** ** Run state, requests and responses *)
(* ===================================================================== *)

(** Modelled from the spec: ADWState (adw_modules/state.py), the run state
    record, "a durable, keyed structured document": a finite map from field
    names to values.  [get] reads a field (None when it is not set),
    [update] sets the fields it is given and no other, the constructor
    records the run identifier. *)
Abbreviation ADWState := (gmap string value).

Definition ADWState_new (adw_id : string) : ADWState :=
  {[ "adw_id" := PStr adw_id ]}.

Definition state_get (st : ADWState) (key : string) : value :=
  default PNone (st !! key).

Definition state_update (st : ADWState) (kwargs : list (string * value)) : ADWState :=
  foldl (fun m kv => <[ kv.1 := kv.2 ]> m) st kwargs.

(** adw_modules.data_types.AgentTemplateRequest, with the fields the
    scripts fill in. *)
Record AgentTemplateRequest := {
  agent_name : string;
  slash_command : string;
  args : list value;
  request_adw_id : string;
  working_dir : value
}.

(** The response of an agent call: a success flag and free text. *)
Record AgentResponse := { success : bool; output : string }.

(** The keyword arguments of one create_and_implement_patch call. *)
Record PatchCall := {
  patch_adw_id : string;
  review_change_request : value;
  agent_name_planner : string;
  agent_name_implementor : string;
  spec_path : value;
  issue_screenshots : value;
  patch_working_dir : value
}.

(** The issue fetched by the planning phase; only its title is read. *)
Record Issue := { title : string }.

(* ===================================================================== *)
(** ** Observable effects *)
(* ===================================================================== *)

Inductive level := INFO | WARNING | ERROR.

(** A piece of an f-string: literal text, a value formatted by str(), a
    length, or the text of the caught exception of the named class. *)
Inductive piece :=
| Txt (s : string)
| Fmt (v : value)
| Num (n : nat)
| Exc (e : string).

Inductive event :=
| Log (lv : level) (msg : list piece)
| Print (msg : list piece)
| ExecuteTemplate (req : AgentTemplateRequest)
| ImplementPlan (spec_file : value) (adw_id agent : string) (wd : value)
| BuildPlan (issue : option Issue) (command : value) (adw_id : string) (wd : value)
| CreateAndImplementPatch (call : PatchCall)
| Save (label : string) (st : ADWState).

(** The calls that reach the code-generation agent. *)
Definition is_agent_call (e : event) : bool :=
  match e with
  | ExecuteTemplate _ | ImplementPlan _ _ _ _ | BuildPlan _ _ _ _
  | CreateAndImplementPatch _ => true
  | _ => false
  end.

Definition is_patch_call (e : event) : bool :=
  match e with CreateAndImplementPatch _ => true | _ => false end.

Definition is_review_call (e : event) : bool :=
  match e with
  | ExecuteTemplate r => String.eqb (slash_command r) "/review"
  | _ => false
  end.

Definition is_save (e : event) : bool :=
  match e with Save _ _ => true | _ => false end.

Definition is_error_log (e : event) : bool :=
  match e with Log ERROR _ => true | _ => false end.

(** The patch calls of a trace, in the order they were made. *)
Definition patch_calls (t : list event) : list PatchCall :=
  omap (fun e => match e with CreateAndImplementPatch c => Some c | _ => None end) t.

(** The states written by state.save, in order. *)
Definition saved_states (t : list event) : list ADWState :=
  omap (fun e => match e with Save _ st => Some st | _ => None end) t.

(* ===================================================================== *)
(** ** The collaborators *)
(* ===================================================================== *)

(** What the scripts import from adw_modules and from the Python runtime.
    ADWState.load, validate_worktree and find_spec_file read the state and
    the file system; the agent calls answer with a response.  The n-th
    create_and_implement_patch call of an invocation (counted from 0) may
    answer differently from the others even on equal arguments. *)
Record Env := {
  ADWState_load : string -> option ADWState;
  validate_worktree : string -> ADWState -> bool * option string;
  find_spec_file : ADWState -> option string;
  execute_template : AgentTemplateRequest -> AgentResponse;
  implement_plan : value -> string -> string -> value -> AgentResponse;
  create_and_implement_patch : nat -> PatchCall -> option string * AgentResponse;
  json_loads : string -> option value;
  path_exists : string -> bool;
  (** dirname(dirname(dirname(abspath(__file__)))) *)
  script_root : string;
  ensure_adw_id : string -> option string -> string;
  is_beads_issue : string -> bool;
  fetch_issue_unified : string -> option Issue * option string;
  update_beads_status : string -> string -> bool * option string;
  classify_issue : option Issue -> string -> option string * option string;
  generate_branch_name :
    option Issue -> option string -> string -> option string * option string;
  create_worktree : string -> value -> option string * option string;
  find_next_available_ports : string -> Z * Z;
  build_plan : option Issue -> value -> string -> value -> AgentResponse
}.

(* ===================================================================== *)
(** ** Exceptions and the trace monad *)
(* ===================================================================== *)

Inductive exn :=
| SystemExit (code : Z)
| JSONDecodeError
| KeyError (key : string)
| AttributeError
| TypeError.

Inductive outcome (A : Type) :=
| Ok (a : A)
| Raise (e : exn).
Arguments Ok {A} a.
Arguments Raise {A} e.

(** A computation yields the effects it performed, oldest first, and
    either a result or the exception that stopped it. *)
Definition M (A : Type) : Type := list event * outcome A.

Definition ret {A} (a : A) : M A := ([], Ok a).

Definition bind {A B} (m : M A) (k : A -> M B) : M B :=
  match m with
  | (t, Ok a) => let '(t', r) := k a in (t ++ t', r)
  | (t, Raise e) => (t, Raise e)
  end.

Notation "x <- m ;; k" := (bind m (fun x => k))
  (at level 100, m at next level, right associativity).
Notation "m ;;; k" := (bind m (fun _ => k))
  (at level 100, right associativity).

Definition emit (e : event) : M unit := ([e], Ok tt).
Definition raise {A} (e : exn) : M A := ([], Raise e).
Definition sys_exit {A} (code : Z) : M A := raise (SystemExit code).
Definition log (lv : level) (msg : list piece) : M unit := emit (Log lv msg).
Definition print (msg : list piece) : M unit := emit (Print msg).
Definition emits (es : list event) : M unit := (es, Ok tt).

(** try: body / except json.JSONDecodeError: handler *)
Definition try_except_JSONDecodeError {A} (body handler : M A) : M A :=
  match body with
  | (t, Raise JSONDecodeError) => let '(t', r) := handler in (t ++ t', r)
  | other => other
  end.

Definition trace {A} (m : M A) : list event := m.1.
Definition result {A} (m : M A) : outcome A := m.2.

(** The status the process ends with: 0 when main returns, the argument
    of sys.exit, and 1 when an exception reaches the top level. *)
Definition exit_status (m : M unit) : Z :=
  match result m with
  | Ok _ => 0
  | Raise (SystemExit c) => c
  | Raise _ => 1
  end.

(** ** Operations on values that can raise *)

Fixpoint assoc (k : string) (d : list (string * value)) : option value :=
  match d with
  | [] => None
  | (k', v) :: d' => if String.eqb k k' then Some v else assoc k d'
  end.

(** v.get(k, dflt) *)
Definition py_get (v : value) (k : string) (dflt : value) : M value :=
  match v with
  | PDict d => ret (default dflt (assoc k d))
  | _ => raise AttributeError
  end.

(** v[k] for a str key *)
Definition py_item (v : value) (k : string) : M value :=
  match v with
  | PDict d => match assoc k d with Some x => ret x | None => raise (KeyError k) end
  | _ => raise TypeError
  end.

Fixpoint chars (s : string) : list value :=
  match s with
  | EmptyString => []
  | String c s' => PStr (String c EmptyString) :: chars s'
  end.

(** for x in v *)
Definition py_iter (v : value) : M (list value) :=
  match v with
  | PList l => ret l
  | PStr s => ret (chars s)
  | PDict d => ret (map (fun kv => PStr kv.1) d)
  | _ => raise TypeError
  end.

(** Removes the first occurrence, as list.remove does. *)
Fixpoint remove_first (x : string) (l : list string) : list string :=
  match l with
  | [] => []
  | y :: l' => if String.eqb x y then l' else y :: remove_first x l'
  end.

Definition mem (x : string) (l : list string) : bool :=
  existsb (String.eqb x) l.

Definition when (b : bool) (m : M unit) : M unit := if b then m else ret tt.

Definition NL : string := String "010"%char EmptyString.

(** len(l) > 0, the truth value of a list. *)
Definition nonempty {A} (l : list A) : bool :=
  match l with [] => false | _ => true end.

(** The steps every phase but planning starts with (build 50-72, test
    57-71, review 61-83, document 52-66): load the state or exit, validate
    the worktree or exit, read the worktree path. *)
Definition load_state (env : Env) (adw_id : string) : M ADWState :=
  match ADWState_load env adw_id with
  | None =>
      log ERROR [Txt "No state found for ADW ID: "; Txt adw_id] ;;;
      sys_exit 1
  | Some state => ret state
  end.

Definition check_worktree (env : Env) (adw_id : string) (state : ADWState) : M value :=
  log INFO [Txt "Validating worktree"] ;;;
  let '(valid, error) := validate_worktree env adw_id state in
  when (negb valid)
    (log ERROR [Txt "Worktree validation failed: "; Fmt (of_opt error)] ;;;
     sys_exit 1) ;;;
  let worktree_path := state_get state "worktree_path" in
  log INFO [Txt "Using worktree: "; Fmt worktree_path] ;;;
  ret worktree_path.

(* ===================================================================== *)
(** ** adw_build_iso.py *)
(* ===================================================================== *)

Definition build_usage : list event :=
  [ Print [Txt "Usage: uv run adw_build_iso.py <issue-number> <adw-id>"];
    Print [Txt NL; Txt "This runs the isolated implementation phase:"];
    Print [Txt "  1. Load ADW state"];
    Print [Txt "  2. Validate worktree"];
    Print [Txt "  3. Find spec file"];
    Print [Txt "  4. Implement plan"] ].

Definition adw_build_iso (env : Env) (argv : list string) : M unit :=
  match argv with
  | _ :: issue_number :: adw_id :: _ =>
      state <- load_state env adw_id ;;
      worktree_path <- check_worktree env adw_id state ;;
      let spec_file := of_opt (find_spec_file env state) in
      when (negb (truthy spec_file))
        (log ERROR [Txt "No spec file found"] ;;; sys_exit 1) ;;;
      log INFO [Txt "Using spec file: "; Fmt spec_file] ;;;
      log INFO [Txt "Implementing plan"] ;;;
      emit (ImplementPlan spec_file adw_id "build_implementor" worktree_path) ;;;
      let implement_response :=
        implement_plan env spec_file adw_id "build_implementor" worktree_path in
      when (negb (success implement_response))
        (log ERROR [Txt "Implementation failed: "; Txt (output implement_response)] ;;;
         sys_exit 1) ;;;
      log INFO [Txt "Implementation completed successfully"] ;;;
      emit (Save "adw_build_iso" state) ;;;
      print [Txt NL; Txt "=== ISOLATED BUILD PHASE COMPLETED ==="] ;;;
      print [Txt "ADW ID: "; Txt adw_id] ;;;
      print [Txt "Worktree: "; Fmt worktree_path] ;;;
      print [Txt "Spec file: "; Fmt spec_file]
  | _ => emits build_usage ;;; sys_exit 1
  end.

(* ===================================================================== *)
(** ** adw_test_iso.py *)
(* ===================================================================== *)

Definition test_usage : list event :=
  [ Print [Txt "Usage: uv run adw_test_iso.py <issue-number> <adw-id> [--skip-e2e]"];
    Print [Txt NL; Txt "This runs the isolated testing phase:"];
    Print [Txt "  1. Load ADW state"];
    Print [Txt "  2. Validate worktree"];
    Print [Txt "  3. Run tests"];
    Print [Txt NL; Txt "Flags:"];
    Print [Txt "  --skip-e2e: Skip end-to-end tests"] ].

Definition test_request (adw_id : string) (worktree_path : value) : AgentTemplateRequest :=
  {| agent_name := "test_validator";
     slash_command := "/test";
     args := [];
     request_adw_id := adw_id;
     working_dir := worktree_path |}.

Definition adw_test_iso (env : Env) (argv : list string) : M unit :=
  let skip_e2e := mem "--skip-e2e" argv in
  let argv := if skip_e2e then remove_first "--skip-e2e" argv else argv in
  match argv with
  | _ :: issue_number :: adw_id :: _ =>
      state <- load_state env adw_id ;;
      worktree_path <- check_worktree env adw_id state ;;
      log INFO [Txt "Running test suite"] ;;;
      let test_request := test_request adw_id worktree_path in
      emit (ExecuteTemplate test_request) ;;;
      let test_response := execute_template env test_request in
      (if negb (success test_response)
       then log WARNING [Txt "Tests had failures: "; Txt (output test_response)]
       else log INFO [Txt "All tests passed"]) ;;;
      emit (Save "adw_test_iso" state) ;;;
      print [Txt NL; Txt "=== ISOLATED TEST PHASE COMPLETED ==="] ;;;
      print [Txt "ADW ID: "; Txt adw_id] ;;;
      print [Txt "Worktree: "; Fmt worktree_path] ;;;
      when skip_e2e (print [Txt "E2E tests: Skipped"]) ;;;
      sys_exit (if success test_response then 0 else 1)
  | _ => emits test_usage ;;; sys_exit 1
  end.

(* ===================================================================== *)
(** ** adw_document_iso.py *)
(* ===================================================================== *)

Definition endswith_slash (s : string) : bool :=
  match String.rev s with
  | String c _ => Ascii.eqb c "/"
  | EmptyString => false
  end.

(** posixpath.join(a, b) *)
Definition path_join2 (a b : string) : string :=
  if Str.startswith "/" b then b
  else if String.eqb a "" || endswith_slash a then a +:+ b
  else a +:+ "/" +:+ b.

(** os.path.join(a, *p) *)
Definition os_path_join (a : string) (p : list string) : string :=
  foldl path_join2 a p.

Definition document_usage : list event :=
  [ Print [Txt "Usage: uv run adw_document_iso.py <issue-number> <adw-id>"];
    Print [Txt NL; Txt "This runs the isolated documentation phase:"];
    Print [Txt "  1. Load ADW state"];
    Print [Txt "  2. Validate worktree"];
    Print [Txt "  3. Find spec file"];
    Print [Txt "  4. Generate documentation"] ].

Definition doc_request (adw_id : string) (spec_file : value) (review_img_dir : string)
    (worktree_path : value) : AgentTemplateRequest :=
  {| agent_name := "documentation_writer";
     slash_command := "/document";
     args := [PStr adw_id; spec_file; PStr review_img_dir];
     request_adw_id := adw_id;
     working_dir := worktree_path |}.

Definition adw_document_iso (env : Env) (argv : list string) : M unit :=
  match argv with
  | _ :: issue_number :: adw_id :: _ =>
      state <- load_state env adw_id ;;
      worktree_path <- check_worktree env adw_id state ;;
      let spec_file := of_opt (find_spec_file env state) in
      spec_file <-
        (if negb (truthy spec_file)
         then log WARNING [Txt "No spec file found, documenting without spec reference"] ;;;
              ret (PStr "")
         else ret spec_file) ;;
      let review_img_dir :=
        os_path_join (script_root env) ["agents"; adw_id; "review_agent"; "review_img"] in
      review_img_dir <-
        (if negb (path_exists env review_img_dir)
         then log INFO [Txt "No review screenshots found"] ;;; ret ""
         else log INFO [Txt "Found review screenshots at: "; Txt review_img_dir] ;;;
              ret review_img_dir) ;;
      log INFO [Txt "Generating documentation"] ;;;
      let doc_request := doc_request adw_id spec_file review_img_dir worktree_path in
      emit (ExecuteTemplate doc_request) ;;;
      let doc_response := execute_template env doc_request in
      when (negb (success doc_response))
        (log ERROR [Txt "Documentation generation failed: "; Txt (output doc_response)] ;;;
         sys_exit 1) ;;;
      let doc_file := Str.strip (output doc_response) in
      log INFO [Txt "Documentation created: "; Txt doc_file] ;;;
      emit (Save "adw_document_iso" state) ;;;
      print [Txt NL; Txt "=== ISOLATED DOCUMENTATION PHASE COMPLETED ==="] ;;;
      print [Txt "ADW ID: "; Txt adw_id] ;;;
      print [Txt "Worktree: "; Fmt worktree_path] ;;;
      print [Txt "Documentation: "; Txt doc_file]
  | _ => emits document_usage ;;; sys_exit 1
  end.

(* ===================================================================== *)
(** ** adw_review_iso.py *)
(* ===================================================================== *)

Definition review_usage : list event :=
  [ Print [Txt "Usage: uv run adw_review_iso.py <issue-number> <adw-id> [--skip-resolution]"];
    Print [Txt NL; Txt "This runs the isolated review phase:"];
    Print [Txt "  1. Load ADW state"];
    Print [Txt "  2. Validate worktree"];
    Print [Txt "  3. Review implementation"];
    Print [Txt "  4. Resolve issues (unless --skip-resolution)"];
    Print [Txt NL; Txt "Flags:"];
    Print [Txt "  --skip-resolution: Skip automatic issue resolution"] ].

Definition review_request (adw_id : string) (spec_file worktree_path : value)
    : AgentTemplateRequest :=
  {| agent_name := "review_agent";
     slash_command := "/review";
     args := [PStr adw_id; spec_file; PStr "review_agent"];
     request_adw_id := adw_id;
     working_dir := worktree_path |}.

(** Lines 104-122: the text handed to json.loads.  Where str.find cannot
    fail (its needle was just seen in the text) the index it would return
    for a miss, -1, is used to keep the function total. *)
Definition extract_json (raw : string) : string :=
  let output := Str.strip raw in
  if Str.contains "```json" output then
    let start :=
      match Str.find output "```json" 0 with
      | Some i => (i + 7)%nat
      | None => 6%nat
      end in
    match Str.find output "```" start with
    | Some end_ => Str.strip (Str.slice output start end_)
    | None => output
    end
  else if Str.contains "```" output && Str.contains "{" output then
    let start :=
      match Str.find output "```" 0 with
      | Some i => (i + 3)%nat
      | None => 2%nat
      end in
    let start :=
      match Str.find output NL start with
      | Some newline => (newline + 1)%nat
      | None => start
      end in
    match Str.find output "```" start with
    | Some end_ => Str.strip (Str.slice output start end_)
    | None => output
    end
  else output.

(** Lines 128-132: the findings whose severity is "blocker", in order. *)
Fixpoint blocking (issues : list value) : M (list value) :=
  match issues with
  | [] => ret []
  | issue :: rest =>
      severity <- py_get issue "issue_severity" PNone ;;
      rest' <- blocking rest ;;
      ret (if eq_str severity "blocker" then issue :: rest' else rest')
  end.

Definition patch_call (adw_id : string) (spec_file worktree_path : value)
    (change_request screenshots : value) : PatchCall :=
  {| patch_adw_id := adw_id;
     review_change_request := change_request;
     agent_name_planner := "review_patch_planner";
     agent_name_implementor := "review_patch_implementor";
     spec_path := spec_file;
     issue_screenshots := screenshots;
     patch_working_dir := worktree_path |}.

(** Lines 138-157: the resolution loop; [n] counts the patch calls made so
    far in this invocation. *)
Fixpoint resolve_issues (env : Env) (adw_id : string) (spec_file worktree_path : value)
    (n : nat) (blocking_issues : list value) : M unit :=
  match blocking_issues with
  | [] => ret tt
  | issue :: rest =>
      number <- py_item issue "review_issue_number" ;;
      description <- py_item issue "issue_description" ;;
      log INFO [Txt "Resolving issue "; Fmt number; Txt ": "; Fmt description] ;;;
      resolution <- py_item issue "issue_resolution" ;;
      screenshots <- py_get issue "screenshot_path" PNone ;;
      let call := patch_call adw_id spec_file worktree_path resolution screenshots in
      emit (CreateAndImplementPatch call) ;;;
      let '(patch_file, patch_response) := create_and_implement_patch env n call in
      when (negb (success patch_response))
        (log ERROR [Txt "Failed to resolve issue: "; Txt (output patch_response)] ;;;
         sys_exit 1) ;;;
      number <- py_item issue "review_issue_number" ;;
      log INFO [Txt "Resolved issue "; Fmt number] ;;;
      resolve_issues env adw_id spec_file worktree_path (S n) rest
  end.

(** Lines 161-162. *)
Fixpoint report_blocking (blocking_issues : list value) : M unit :=
  match blocking_issues with
  | [] => ret tt
  | issue :: rest =>
      description <- py_item issue "issue_description" ;;
      log ERROR [Txt "  - "; Fmt description] ;;;
      report_blocking rest
  end.

(** Lines 134-163: resolve the blocking findings, or report them and exit
    when resolution is skipped. *)
Definition review_gate (env : Env) (skip_resolution : bool) (adw_id : string)
    (spec_file worktree_path : value) (blocking_issues : list value) : M unit :=
  if nonempty blocking_issues && negb skip_resolution then
    log WARNING [Txt "Found "; Num (length blocking_issues);
                 Txt " blocking issues, attempting resolution"] ;;;
    resolve_issues env adw_id spec_file worktree_path 0 blocking_issues
  else if nonempty blocking_issues then
    log ERROR [Txt "Found "; Num (length blocking_issues);
               Txt " blocking issues (resolution skipped)"] ;;;
    report_blocking blocking_issues ;;;
    sys_exit 1
  else ret tt.

(** Lines 165-174: save the state and print the summary. *)
Definition review_finish (skip_resolution : bool) (adw_id : string) (state : ADWState)
    (worktree_path review_results : value) (blocking_issues : list value) : M unit :=
  emit (Save "adw_review_iso" state) ;;;
  print [Txt NL; Txt "=== ISOLATED REVIEW PHASE COMPLETED ==="] ;;;
  print [Txt "ADW ID: "; Txt adw_id] ;;;
  print [Txt "Worktree: "; Fmt worktree_path] ;;;
  ok <- py_get review_results "success" PNone ;;
  print [Txt "Review: "; Txt (if truthy ok then "Success" else "Has issues")] ;;;
  print [Txt "Blocking issues: "; Num (length blocking_issues)] ;;;
  when (skip_resolution && nonempty blocking_issues)
    (print [Txt "Resolution: Skipped"]).

(** Lines 103-174, the body of the try statement. *)
Definition review_try (env : Env) (skip_resolution : bool) (adw_id : string)
    (state : ADWState) (spec_file worktree_path : value) (review_response : AgentResponse)
    : M unit :=
  let output := extract_json (output review_response) in
  review_results <-
    (match json_loads env output with
     | Some v => ret v
     | None => raise JSONDecodeError
     end) ;;
  summary <- py_get review_results "review_summary" (PStr "No summary") ;;
  log INFO [Txt "Review completed: "; Fmt summary] ;;;
  issues <- py_get review_results "review_issues" (PList []) ;;
  issues <- py_iter issues ;;
  blocking_issues <- blocking issues ;;
  review_gate env skip_resolution adw_id spec_file worktree_path blocking_issues ;;;
  review_finish skip_resolution adw_id state worktree_path review_results blocking_issues.

(** Lines 176-179, the handler of json.JSONDecodeError. *)
Definition review_except (review_response : AgentResponse) : M unit :=
  log ERROR [Txt "Failed to parse review results: "; Exc "JSONDecodeError"] ;;;
  log ERROR [Txt "Review output: "; Txt (output review_response)] ;;;
  sys_exit 1.

(** Lines 102-179. *)
Definition review_results_step (env : Env) (skip_resolution : bool) (adw_id : string)
    (state : ADWState) (spec_file worktree_path : value) (review_response : AgentResponse)
    : M unit :=
  try_except_JSONDecodeError
    (review_try env skip_resolution adw_id state spec_file worktree_path review_response)
    (review_except review_response).

Definition adw_review_iso (env : Env) (argv : list string) : M unit :=
  let skip_resolution := mem "--skip-resolution" argv in
  let argv := if skip_resolution then remove_first "--skip-resolution" argv else argv in
  match argv with
  | _ :: issue_number :: adw_id :: _ =>
      state <- load_state env adw_id ;;
      worktree_path <- check_worktree env adw_id state ;;
      let spec_file := of_opt (find_spec_file env state) in
      when (negb (truthy spec_file))
        (log ERROR [Txt "No spec file found"] ;;; sys_exit 1) ;;;
      log INFO [Txt "Using spec file: "; Fmt spec_file] ;;;
      log INFO [Txt "Running review"] ;;;
      let review_request := review_request adw_id spec_file worktree_path in
      emit (ExecuteTemplate review_request) ;;;
      let review_response := execute_template env review_request in
      when (negb (success review_response))
        (log ERROR [Txt "Review failed to execute: "; Txt (output review_response)] ;;;
         sys_exit 1) ;;;
      review_results_step env skip_resolution adw_id state spec_file worktree_path
        review_response
  | _ => emits review_usage ;;; sys_exit 1
  end.

(* ===================================================================== *)
(** ** adw_plan_iso.py *)
(* ===================================================================== *)

Definition plan_usage : list event :=
  [ Print [Txt "Usage: uv run adw_plan_iso.py <issue-number> [adw-id]"];
    Print [Txt NL; Txt "This runs the isolated planning phase:"];
    Print [Txt "  1. Load/create ADW state"];
    Print [Txt "  2. Fetch GitHub issue"];
    Print [Txt "  3. Create/find branch"];
    Print [Txt "  4. Create isolated worktree"];
    Print [Txt "  5. Generate plan"] ].

(** The pattern specs/[\w-]+\.md of line 164, on strings of the code
    points U+0000..U+00FF. *)
Module PlanRe.

(** \w of a str pattern (Unicode matching): the characters for which
    str.isalnum holds, and the underscore.  Below U+0100 these are the
    ASCII digits and letters and, in the Latin-1 block, the ordinal
    indicators U+00AA and U+00BA, the superscript digits U+00B2, U+00B3
    and U+00B9, the micro sign U+00B5, the fractions U+00BC..U+00BE and
    the letters U+00C0..U+00FF other than the multiplication sign U+00D7
    and the division sign U+00F7. *)
Definition is_word (c : ascii) : bool :=
  let n := nat_of_ascii c in
  (((48 <=? n) && (n <=? 57)) || ((65 <=? n) && (n <=? 90))
   || ((97 <=? n) && (n <=? 122)) || (n =? 95)
   || (n =? 170) || ((178 <=? n) && (n <=? 179)) || (n =? 181)
   || ((185 <=? n) && (n <=? 186)) || ((188 <=? n) && (n <=? 190))
   || ((192 <=? n) && (n <=? 214)) || ((216 <=? n) && (n <=? 246))
   || (248 <=? n))%nat.

Definition in_class (c : ascii) : bool := is_word c || Ascii.eqb c "-".

(** The longest run of class characters at the head of [s], and the rest. *)
Fixpoint span (s : string) : string * string :=
  match s with
  | String c s' =>
      if in_class c then let '(w, r) := span s' in (String c w, r)
      else (EmptyString, s)
  | EmptyString => (EmptyString, EmptyString)
  end.

(** A match starting at the head of [s].  The greedy run cannot give back
    characters: the character after a shorter run is a class character,
    never the dot. *)
Definition match_here (s : string) : option string :=
  if Str.startswith "specs/" s then
    let '(w, r) := span (Str.drop 6 s) in
    if negb (String.eqb w "") && Str.startswith ".md" r
    then Some ("specs/" +:+ w +:+ ".md")
    else None
  else None.

(** re.search(pattern, s): the leftmost match, group(0). *)
Fixpoint search (s : string) : option string :=
  match match_here s with
  | Some m => Some m
  | None => match s with
            | EmptyString => None
            | String _ s' => search s'
            end
  end.

End PlanRe.

Definition install_request (adw_id : string) (worktree_path : value)
    (backend_port frontend_port : Z) : AgentTemplateRequest :=
  {| agent_name := "worktree_installer";
     slash_command := "/install_worktree";
     args := [worktree_path; PStr (str_int backend_port); PStr (str_int frontend_port)];
     request_adw_id := adw_id;
     working_dir := PNone |}.

(** issue.title *)
Definition issue_title (issue : option Issue) : M string :=
  match issue with
  | Some i => ret (title i)
  | None => raise AttributeError
  end.

(** Lines 89-107: the branch name recorded in state, or a generated one.
    Yields the state (updated with the issue class when it classified) and
    the branch name. *)
Definition branch_step (env : Env) (issue : option Issue) (adw_id : string)
    (state : ADWState) : M (ADWState * value) :=
  let branch_name := state_get state "branch_name" in
  if negb (truthy branch_name) then
    log INFO [Txt "Classifying issue to determine branch type"] ;;;
    let '(issue_command, error) := classify_issue env issue adw_id in
    when (truthy (of_opt error))
      (log ERROR [Txt "Failed to classify issue: "; Fmt (of_opt error)] ;;;
       sys_exit 1) ;;;
    let state := state_update state [("issue_class", of_opt issue_command)] in
    log INFO [Txt "Generating branch name"] ;;;
    let '(branch_name, error) := generate_branch_name env issue issue_command adw_id in
    when (truthy (of_opt error))
      (log ERROR [Txt "Failed to generate branch name: "; Fmt (of_opt error)] ;;;
       sys_exit 1) ;;;
    ret (state, of_opt branch_name)
  else ret (state, branch_name).

(** Lines 71-85: fetch the issue, and mark a beads issue in progress. *)
Definition fetch_step (env : Env) (issue_number : string) : M (option Issue) :=
  let is_beads := is_beads_issue env issue_number in
  log INFO [Txt "Fetching "; Txt (if is_beads then "beads" else "GitHub");
            Txt " issue: "; Txt issue_number] ;;;
  let '(issue, error) := fetch_issue_unified env issue_number in
  when (truthy (of_opt error))
    (log ERROR [Txt "Failed to fetch issue: "; Fmt (of_opt error)] ;;;
     sys_exit 1) ;;;
  issue_title <- issue_title issue ;;
  log INFO [Txt "Fetched issue: "; Txt issue_title] ;;;
  when is_beads
    (let '(ok, error) := update_beads_status env issue_number "in_progress" in
     when (negb ok)
       (log WARNING [Txt "Failed to update beads status: "; Fmt (of_opt error)])) ;;;
  ret issue.

(** Lines 111-131: create the worktree, allocate the ports, record both
    in the state and save it.  Yields the updated state, the worktree path
    and the ports. *)
Definition worktree_step (env : Env) (adw_id : string) (state : ADWState)
    (branch_name : value) : M (ADWState * value * (Z * Z)) :=
  log INFO [Txt "Creating isolated worktree"] ;;;
  let '(worktree_path, error) := create_worktree env adw_id branch_name in
  let worktree_path := of_opt worktree_path in
  when (truthy (of_opt error))
    (log ERROR [Txt "Failed to create worktree: "; Fmt (of_opt error)] ;;;
     sys_exit 1) ;;;
  log INFO [Txt "Created worktree at: "; Fmt worktree_path] ;;;
  let '(backend_port, frontend_port) := find_next_available_ports env adw_id in
  log INFO [Txt "Allocated ports - Backend: "; Fmt (PInt backend_port);
            Txt ", Frontend: "; Fmt (PInt frontend_port)] ;;;
  let state :=
    state_update state
      [("worktree_path", worktree_path); ("branch_name", branch_name);
       ("backend_port", PInt backend_port); ("frontend_port", PInt frontend_port)] in
  emit (Save "adw_plan_iso" state) ;;;
  ret (state, worktree_path, (backend_port, frontend_port)).

(** Lines 133-146: install the worktree environment. *)
Definition install_step (env : Env) (adw_id : string) (worktree_path : value)
    (backend_port frontend_port : Z) : M unit :=
  log INFO [Txt "Installing worktree environment"] ;;;
  let install_request := install_request adw_id worktree_path backend_port frontend_port in
  emit (ExecuteTemplate install_request) ;;;
  let install_response := execute_template env install_request in
  when (negb (success install_response))
    (log ERROR [Txt "Failed to install worktree: "; Txt (output install_response)] ;;;
     sys_exit 1) ;;;
  log INFO [Txt "Worktree environment installed"].

(** Line 149: state.get("issue_class") or "/chore" *)
Definition plan_command (state : ADWState) : value :=
  let c := state_get state "issue_class" in
  if truthy c then c else PStr "/chore".

(** Lines 163-169: the plan file read off the response. *)
Definition plan_file_of (plan_output : string) : string :=
  match PlanRe.search plan_output with
  | Some m => m
  | None => Str.strip plan_output
  end.

(** Lines 148-182: build the plan, record the plan file, save. *)
Definition plan_step (env : Env) (issue : option Issue) (adw_id : string)
    (state : ADWState) (branch_name worktree_path : value)
    (backend_port frontend_port : Z) : M unit :=
  let issue_command := plan_command state in
  log INFO [Txt "Building plan using command: "; Fmt issue_command] ;;;
  emit (BuildPlan issue issue_command adw_id worktree_path) ;;;
  let plan_response := build_plan env issue issue_command adw_id worktree_path in
  when (negb (success plan_response))
    (log ERROR [Txt "Failed to build plan: "; Txt (output plan_response)] ;;;
     sys_exit 1) ;;;
  let plan_file := plan_file_of (output plan_response) in
  log INFO [Txt "Plan created: "; Txt plan_file] ;;;
  let state := state_update state [("plan_file", PStr plan_file)] in
  emit (Save "adw_plan_iso" state) ;;;
  print [Txt NL; Txt "=== ISOLATED PLAN PHASE COMPLETED ==="] ;;;
  print [Txt "ADW ID: "; Txt adw_id] ;;;
  print [Txt "Branch: "; Fmt branch_name] ;;;
  print [Txt "Worktree: "; Fmt worktree_path] ;;;
  print [Txt "Plan file: "; Txt plan_file] ;;;
  print [Txt "Ports: Backend="; Fmt (PInt backend_port);
         Txt ", Frontend="; Fmt (PInt frontend_port)].

(** The state the planning phase works on (lines 66-69): the persisted
    one, or a new one holding the run identifier and the issue number. *)
Definition plan_state (env : Env) (adw_id issue_number : string) : ADWState :=
  match ADWState_load env adw_id with
  | Some state => state
  | None =>
      state_update (ADWState_new adw_id)
        [("adw_id", PStr adw_id); ("issue_number", PStr issue_number)]
  end.

Definition adw_plan_iso (env : Env) (argv : list string) : M unit :=
  match argv with
  | _ :: issue_number :: rest =>
      let adw_id := match rest with a :: _ => Some a | [] => None end in
      let adw_id := ensure_adw_id env issue_number adw_id in
      log INFO [Txt "Using ADW ID: "; Txt adw_id] ;;;
      let state := plan_state env adw_id issue_number in
      issue <- fetch_step env issue_number ;;
      branched <- branch_step env issue adw_id state ;;
      let '(state, branch_name) := branched in
      log INFO [Txt "Using branch: "; Fmt branch_name] ;;;
      allocated <- worktree_step env adw_id state branch_name ;;
      let '(state, worktree_path, (backend_port, frontend_port)) := allocated in
      install_step env adw_id worktree_path backend_port frontend_port ;;;
      plan_step env issue adw_id state branch_name worktree_path backend_port frontend_port
  | _ => emits plan_usage ;;; sys_exit 1
  end.

(* ===================================================================== *)
(** ** The phases that run on existing state *)
(* ===================================================================== *)

Inductive phase := Build | Test | Review | Document.

Definition run_phase (p : phase) : Env -> list string -> M unit :=
  match p with
  | Build => adw_build_iso
  | Test => adw_test_iso
  | Review => adw_review_iso
  | Document => adw_document_iso
  end.

(** sys.argv once the phase has removed its flag. *)
Definition sys_argv (p : phase) (argv : list string) : list string :=
  match p with
  | Test => if mem "--skip-e2e" argv then remove_first "--skip-e2e" argv else argv
  | Review =>
      if mem "--skip-resolution" argv then remove_first "--skip-resolution" argv else argv
  | _ => argv
  end.

Definition agent_calls (t : list event) : list event := List.filter is_agent_call t.
Definition error_logs (t : list event) : list event := List.filter is_error_log t.
Definition review_calls (t : list event) : list event := List.filter is_review_call t.

(** ** Review outcomes *)

(** issue[k] when the finding has the field. *)
Definition field (k : string) (issue : value) : value :=
  match issue with
  | PDict d => default PNone (assoc k d)
  | _ => PNone
  end.

Definition has_field (k : string) (issue : value) : bool :=
  match issue with
  | PDict d => match assoc k d with Some _ => true | None => false end
  | _ => false
  end.

(** A record shaped like a review finding: severity, description,
    resolution and issue index are present (the screenshot is optional). *)
Definition is_finding (issue : value) : bool :=
  has_field "issue_severity" issue && has_field "issue_description" issue
  && has_field "issue_resolution" issue && has_field "review_issue_number" issue.

Definition is_blocker (issue : value) : bool :=
  eq_str (field "issue_severity" issue) "blocker".

(** The blocking findings of [issues], in the order received. *)
Definition blockers (issues : list value) : list value := List.filter is_blocker issues.

(** A parsed review outcome whose review_issues are [issues]. *)
Definition review_outcome (results : value) (issues : list value) : Prop :=
  exists d, results = PDict d
    /\ assoc "review_issues" d = Some (PList issues)
    /\ forallb is_finding issues = true.

(** The invocation got as far as the review agent, which answered [resp]
    with its success flag set. *)
Definition review_answered (env : Env) (argv : list string) (adw_id : string)
    (state : ADWState) (resp : AgentResponse) : Prop :=
  sys_argv Review argv !! 2%nat = Some adw_id
  /\ ADWState_load env adw_id = Some state
  /\ (validate_worktree env adw_id state).1 = true
  /\ truthy (of_opt (find_spec_file env state)) = true
  /\ resp = execute_template env
              (review_request adw_id (of_opt (find_spec_file env state))
                 (state_get state "worktree_path"))
  /\ success resp = true.

(** The patch call the resolution loop makes for a finding. *)
Definition patch_call_for (env : Env) (adw_id : string) (state : ADWState)
    (issue : value) : PatchCall :=
  patch_call adw_id (of_opt (find_spec_file env state)) (state_get state "worktree_path")
    (field "issue_resolution" issue) (field "screenshot_path" issue).

(** What the review phase logs and calls before it reads the answer of
    the review agent (lines 68-95). *)
Definition review_prefix (env : Env) (adw_id : string) (state : ADWState) : list event :=
  let spec_file := of_opt (find_spec_file env state) in
  let worktree_path := state_get state "worktree_path" in
  [ Log INFO [Txt "Validating worktree"];
    Log INFO [Txt "Using worktree: "; Fmt worktree_path];
    Log INFO [Txt "Using spec file: "; Fmt spec_file];
    Log INFO [Txt "Running review"];
    ExecuteTemplate (review_request adw_id spec_file worktree_path) ].

(** The log lines about one finding. *)
Definition report_line (issue : value) : event :=
  Log ERROR [Txt "  - "; Fmt (field "issue_description" issue)].

Definition resolving_line (issue : value) : event :=
  Log INFO [Txt "Resolving issue "; Fmt (field "review_issue_number" issue);
            Txt ": "; Fmt (field "issue_description" issue)].

Definition resolved_line (issue : value) : event :=
  Log INFO [Txt "Resolved issue "; Fmt (field "review_issue_number" issue)].

Definition patch_failed_line (resp : AgentResponse) : event :=
  Log ERROR [Txt "Failed to resolve issue: "; Txt (output resp)].

Definition summary_line (results : value) : event :=
  Log INFO [Txt "Review completed: ";
            Fmt (match results with
                 | PDict d => default (PStr "No summary") (assoc "review_summary" d)
                 | _ => PNone
                 end)].

Definition blocking_found_line (skip_resolution : bool) (n : nat) : event :=
  if skip_resolution
  then Log ERROR [Txt "Found "; Num n; Txt " blocking issues (resolution skipped)"]
  else Log WARNING [Txt "Found "; Num n; Txt " blocking issues, attempting resolution"].

Definition is_build_plan (e : event) : bool :=
  match e with BuildPlan _ _ _ _ => true | _ => false end.

(** The worktree fields as the planning phase sets them for run [adw_id]. *)
Definition allocated_fields (env : Env) (adw_id : string) (st : ADWState) : Prop :=
  exists branch_name : value,
    st !! "branch_name" = Some branch_name
    /\ st !! "worktree_path" = Some (of_opt (create_worktree env adw_id branch_name).1)
    /\ st !! "backend_port" = Some (PInt (find_next_available_ports env adw_id).1)
    /\ st !! "frontend_port" = Some (PInt (find_next_available_ports env adw_id).2).

(** A payload inside a fenced block: the opening fence with its language
    tag (possibly empty), the payload on its own lines, the closing fence. *)
Definition fenced (tag payload : string) : string :=
  "```" +:+ (tag +:+ (NL +:+ (payload +:+ (NL +:+ "```")))).

(** [c] is none of the characters of [sub]. *)
Fixpoint lacks (c : ascii) (sub : string) : bool :=
  match sub with
  | EmptyString => true
  | String a sub' => negb (Ascii.eqb a c) && lacks c sub'
  end.

(** Events that neither build the plan nor save the state. *)
Definition plain (e : event) : Prop := is_build_plan e = false /\ is_save e = false.

Definition no_build (e : event) : Prop := is_build_plan e = false.

(** Events that neither reach the agent nor save the state. *)
Definition silent (e : event) : Prop := is_agent_call e = false /\ is_save e = false.

(** The fields the planning phase writes before its first save. *)
Definition planning_fields : list string :=
  ["issue_class"; "worktree_path"; "branch_name"; "backend_port"; "frontend_port"].

(** [st'] holds what [st] holds, the fields [keys] apart. *)
Definition same_but (keys : list string) (st st' : ADWState) : Prop :=
  forall key : string, ~ In key keys -> st' !! key = st !! key.

(** The state holds the run identifier and the issue number. *)
Definition identified (adw_id issue_number : string) (st : ADWState) : Prop :=
  st !! "adw_id" = Some (PStr adw_id) /\ st !! "issue_number" = Some (PStr issue_number).

(** An event that, if it saves, saves [state]. *)
Definition saves_only (state : ADWState) (e : event) : Prop :=
  match e with Save _ st => st = state | _ => True end.

(** The environment in which ADWState.load finds [state]. *)
Definition with_loaded (env : Env) (state : ADWState) : Env :=
  {| ADWState_load := fun _ => Some state;
     validate_worktree := validate_worktree env;
     find_spec_file := find_spec_file env;
     execute_template := execute_template env;
     implement_plan := implement_plan env;
     create_and_implement_patch := create_and_implement_patch env;
     json_loads := json_loads env;
     path_exists := path_exists env;
     script_root := script_root env;
     ensure_adw_id := ensure_adw_id env;
     is_beads_issue := is_beads_issue env;
     fetch_issue_unified := fetch_issue_unified env;
     update_beads_status := update_beads_status env;
     classify_issue := classify_issue env;
     generate_branch_name := generate_branch_name env;
     create_worktree := create_worktree env;
     find_next_available_ports := find_next_available_ports env;
     build_plan := build_plan env |}.

(** The screenshots directory the documentation request carries (lines
    75-87 of adw_document_iso.py): the path when it exists, else "". *)
Definition review_img_dir (env : Env) (adw_id : string) : string :=
  let d := os_path_join (script_root env) ["agents"; adw_id; "review_agent"; "review_img"] in
  if path_exists env d then d else "".

Module Scenario.

Definition state : ADWState :=
  {[ "adw_id" := PStr "a1b2c3d4";
     "issue_number" := PStr "42";
     "branch_name" := PStr "feat-issue-42-adw-a1b2c3d4-login";
     "plan_file" := PStr "specs/issue-42-login.md";
     "worktree_path" := PStr "/trees/a1b2c3d4";
     "backend_port" := PInt 9100;
     "frontend_port" := PInt 9200 ]}.

Definition env (load : option ADWState) (valid : bool * option string)
    (spec : option string) (agent : AgentResponse)
    (patch : nat -> option string * AgentResponse)
    (loads : string -> option value) : Env :=
  {| ADWState_load := fun _ => load;
     validate_worktree := fun _ _ => valid;
     find_spec_file := fun _ => spec;
     execute_template := fun _ => agent;
     implement_plan := fun _ _ _ _ => agent;
     create_and_implement_patch := fun n _ => patch n;
     json_loads := loads;
     path_exists := fun _ => false;
     script_root := "/repo";
     ensure_adw_id := fun _ a => default "a1b2c3d4" a;
     is_beads_issue := fun _ => false;
     fetch_issue_unified := fun _ => (Some {| title := "Add login" |}, None);
     update_beads_status := fun _ _ => (true, None);
     classify_issue := fun _ _ => (Some "/feature", None);
     generate_branch_name := fun _ _ _ => (Some "feat-issue-42-adw-a1b2c3d4-login", None);
     create_worktree := fun _ _ => (Some "/trees/a1b2c3d4", None);
     find_next_available_ports := fun _ => (9100, 9200);
     build_plan := fun _ _ _ _ => agent |}.

Definition finding (n : Z) (severity description resolution : string) : value :=
  PDict [("review_issue_number", PInt n);
         ("issue_description", PStr description);
         ("issue_resolution", PStr resolution);
         ("issue_severity", PStr severity)].

Definition two_blockers : value :=
  PDict [("success", PBool false);
         ("review_summary", PStr "Two problems block the change");
         ("review_issues",
           PList [finding 1 "blocker" "Login button missing" "Add the button";
                  finding 2 "skippable" "Typo in footer" "Fix the typo";
                  finding 3 "blocker" "Form does not submit" "Wire the handler"])].

Definition loads_two (s : string) : option value :=
  if String.eqb s "PAYLOAD" then Some two_blockers else None.

Definition ok (text : string) : AgentResponse := {| success := true; output := text |}.
Definition ko (text : string) : AgentResponse := {| success := false; output := text |}.

Definition one_blocker : value :=
  PDict [("success", PBool false);
         ("review_summary", PStr "The form cannot be submitted");
         ("review_issues",
           PList [finding 1 "blocker" "Form does not submit" "Wire the handler"])].

Definition loads_one (s : string) : option value :=
  if String.eqb s "PAYLOAD" then Some one_blocker else None.

Definition review_argv : list string := ["adw_review_iso.py"; "42"; "a1b2c3d4"].

Definition review_argv_skip : list string :=
  ["adw_review_iso.py"; "42"; "a1b2c3d4"; "--skip-resolution"].

(** A run whose review agent answers a payload that parses to the outcome
    [loads] gives, and whose n-th patch call answers [patch n]. *)
Definition review_env (patch : nat -> option string * AgentResponse)
    (loads : string -> option value) : Env :=
  env (Some state) (true, None) (Some "specs/issue-42-login.md") (ok "PAYLOAD") patch loads.

Definition patches_ok (n : nat) : option string * AgentResponse :=
  (Some "specs/patch/patch-adw-a1b2c3d4.md", ok "patched").

Definition first_patch_fails (n : nat) : option string * AgentResponse :=
  match n with
  | O => (None, ko "patch agent timed out")
  | S _ => (Some "specs/patch/patch-adw-a1b2c3d4.md", ok "patched")
  end.

Definition second_patch_fails (n : nat) : option string * AgentResponse :=
  match n with
  | S O => (None, ko "patch agent timed out")
  | _ => (Some "specs/patch/patch-adw-a1b2c3d4.md", ok "patched")
  end.

(** A first run of the planning phase: nothing persisted yet, every
    collaborator succeeds, every agent call answers [agent]. *)
Definition plan_env (agent : AgentResponse) : Env :=
  env None (true, None) None agent patches_ok (fun _ => None).

Definition plan_argv : list string := ["adw_plan_iso.py"; "42"].

(** The double quote. *)
Definition DQ : string := String (ascii_of_nat 34) EmptyString.

(** Two characters above the ASCII range: the letter e with acute accent,
    U+00E9, and the no-break space, U+00A0.  (A string literal holding
    such a character would denote the bytes of its UTF-8 encoding, that
    is, two code points.) *)
Definition E_ACUTE : string := String (ascii_of_nat 233) EmptyString.
Definition NBSP : string := String (ascii_of_nat 160) EmptyString.

(** A review outcome whose summary mentions a code fence, as JSON text. *)
Definition fence_in_summary : string :=
  "{" +:+ DQ +:+ "review_summary" +:+ DQ +:+ ": " +:+ DQ
  +:+ "Wrap the snippet in ``` fences" +:+ DQ +:+ ", " +:+ DQ +:+ "success" +:+ DQ
  +:+ ": true, " +:+ DQ +:+ "review_issues" +:+ DQ +:+ ": []}".

Definition fence_outcome : value :=
  PDict [("review_summary", PStr "Wrap the snippet in ``` fences");
         ("success", PBool true);
         ("review_issues", PList [])].

(** json.loads on the texts of this scenario: the payload parses, and any
    other text, such as a payload cut short inside a string, does not. *)
Definition loads_fence (s : string) : option value :=
  if String.eqb s fence_in_summary then Some fence_outcome else None.

Definition answer_env (answer : string) : Env :=
  env (Some state) (true, None) (Some "specs/issue-42-login.md") (ok answer) patches_ok
    loads_fence.

End Scenario.

Import Scenario.


(** The environment with another json.loads. *)
Definition with_json_loads (env : Env) (loads : string -> option value) : Env :=
  {| ADWState_load := ADWState_load env;
     validate_worktree := validate_worktree env;
     find_spec_file := find_spec_file env;
     execute_template := execute_template env;
     implement_plan := implement_plan env;
     create_and_implement_patch := create_and_implement_patch env;
     json_loads := loads;
     path_exists := path_exists env;
     script_root := script_root env;
     ensure_adw_id := ensure_adw_id env;
     is_beads_issue := is_beads_issue env;
     fetch_issue_unified := fetch_issue_unified env;
     update_beads_status := update_beads_status env;
     classify_issue := classify_issue env;
     generate_branch_name := generate_branch_name env;
     create_worktree := create_worktree env;
     find_next_available_ports := find_next_available_ports env;
     build_plan := build_plan env |}.

(** The flag a phase accepts, if any. *)
Definition phase_flag (p : phase) : option string :=
  match p with
  | Test => Some "--skip-e2e"
  | Review => Some "--skip-resolution"
  | _ => None
  end.

Definition is_dict (v : value) : bool :=
  match v with PDict _ => true | _ => false end.

(** Every character of [w] is in the class [\w-]. *)
Fixpoint all_class (w : string) : bool :=
  match w with
  | EmptyString => true
  | String c w' => PlanRe.in_class c && all_class w'
  end.

(* ===================================================================== *)
(** * Properties *)
(* ===================================================================== *)

(** ** The str methods and the plan pattern on examples *)

Example strip_ex : Str.strip "  ab c
 " = "ab c".
Proof. reflexivity. Qed.

Example find_ex : Str.find "xx```json{}```" "```" 5 = Some 11%nat.
Proof. reflexivity. Qed.

Example find_none_ex : Str.find "abc" "```" 0 = None.
Proof. reflexivity. Qed.

Example slice_ex : Str.slice "0123456789" 2 5 = "234".
Proof. reflexivity. Qed.

Example plan_re_ex :
  PlanRe.search "Created plan at specs/issue-12_plan.md, done" = Some "specs/issue-12_plan.md".
Proof. reflexivity. Qed.

Example plan_re_none_ex : PlanRe.search "specs/.md and specs/a.txt" = None.
Proof. reflexivity. Qed.

(** A letter of the Latin-1 block is a word character of the pattern, the
    copyright sign U+00A9 is not. *)
Example plan_re_latin1_ex :
  PlanRe.search ("Plan written to specs/caf" +:+ E_ACUTE +:+ "-plan.md")
  = Some ("specs/caf" +:+ E_ACUTE +:+ "-plan.md").
Proof. reflexivity. Qed.

Example plan_re_latin1_none_ex :
  PlanRe.search ("specs/a" +:+ String (ascii_of_nat 169) EmptyString +:+ "b.md") = None.
Proof. reflexivity. Qed.

(** str.strip removes the no-break space. *)
Example strip_nbsp_ex : Str.strip (NBSP +:+ " ab" +:+ NBSP) = "ab".
Proof. reflexivity. Qed.


(** ** The trace monad *)

Lemma trace_bind {A B} (m : M A) (k : A -> M B) :
  trace (bind m k) =
    trace m ++ match result m with Ok a => trace (k a) | Raise _ => [] end.
Proof.
  destruct m as [t [a|e]]; unfold bind, trace, result; simpl.
  - destruct (k a); reflexivity.
  - rewrite app_nil_r. reflexivity.
Qed.

Lemma result_bind {A B} (m : M A) (k : A -> M B) :
  result (bind m k) =
    match result m with Ok a => result (k a) | Raise e => Raise e end.
Proof.
  destruct m as [t [a|e]]; unfold bind, trace, result; simpl; try reflexivity.
  destruct (k a); reflexivity.
Qed.

Lemma trace_try {A} (body handler : M A) :
  trace (try_except_JSONDecodeError body handler) =
    trace body ++ match result body with
                  | Raise JSONDecodeError => trace handler
                  | _ => []
                  end.
Proof.
  destruct body as [t [a|[]]]; unfold try_except_JSONDecodeError, trace, result; simpl;
    rewrite ?app_nil_r; try reflexivity.
  destruct handler; reflexivity.
Qed.

Lemma result_try {A} (body handler : M A) :
  result (try_except_JSONDecodeError body handler) =
    match result body with
    | Raise JSONDecodeError => result handler
    | r => r
    end.
Proof.
  destruct body as [t [a|[]]]; unfold try_except_JSONDecodeError, trace, result; simpl;
    try reflexivity.
  destruct handler; reflexivity.
Qed.

Lemma run_eta {A} (m : M A) : m = (trace m, result m).
Proof. destruct m; reflexivity. Qed.

(** ** The steps the phases share *)

Lemma argv_at_2 (argv : list string) (adw_id : string) :
  argv !! 2%nat = Some adw_id ->
  exists script issue_number rest, argv = script :: issue_number :: adw_id :: rest.
Proof.
  destruct argv as [|a [|b [|c r]]]; simpl; try discriminate.
  intros [= ->]. eauto.
Qed.

Lemma load_state_some (env : Env) (adw_id : string) (state : ADWState) :
  ADWState_load env adw_id = Some state -> load_state env adw_id = ret state.
Proof. unfold load_state. intros ->. reflexivity. Qed.

Lemma load_state_none (env : Env) (adw_id : string) :
  ADWState_load env adw_id = None ->
  load_state env adw_id =
    ([Log ERROR [Txt "No state found for ADW ID: "; Txt adw_id]], Raise (SystemExit 1)).
Proof. unfold load_state. intros ->. reflexivity. Qed.

Lemma check_worktree_valid (env : Env) (adw_id : string) (state : ADWState) :
  (validate_worktree env adw_id state).1 = true ->
  check_worktree env adw_id state =
    ([Log INFO [Txt "Validating worktree"];
      Log INFO [Txt "Using worktree: "; Fmt (state_get state "worktree_path")]],
     Ok (state_get state "worktree_path")).
Proof.
  unfold check_worktree. destruct (validate_worktree env adw_id state) as [valid error].
  simpl. intros ->. reflexivity.
Qed.

Lemma check_worktree_invalid (env : Env) (adw_id : string) (state : ADWState) :
  (validate_worktree env adw_id state).1 = false ->
  check_worktree env adw_id state =
    ([Log INFO [Txt "Validating worktree"];
      Log ERROR [Txt "Worktree validation failed: ";
                 Fmt (of_opt (validate_worktree env adw_id state).2)]],
     Raise (SystemExit 1)).
Proof.
  unfold check_worktree. destruct (validate_worktree env adw_id state) as [valid error].
  simpl. intros ->. reflexivity.
Qed.

(** Membership in an explicit trace. *)
Ltac in_trace := solve [simpl; repeat first [left; reflexivity | right]].

(** Unfolds a phase whose command line names the run. *)
Ltac enter_phase Hargv :=
  apply argv_at_2 in Hargv as (?script & ?issue & ?rest & Hargv);
  simpl in Hargv;
  unfold run_phase, adw_build_iso, adw_test_iso, adw_review_iso, adw_document_iso;
  rewrite Hargv.

(** ** The test phase (C2) *)

(** C2, as the code has it: when state is present and the worktree valid,
    the test phase saves the state whatever the test agent reports, and
    then exits with the test result status: 0 when the agent call reports
    success, 1 when it reports failures (after a warning that carries the
    agent output). *)
Theorem test_phase_saves_then_exits_with_test_status
    (env : Env) (argv : list string) (adw_id : string) (state : ADWState) :
  sys_argv Test argv !! 2%nat = Some adw_id ->
  ADWState_load env adw_id = Some state ->
  (validate_worktree env adw_id state).1 = true ->
  let resp := execute_template env (test_request adw_id (state_get state "worktree_path")) in
  let run := adw_test_iso env argv in
  saved_states (trace run) = [state]
  /\ In (Save "adw_test_iso" state) (trace run)
  /\ exit_status run = (if success resp then 0 else 1)
  /\ (success resp = false ->
      In (Log WARNING [Txt "Tests had failures: "; Txt (output resp)]) (trace run)).
Proof.
  intros Hargv Hload Hvalid resp run. subst run.
  enter_phase Hargv.
  rewrite (load_state_some _ _ _ Hload). simpl.
  rewrite (check_worktree_valid _ _ _ Hvalid). simpl.
  fold resp.
  destruct (success resp); destruct (mem "--skip-e2e" argv); simpl;
    repeat split; try discriminate; intros; in_trace.
Qed.

(** C2 as stated fails: with state present and the worktree valid, a test
    run that reports failures ends the phase with exit code 1, not 0. *)
Lemma test_failures_exit_code_is_not_zero :
  let env := env (Some state) (true, None) (Some "specs/issue-42-login.md")
               (ko "2 tests failed") (fun _ => (None, ok "")) (fun _ => None) in
  let argv := ["adw_test_iso.py"; "42"; "a1b2c3d4"] in
  ADWState_load env "a1b2c3d4" = Some state
  /\ (validate_worktree env "a1b2c3d4" state).1 = true
  /\ success (execute_template env (test_request "a1b2c3d4" (PStr "/trees/a1b2c3d4"))) = false
  /\ saved_states (trace (adw_test_iso env argv)) = [state]
  /\ exit_status (adw_test_iso env argv) = 1
  /\ exit_status (adw_test_iso env argv) <> 0.
Proof. vm_compute. repeat split; congruence. Qed.

Lemma test_phase_saves_then_exits_with_test_status_witness :
  let env := env (Some state) (true, None) (Some "specs/issue-42-login.md")
               (ko "2 tests failed") (fun _ => (None, ok "")) (fun _ => None) in
  let argv := ["adw_test_iso.py"; "--skip-e2e"; "42"; "a1b2c3d4"] in
  saved_states (trace (adw_test_iso env argv)) = [state]
  /\ exit_status (adw_test_iso env argv) = 1.
Proof.
  intros env argv.
  destruct (test_phase_saves_then_exits_with_test_status env argv "a1b2c3d4" state)
    as (Hs & _ & He & _); [reflexivity | reflexivity | reflexivity |].
  split; [exact Hs | exact He].
Defined.

(** ** Missing state *)

Lemma phase_without_state (p : phase) (env : Env) (argv : list string) (adw_id : string) :
  sys_argv p argv !! 2%nat = Some adw_id ->
  ADWState_load env adw_id = None ->
  run_phase p env argv =
    ([Log ERROR [Txt "No state found for ADW ID: "; Txt adw_id]], Raise (SystemExit 1)).
Proof.
  intros Hargv Hload.
  destruct p; enter_phase Hargv; rewrite (load_state_none _ _ Hload); reflexivity.
Qed.

(** The state the planning phase starts from when none is persisted. *)
Lemma plan_fresh_state_fields (adw_id issue_number : string) :
  let fresh := state_update (ADWState_new adw_id)
                 [("adw_id", PStr adw_id); ("issue_number", PStr issue_number)] in
  fresh !! "adw_id" = Some (PStr adw_id)
  /\ fresh !! "issue_number" = Some (PStr issue_number).
Proof.
  simpl. unfold ADWState_new. split.
  - rewrite lookup_insert_ne by discriminate. apply lookup_insert_eq.
  - apply lookup_insert_eq.
Qed.

(** ** Worktree validation (C6) *)

Lemma phase_with_invalid_worktree (p : phase) (env : Env) (argv : list string)
    (adw_id : string) (state : ADWState) :
  sys_argv p argv !! 2%nat = Some adw_id ->
  ADWState_load env adw_id = Some state ->
  (validate_worktree env adw_id state).1 = false ->
  run_phase p env argv =
    ([Log INFO [Txt "Validating worktree"];
      Log ERROR [Txt "Worktree validation failed: ";
                 Fmt (of_opt (validate_worktree env adw_id state).2)]],
     Raise (SystemExit 1)).
Proof.
  intros Hargv Hload Hvalid.
  destruct p; enter_phase Hargv; rewrite (load_state_some _ _ _ Hload); simpl;
    rewrite (check_worktree_invalid _ _ _ Hvalid); reflexivity.
Qed.

(** A phase whose command line does not name the run prints its usage. *)
Lemma phase_usage (p : phase) (env : Env) (argv : list string) :
  sys_argv p argv !! 2%nat = None ->
  agent_calls (trace (run_phase p env argv)) = []
  /\ saved_states (trace (run_phase p env argv)) = [].
Proof.
  intros Hargv.
  destruct p; unfold run_phase, adw_build_iso, adw_test_iso, adw_review_iso,
    adw_document_iso; simpl in Hargv;
  match goal with
  | H : ?l !! 2%nat = None |- _ => destruct l as [|? [|? [|? ?]]]; try discriminate H
  end; split; reflexivity.
Qed.

(** Every run of a phase is of one of four kinds. *)
Lemma phase_cases (p : phase) (env : Env) (argv : list string) :
  sys_argv p argv !! 2%nat = None
  \/ (exists adw_id, sys_argv p argv !! 2%nat = Some adw_id
        /\ ADWState_load env adw_id = None)
  \/ (exists adw_id state, sys_argv p argv !! 2%nat = Some adw_id
        /\ ADWState_load env adw_id = Some state
        /\ (validate_worktree env adw_id state).1 = false)
  \/ (exists adw_id state, sys_argv p argv !! 2%nat = Some adw_id
        /\ ADWState_load env adw_id = Some state
        /\ (validate_worktree env adw_id state).1 = true).
Proof.
  destruct (sys_argv p argv !! 2%nat) as [adw_id|] eqn:Hargv; [right | left; reflexivity].
  destruct (ADWState_load env adw_id) as [state|] eqn:Hload; [right | left; eauto].
  destruct ((validate_worktree env adw_id state).1) eqn:Hvalid; [right | left]; eauto 6.
Qed.

(** C6: a build, test or review invocation (and a document invocation as
    well) whose recorded worktree fails validation exits with status 1,
    the validation error in its error log, and makes no agent call; and in
    any invocation that makes an agent call the worktree validation has
    succeeded. *)
Theorem worktree_validation_precedes_agent_calls
    (p : phase) (env : Env) (argv : list string) :
  (forall (adw_id : string) (state : ADWState),
      sys_argv p argv !! 2%nat = Some adw_id ->
      ADWState_load env adw_id = Some state ->
      (validate_worktree env adw_id state).1 = false ->
      exit_status (run_phase p env argv) = 1
      /\ agent_calls (trace (run_phase p env argv)) = []
      /\ last (trace (run_phase p env argv)) =
           Some (Log ERROR [Txt "Worktree validation failed: ";
                            Fmt (of_opt (validate_worktree env adw_id state).2)]))
  /\ (agent_calls (trace (run_phase p env argv)) <> [] ->
      exists (adw_id : string) (state : ADWState),
        sys_argv p argv !! 2%nat = Some adw_id
        /\ ADWState_load env adw_id = Some state
        /\ (validate_worktree env adw_id state).1 = true).
Proof.
  split.
  - intros adw_id state Hargv Hload Hvalid.
    rewrite (phase_with_invalid_worktree p env argv adw_id state Hargv Hload Hvalid).
    repeat split; reflexivity.
  - intros Hcalls.
    destruct (phase_cases p env argv)
      as [Hargv | [(adw_id & Hargv & Hload) | [(adw_id & state & Hargv & Hload & Hvalid)
                                              | (adw_id & state & Hok)]]].
    + destruct (phase_usage p env argv Hargv) as [Hnone _]. contradiction.
    + rewrite (phase_without_state p env argv adw_id Hargv Hload) in Hcalls.
      contradiction Hcalls; reflexivity.
    + rewrite (phase_with_invalid_worktree p env argv adw_id state Hargv Hload Hvalid)
        in Hcalls.
      contradiction Hcalls; reflexivity.
    + exists adw_id, state. exact Hok.
Qed.

Lemma worktree_validation_precedes_agent_calls_witness :
  let gone := env (Some state) (false, Some "Worktree directory not found: /trees/a1b2c3d4")
                (Some "specs/issue-42-login.md") (ok "") (fun _ => (None, ok ""))
                (fun _ => None) in
  let argv := ["adw_review_iso.py"; "42"; "a1b2c3d4"; "--skip-resolution"] in
  exit_status (adw_review_iso gone argv) = 1
  /\ agent_calls (trace (adw_review_iso gone argv)) = [].
Proof.
  intros gone argv.
  destruct (worktree_validation_precedes_agent_calls Review gone argv) as [Hfail _].
  pose proof (Hfail "a1b2c3d4" state eq_refl eq_refl eq_refl) as (He & Ha & _).
  split; [exact He | exact Ha].
Defined.

(** ** The review phase *)


Lemma field_item (k : string) (issue : value) :
  has_field k issue = true -> py_item issue k = ret (field k issue).
Proof.
  destruct issue; simpl; try discriminate.
  destruct (assoc k items); [reflexivity | discriminate].
Qed.

Lemma field_get (k : string) (issue : value) :
  has_field "issue_severity" issue = true -> py_get issue k PNone = ret (field k issue).
Proof. destruct issue; simpl; try discriminate. reflexivity. Qed.

Lemma finding_fields (issue : value) :
  is_finding issue = true ->
  has_field "issue_severity" issue = true
  /\ has_field "issue_description" issue = true
  /\ has_field "issue_resolution" issue = true
  /\ has_field "review_issue_number" issue = true.
Proof.
  unfold is_finding. rewrite !andb_true_iff. tauto.
Qed.

Lemma blocking_findings (issues : list value) :
  forallb is_finding issues = true -> blocking issues = ret (blockers issues).
Proof.
  induction issues as [|issue rest IH]; simpl; [reflexivity|].
  rewrite andb_true_iff. intros [Hissue Hrest].
  apply finding_fields in Hissue as (Hsev & _).
  rewrite (field_get "issue_severity" issue Hsev), (IH Hrest). simpl.
  unfold is_blocker. destruct (eq_str (field "issue_severity" issue) "blocker"); reflexivity.
Qed.

Lemma blockers_are_findings (issues : list value) :
  forallb is_finding issues = true -> forallb is_finding (blockers issues) = true.
Proof.
  rewrite !forallb_forall. intros H b Hb. apply H.
  unfold blockers in Hb. apply filter_In in Hb. tauto.
Qed.

Lemma report_blocking_findings (bs : list value) :
  forallb is_finding bs = true -> report_blocking bs = (map report_line bs, Ok tt).
Proof.
  induction bs as [|b rest IH]; simpl; [reflexivity|].
  rewrite andb_true_iff. intros [Hb Hrest].
  apply finding_fields in Hb as (_ & Hdesc & _).
  rewrite (field_item _ _ Hdesc), (IH Hrest). reflexivity.
Qed.

Section Review.

Variable env : Env.
Variable adw_id : string.
Variable state : ADWState.

Let spec_file := of_opt (find_spec_file env state).
Let worktree_path := state_get state "worktree_path".
Let call := patch_call_for env adw_id state.

(** One turn of the resolution loop, when the patch is applied. *)
Lemma resolve_issues_patched (n : nat) (b : value) (rest : list value) :
  is_finding b = true ->
  success (create_and_implement_patch env n (call b)).2 = true ->
  resolve_issues env adw_id spec_file worktree_path n (b :: rest) =
    bind ([resolving_line b; CreateAndImplementPatch (call b); resolved_line b], Ok tt)
      (fun _ => resolve_issues env adw_id spec_file worktree_path (S n) rest).
Proof.
  intros Hb Hok. apply finding_fields in Hb as (Hsev & Hdesc & Hres & Hnum).
  simpl resolve_issues.
  rewrite (field_item _ _ Hnum), (field_item _ _ Hdesc), (field_item _ _ Hres),
    (field_get "screenshot_path" _ Hsev).
  simpl. fold (call b) in *.
  change (patch_call adw_id spec_file worktree_path (field "issue_resolution" b)
            (field "screenshot_path" b)) with (call b).
  destruct (create_and_implement_patch env n (call b)) as [patch_file patch_response].
  simpl in Hok. rewrite Hok. simpl.
  destruct (resolve_issues env adw_id spec_file worktree_path (S n) rest). reflexivity.
Qed.

(** One turn of the resolution loop, when the patch fails. *)
Lemma resolve_issues_failed (n : nat) (b : value) (rest : list value) :
  is_finding b = true ->
  success (create_and_implement_patch env n (call b)).2 = false ->
  resolve_issues env adw_id spec_file worktree_path n (b :: rest) =
    ([resolving_line b; CreateAndImplementPatch (call b);
      patch_failed_line (create_and_implement_patch env n (call b)).2],
     Raise (SystemExit 1)).
Proof.
  intros Hb Hok. apply finding_fields in Hb as (Hsev & Hdesc & Hres & Hnum).
  simpl resolve_issues.
  rewrite (field_item _ _ Hnum), (field_item _ _ Hdesc), (field_item _ _ Hres),
    (field_get "screenshot_path" _ Hsev).
  simpl.
  change (patch_call adw_id spec_file worktree_path (field "issue_resolution" b)
            (field "screenshot_path" b)) with (call b).
  destruct (create_and_implement_patch env n (call b)) as [patch_file patch_response].
  simpl in Hok. rewrite Hok. reflexivity.
Qed.

Lemma resolve_issues_all_patched (bs : list value) : forall n : nat,
  forallb is_finding bs = true ->
  (forall (i : nat) (b : value), bs !! i = Some b -> success (create_and_implement_patch env (n + i) (call b)).2 = true) ->
  let run := resolve_issues env adw_id spec_file worktree_path n bs in
  result run = Ok tt
  /\ patch_calls (trace run) = map call bs
  /\ saved_states (trace run) = []
  /\ error_logs (trace run) = []
  /\ review_calls (trace run) = [].
Proof.
  induction bs as [|b rest IH]; intros n Hfind Hall; cbv zeta.
  - repeat split; reflexivity.
  - simpl in Hfind. apply andb_true_iff in Hfind as [Hb Hrest].
    assert (Hok : success (create_and_implement_patch env n (call b)).2 = true).
    { specialize (Hall 0%nat b eq_refl). rewrite Nat.add_0_r in Hall. exact Hall. }
    rewrite (resolve_issues_patched n b rest Hb Hok).
    rewrite trace_bind, result_bind. simpl.
    destruct (IH (S n) Hrest) as (Hr & Hp & Hs & He & Hv).
    { intros i b' Hi. specialize (Hall (S i) b' Hi).
      rewrite Nat.add_succ_r in Hall. exact Hall. }
    repeat split; [exact Hr | now rewrite Hp | exact Hs | exact He | exact Hv].
Qed.

Lemma resolve_issues_first_failure (bs : list value) : forall (n k : nat) (b : value),
  forallb is_finding bs = true ->
  bs !! k = Some b ->
  (forall (i : nat) (b' : value), (i < k)%nat -> bs !! i = Some b' -> success (create_and_implement_patch env (n + i) (call b')).2 = true) ->
  success (create_and_implement_patch env (n + k) (call b)).2 = false ->
  let run := resolve_issues env adw_id spec_file worktree_path n bs in
  let failure := patch_failed_line (create_and_implement_patch env (n + k) (call b)).2 in
  result run = Raise (SystemExit 1)
  /\ patch_calls (trace run) = map call (take (S k) bs)
  /\ saved_states (trace run) = []
  /\ error_logs (trace run) = [failure]
  /\ review_calls (trace run) = []
  /\ exists pre, trace run = pre ++ [CreateAndImplementPatch (call b); failure]
                 /\ In (resolving_line b) pre.
Proof.
  induction bs as [|b0 rest IH]; intros n k b Hfind Hk Hbefore Hfail; [discriminate Hk|].
  simpl in Hfind. apply andb_true_iff in Hfind as [Hb0 Hrest].
  destruct k as [|k].
  - simpl in Hk. injection Hk as ->. rewrite Nat.add_0_r in *.
    cbv zeta. rewrite (resolve_issues_failed n b rest Hb0 Hfail).
    repeat split; try reflexivity.
    exists [resolving_line b]. split; [reflexivity | in_trace].
  - simpl in Hk.
    assert (Hok : success (create_and_implement_patch env n (call b0)).2 = true).
    { specialize (Hbefore 0%nat b0 ltac:(lia) eq_refl).
      rewrite Nat.add_0_r in Hbefore. exact Hbefore. }
    cbv zeta. rewrite (resolve_issues_patched n b0 rest Hb0 Hok).
    rewrite trace_bind, result_bind. simpl.
    replace (n + S k)%nat with (S n + k)%nat in * by lia.
    destruct (IH (S n) k b Hrest Hk) as (Hr & Hp & Hs & He & Hv & pre & Hpre & Hin).
    { intros i b' Hi Hb'. specialize (Hbefore (S i) b' ltac:(lia) Hb').
      rewrite Nat.add_succ_r in Hbefore. exact Hbefore. }
    { exact Hfail. }
    repeat split; [exact Hr | now rewrite Hp | exact Hs | exact He | exact Hv |].
    exists (resolving_line b0 :: CreateAndImplementPatch (call b0) :: resolved_line b0 :: pre).
    split; [rewrite Hpre; reflexivity | simpl; auto].
Qed.

(** Whatever the patches answer, the calls go to a prefix of the findings. *)
Lemma resolve_issues_prefix (bs : list value) : forall n : nat,
  forallb is_finding bs = true ->
  let run := resolve_issues env adw_id spec_file worktree_path n bs in
  (exists k, (k <= length bs)%nat /\ patch_calls (trace run) = map call (take k bs))
  /\ review_calls (trace run) = [].
Proof.
  induction bs as [|b rest IH]; intros n Hfind; cbv zeta.
  - split; [exists 0%nat; split; [simpl; lia | reflexivity] | reflexivity].
  - simpl in Hfind. apply andb_true_iff in Hfind as [Hb Hrest].
    destruct (success (create_and_implement_patch env n (call b)).2) eqn:Hok.
    + rewrite (resolve_issues_patched n b rest Hb Hok).
      rewrite trace_bind. simpl.
      destruct (IH (S n) Hrest) as ((k & Hk & Hp) & Hv).
      split; [|exact Hv].
      exists (S k). split; [simpl; lia | simpl; now rewrite Hp].
    + rewrite (resolve_issues_failed n b rest Hb Hok).
      split; [|reflexivity].
      exists 1%nat. split; [simpl; lia | reflexivity].
Qed.

End Review.

Lemma patch_calls_app (t1 t2 : list event) :
  patch_calls (t1 ++ t2) = patch_calls t1 ++ patch_calls t2.
Proof. apply omap_app. Qed.

Lemma saved_states_app (t1 t2 : list event) :
  saved_states (t1 ++ t2) = saved_states t1 ++ saved_states t2.
Proof. apply omap_app. Qed.

Lemma error_logs_app (t1 t2 : list event) :
  error_logs (t1 ++ t2) = error_logs t1 ++ error_logs t2.
Proof. apply List.filter_app. Qed.

Lemma review_calls_app (t1 t2 : list event) :
  review_calls (t1 ++ t2) = review_calls t1 ++ review_calls t2.
Proof. apply List.filter_app. Qed.

Lemma report_lines (bs : list value) :
  patch_calls (map report_line bs) = []
  /\ saved_states (map report_line bs) = []
  /\ error_logs (map report_line bs) = map report_line bs
  /\ review_calls (map report_line bs) = [].
Proof.
  induction bs as [|b rest (Hp & Hs & He & Hv)]; simpl; [repeat split; reflexivity|].
  repeat split; try assumption.
  unfold error_logs in *. simpl. now rewrite He.
Qed.

Lemma exit_status_result (m : M unit) (r : outcome unit) :
  result m = r ->
  exit_status m = match r with Ok _ => 0 | Raise (SystemExit c) => c | Raise _ => 1 end.
Proof. intros <-. reflexivity. Qed.

Section ReviewRun.

Variable env : Env.
Variable argv : list string.
Variable adw_id : string.
Variable state : ADWState.
Variable resp : AgentResponse.

Hypothesis Hanswered : review_answered env argv adw_id state resp.

Let skip_resolution := mem "--skip-resolution" argv.
Let spec_file := of_opt (find_spec_file env state).
Let worktree_path := state_get state "worktree_path".
Let call := patch_call_for env adw_id state.

Lemma review_run :
  adw_review_iso env argv =
    bind (review_prefix env adw_id state, Ok tt)
      (fun _ => review_results_step env skip_resolution adw_id state spec_file
                  worktree_path resp).
Proof.
  destruct Hanswered as (Hargv & Hload & Hvalid & Hspec & Hresp & Hok).
  apply argv_at_2 in Hargv as (script & issue & rest & Hargv). simpl in Hargv.
  unfold adw_review_iso. rewrite Hargv.
  rewrite (load_state_some _ _ _ Hload). simpl.
  rewrite (check_worktree_valid _ _ _ Hvalid). simpl.
  rewrite Hspec. simpl. rewrite <- Hresp. rewrite Hok. simpl.
  unfold skip_resolution, spec_file, worktree_path.
  destruct (review_results_step _ _ _ _ _ _ _). reflexivity.
Qed.

Lemma review_trace :
  trace (adw_review_iso env argv) =
    review_prefix env adw_id state
    ++ trace (review_results_step env skip_resolution adw_id state spec_file
                worktree_path resp).
Proof. rewrite review_run, trace_bind. reflexivity. Qed.

Lemma review_result :
  result (adw_review_iso env argv) =
    result (review_results_step env skip_resolution adw_id state spec_file
              worktree_path resp).
Proof. rewrite review_run, result_bind. reflexivity. Qed.

(** *** No parseable JSON in the answer *)

Lemma review_unparsed :
  json_loads env (extract_json (output resp)) = None ->
  adw_review_iso env argv =
    (review_prefix env adw_id state
     ++ [Log ERROR [Txt "Failed to parse review results: "; Exc "JSONDecodeError"];
         Log ERROR [Txt "Review output: "; Txt (output resp)]],
     Raise (SystemExit 1)).
Proof.
  intros Hnone. rewrite review_run.
  unfold review_results_step, review_try. rewrite Hnone. reflexivity.
Qed.

(** *** A parsed review outcome *)

Variable results : value.
Variable issues : list value.

Hypothesis Hparsed : json_loads env (extract_json (output resp)) = Some results.
Hypothesis Houtcome : review_outcome results issues.

Let bs := blockers issues.

Lemma review_try_parsed :
  review_try env skip_resolution adw_id state spec_file worktree_path resp =
    bind ([summary_line results], Ok tt)
      (fun _ =>
         bind (review_gate env skip_resolution adw_id spec_file worktree_path bs)
           (fun _ => review_finish skip_resolution adw_id state worktree_path results bs)).
Proof.
  destruct Houtcome as (d & -> & Hissues & Hfind).
  unfold review_try. rewrite Hparsed. simpl. rewrite Hissues. simpl.
  rewrite (blocking_findings issues Hfind). simpl. fold bs.
  destruct (review_gate env skip_resolution adw_id spec_file worktree_path bs) as [t [[]|e]];
    [|reflexivity].
  destruct (review_finish skip_resolution adw_id state worktree_path (PDict d) bs).
  reflexivity.
Qed.

Lemma review_finish_saves :
  let finish := review_finish skip_resolution adw_id state worktree_path results bs in
  result finish = Ok tt
  /\ patch_calls (trace finish) = []
  /\ saved_states (trace finish) = [state]
  /\ error_logs (trace finish) = []
  /\ review_calls (trace finish) = [].
Proof.
  destruct Houtcome as (d & -> & _).
  unfold review_finish. simpl.
  destruct (skip_resolution && nonempty bs); repeat split; reflexivity.
Qed.

Lemma bs_findings : forallb is_finding bs = true.
Proof.
  destruct Houtcome as (d & _ & _ & Hfind). apply blockers_are_findings, Hfind.
Qed.

(** With resolution skipped and a blocking finding, the whole run. *)
Lemma review_skipped :
  skip_resolution = true ->
  bs <> [] ->
  adw_review_iso env argv =
    (review_prefix env adw_id state
     ++ [summary_line results; blocking_found_line true (length bs)]
     ++ map report_line bs,
     Raise (SystemExit 1)).
Proof.
  intros Hskip Hbs. rewrite review_run.
  unfold review_results_step. rewrite review_try_parsed.
  unfold review_gate. rewrite Hskip.
  destruct bs as [|b rest] eqn:Ebs; [contradiction|]. rewrite <- Ebs.
  assert (Hne : nonempty bs = true) by (rewrite Ebs; reflexivity).
  rewrite Hne. simpl andb. cbv iota.
  rewrite (report_blocking_findings bs bs_findings).
  simpl. rewrite app_nil_r. reflexivity.
Qed.

(** With resolution enabled and a blocking finding, the run in terms of
    the resolution loop. *)
Lemma review_resolving :
  skip_resolution = false ->
  bs <> [] ->
  let loop := resolve_issues env adw_id spec_file worktree_path 0 bs in
  let finish := review_finish false adw_id state worktree_path results bs in
  trace (adw_review_iso env argv) =
    review_prefix env adw_id state
    ++ [summary_line results; blocking_found_line false (length bs)]
    ++ trace loop
    ++ match result loop with
       | Ok _ => trace finish
       | Raise JSONDecodeError => trace (review_except resp)
       | Raise _ => []
       end
  /\ result (adw_review_iso env argv) =
       match result loop with
       | Ok _ => result finish
       | Raise JSONDecodeError => Raise (SystemExit 1)
       | Raise e => Raise e
       end.
Proof.
  intros Hskip Hbs loop finish.
  rewrite review_trace, review_result.
  unfold review_results_step. rewrite trace_try, result_try, review_try_parsed.
  unfold review_gate. rewrite Hskip.
  assert (Hne : nonempty bs = true) by (destruct bs; [contradiction | reflexivity]).
  rewrite Hne. simpl andb. cbv iota.
  rewrite !trace_bind, !result_bind. simpl result. cbv iota beta.
  fold loop finish.
  destruct (review_finish_saves) as (Hr & _). rewrite Hskip in Hr. fold finish in Hr.
  rewrite Hr.
  destruct (result loop) as [[]|[]]; simpl; rewrite ?app_nil_r; split; reflexivity.
Qed.

(** Without a blocking finding the run goes straight to saving. *)
Lemma review_clean :
  bs = [] ->
  let finish := review_finish skip_resolution adw_id state worktree_path results bs in
  trace (adw_review_iso env argv) =
    review_prefix env adw_id state ++ [summary_line results] ++ trace finish
  /\ result (adw_review_iso env argv) = Ok tt.
Proof.
  intros Hbs finish.
  rewrite review_trace, review_result.
  unfold review_results_step. rewrite trace_try, result_try, review_try_parsed.
  unfold review_gate. rewrite Hbs. simpl nonempty. simpl andb. cbv iota.
  rewrite !trace_bind, !result_bind. simpl result. cbv iota beta.
  rewrite <- Hbs. fold finish.
  destruct (review_finish_saves) as (Hr & _). fold finish in Hr. rewrite Hr.
  simpl. rewrite ?app_nil_r. split; reflexivity.
Qed.

End ReviewRun.

(** *** Resolution skipped (C1) *)

(** C1: in a review invocation with --skip-resolution whose review outcome
    has at least one blocker finding, the phase exits with status 1; its
    error log is the count of blocking findings followed by one line per
    blocking finding carrying its description, in order; it makes no
    create_and_implement_patch call (and saves nothing). *)
Theorem review_skip_resolution_aborts
    (env : Env) (argv : list string) (adw_id : string) (state : ADWState)
    (resp : AgentResponse) (results : value) (issues : list value) :
  mem "--skip-resolution" argv = true ->
  review_answered env argv adw_id state resp ->
  json_loads env (extract_json (output resp)) = Some results ->
  review_outcome results issues ->
  blockers issues <> [] ->
  let run := adw_review_iso env argv in
  exit_status run = 1
  /\ exit_status run <> 0
  /\ error_logs (trace run) =
       Log ERROR [Txt "Found "; Num (length (blockers issues));
                  Txt " blocking issues (resolution skipped)"]
       :: map (fun issue => Log ERROR [Txt "  - "; Fmt (field "issue_description" issue)])
              (blockers issues)
  /\ patch_calls (trace run) = []
  /\ saved_states (trace run) = [].
Proof.
  intros Hskip Hans Hparsed Hout Hbs run. subst run.
  rewrite (review_skipped env argv adw_id state resp Hans results issues Hparsed Hout Hskip Hbs).
  destruct (report_lines (blockers issues)) as (Hp & Hs & He & _).
  unfold exit_status, trace, result. cbn [fst snd].
  rewrite !error_logs_app, !patch_calls_app, !saved_states_app.
  rewrite Hp, Hs, He.
  repeat split; try reflexivity. discriminate.
Qed.

Lemma review_skip_resolution_aborts_witness :
  let run := adw_review_iso (review_env patches_ok loads_one) review_argv_skip in
  exit_status run = 1
  /\ error_logs (trace run) =
       [Log ERROR [Txt "Found "; Num 1; Txt " blocking issues (resolution skipped)"];
        Log ERROR [Txt "  - "; Fmt (PStr "Form does not submit")]]
  /\ patch_calls (trace run) = [].
Proof.
  intros run.
  assert (Hans : review_answered (review_env patches_ok loads_one) review_argv_skip
                   "a1b2c3d4" state (ok "PAYLOAD")).
  { repeat split; reflexivity. }
  assert (Hout : review_outcome one_blocker
                   [finding 1 "blocker" "Form does not submit" "Wire the handler"]).
  { eexists. repeat split; reflexivity. }
  pose proof (review_skip_resolution_aborts (review_env patches_ok loads_one)
                review_argv_skip "a1b2c3d4" state (ok "PAYLOAD") one_blocker _
                eq_refl Hans eq_refl Hout) as H.
  destruct H as (He & _ & Hl & Hp & _); [discriminate|].
  split; [exact He | split; [exact Hl | exact Hp]].
Defined.

(** *** Resolution enabled (C3, C8) *)

(** C3 as stated fails: with resolution enabled and two blocking findings,
    the first patch failing, one patch call is made, not one per blocking
    finding. *)
Lemma review_one_patch_call_per_blocker_fails :
  let env := review_env first_patch_fails loads_two in
  let run := adw_review_iso env review_argv in
  mem "--skip-resolution" review_argv = false
  /\ review_answered env review_argv "a1b2c3d4" state (ok "PAYLOAD")
  /\ json_loads env (extract_json "PAYLOAD") = Some two_blockers
  /\ length (blockers [finding 1 "blocker" "Login button missing" "Add the button";
                       finding 2 "skippable" "Typo in footer" "Fix the typo";
                       finding 3 "blocker" "Form does not submit" "Wire the handler"]) = 2%nat
  /\ length (patch_calls (trace run)) = 1%nat
  /\ length (patch_calls (trace run)) <> 2%nat.
Proof.
  intros env run.
  split; [reflexivity|]. split; [repeat split; reflexivity|].
  split; [reflexivity|]. split; [reflexivity|].
  split; [vm_compute; reflexivity | vm_compute; discriminate].
Qed.

(** C3, as the code has it: with resolution enabled, the patch calls of a
    review invocation go to a prefix of the blocking findings, one call
    per finding and in the order received (the loop stops at the first
    patch that fails); the review agent is called once; and when every
    patch succeeds there is exactly one call per blocking finding, the
    state is saved and the phase ends with status 0. *)
Theorem review_resolution_attempts
    (env : Env) (argv : list string) (adw_id : string) (state : ADWState)
    (resp : AgentResponse) (results : value) (issues : list value) :
  mem "--skip-resolution" argv = false ->
  review_answered env argv adw_id state resp ->
  json_loads env (extract_json (output resp)) = Some results ->
  review_outcome results issues ->
  let run := adw_review_iso env argv in
  let bs := blockers issues in
  let call := patch_call_for env adw_id state in
  (exists k : nat, (k <= length bs)%nat /\ patch_calls (trace run) = map call (take k bs))
  /\ length (review_calls (trace run)) = 1%nat
  /\ ((forall (i : nat) (b : value),
         bs !! i = Some b -> success (create_and_implement_patch env i (call b)).2 = true) ->
      patch_calls (trace run) = map call bs
      /\ exit_status run = 0
      /\ saved_states (trace run) = [state]).
Proof.
  intros Hskip Hans Hparsed Hout run bs call. subst run.
  pose proof (bs_findings results issues Hout) as Hfind. fold bs in Hfind.
  pose proof (review_finish_saves env argv adw_id state resp results issues Hparsed Hout)
    as (Hfr & Hfp & Hfs & _ & Hfv).
  rewrite Hskip in Hfr, Hfp, Hfs, Hfv. fold bs in Hfr, Hfp, Hfs, Hfv.
  destruct bs as [|b0 rest] eqn:Ebs.
  - (* no blocking finding *)
    destruct (review_clean env argv adw_id state resp Hans results issues Hparsed Hout Ebs)
      as [Ht Hr].
    rewrite Hskip in Ht. fold bs in Ht. rewrite Ebs in Ht.
    unfold exit_status. rewrite Hr, Ht.
    rewrite !patch_calls_app, !review_calls_app, !saved_states_app, Hfp, Hfv, Hfs.
    repeat split; try reflexivity.
    exists 0%nat. split; [reflexivity | reflexivity].
  - assert (Hne : blockers issues <> []) by (fold bs; rewrite Ebs; discriminate).
    destruct (review_resolving env argv adw_id state resp Hans results issues Hparsed Hout
                Hskip Hne) as [Ht Hr].
    fold bs in Ht, Hr. rewrite Ebs in Ht, Hr.
    set (loop := resolve_issues env adw_id (of_opt (find_spec_file env state))
                   (state_get state "worktree_path") 0 (b0 :: rest)) in *.
    destruct (resolve_issues_prefix env adw_id state (b0 :: rest) 0%nat Hfind)
      as ((k & Hk & Hcalls) & Hrev).
    fold loop call in Hcalls, Hrev.
    split; [|split].
    + exists k. split; [exact Hk|].
      rewrite Ht, !patch_calls_app, Hcalls. simpl patch_calls at 1 2.
      destruct (result loop) as [[]|[]]; simpl; rewrite ?Hfp, ?app_nil_r; reflexivity.
    + rewrite Ht, !review_calls_app, Hrev.
      destruct (result loop) as [[]|[]]; simpl; rewrite ?Hfv; reflexivity.
    + intros Hall.
      destruct (resolve_issues_all_patched env adw_id state (b0 :: rest) 0%nat Hfind Hall)
        as (Hlr & Hlp & Hls & _).
      fold loop call in Hlr, Hlp, Hls.
      unfold exit_status. rewrite Hr, Ht, Hlr, Hfr.
      rewrite !patch_calls_app, !saved_states_app, Hlp, Hls, Hfp, Hfs.
      simpl. rewrite app_nil_r. repeat split; reflexivity.
Qed.

(** The scenario of two blocker findings whose patches both succeed: two
    patch calls, the state saved, status 0. *)
Lemma review_resolution_attempts_witness :
  let env := review_env patches_ok loads_two in
  let run := adw_review_iso env review_argv in
  length (patch_calls (trace run)) = 2%nat
  /\ exit_status run = 0
  /\ saved_states (trace run) = [state]
  /\ length (review_calls (trace run)) = 1%nat.
Proof.
  intros env run.
  assert (Hans : review_answered env review_argv "a1b2c3d4" state (ok "PAYLOAD")).
  { repeat split; reflexivity. }
  assert (Hout : review_outcome two_blockers
                   [finding 1 "blocker" "Login button missing" "Add the button";
                    finding 2 "skippable" "Typo in footer" "Fix the typo";
                    finding 3 "blocker" "Form does not submit" "Wire the handler"]).
  { eexists. repeat split; reflexivity. }
  pose proof (review_resolution_attempts env review_argv "a1b2c3d4" state (ok "PAYLOAD")
                two_blockers _ eq_refl Hans eq_refl Hout) as (_ & Hrev & Hall).
  destruct Hall as (Hcalls & Hexit & Hsaved); [intros i b _; reflexivity|].
  split; [|split; [exact Hexit | split; [exact Hsaved | exact Hrev]]].
  fold run in Hcalls. rewrite Hcalls. reflexivity.
Defined.

(** C8 as stated fails: when the patch of a blocking finding fails, the
    failure that is logged carries the output of the patch response; the
    description of the finding appears in no error message of the run. *)
Lemma review_patch_failure_message_lacks_description :
  let env := review_env second_patch_fails loads_two in
  let run := adw_review_iso env review_argv in
  field "issue_description" (finding 3 "blocker" "Form does not submit" "Wire the handler")
    = PStr "Form does not submit"
  /\ exit_status run = 1
  /\ error_logs (trace run) =
       [Log ERROR [Txt "Failed to resolve issue: "; Txt "patch agent timed out"]]
  /\ ~ (exists msg, In (Log ERROR msg) (trace run)
                    /\ (In (Fmt (PStr "Form does not submit")) msg
                        \/ In (Txt "Form does not submit") msg)).
Proof.
  intros env run.
  assert (Hlogs : error_logs (trace run) =
            [Log ERROR [Txt "Failed to resolve issue: "; Txt "patch agent timed out"]])
    by (vm_compute; reflexivity).
  split; [reflexivity|]. split; [vm_compute; reflexivity|]. split; [exact Hlogs|].
  intros (msg & Hin & Hdesc).
  assert (Hin' : In (Log ERROR msg) (error_logs (trace run))).
  { unfold error_logs. apply filter_In. split; [exact Hin | reflexivity]. }
  rewrite Hlogs in Hin'. destruct Hin' as [[= <-]|[]].
  destruct Hdesc as [[|[|[]]]|[|[|[]]]]; discriminate.
Qed.

(** C8, as the code has it: when the patch of a blocking finding fails
    (those of the findings before it having succeeded), the review phase
    exits with status 1; its only error message carries the output of the
    failed patch response, the number and description of the finding
    having been logged at INFO level before the call; the failed call and
    that message end the trace: the calls made for the earlier findings
    stand, nothing is undone and no state is saved. *)
Theorem review_patch_failure_aborts
    (env : Env) (argv : list string) (adw_id : string) (state : ADWState)
    (resp : AgentResponse) (results : value) (issues : list value)
    (k : nat) (b : value) :
  mem "--skip-resolution" argv = false ->
  review_answered env argv adw_id state resp ->
  json_loads env (extract_json (output resp)) = Some results ->
  review_outcome results issues ->
  let run := adw_review_iso env argv in
  let bs := blockers issues in
  let call := patch_call_for env adw_id state in
  let failure :=
    Log ERROR [Txt "Failed to resolve issue: ";
               Txt (output (create_and_implement_patch env k (call b)).2)] in
  bs !! k = Some b ->
  (forall (i : nat) (b' : value), (i < k)%nat -> bs !! i = Some b' ->
     success (create_and_implement_patch env i (call b')).2 = true) ->
  success (create_and_implement_patch env k (call b)).2 = false ->
  exit_status run = 1
  /\ error_logs (trace run) = [failure]
  /\ patch_calls (trace run) = map call (take (S k) bs)
  /\ saved_states (trace run) = []
  /\ exists pre, trace run = pre ++ [CreateAndImplementPatch (call b); failure]
       /\ In (Log INFO [Txt "Resolving issue "; Fmt (field "review_issue_number" b);
                        Txt ": "; Fmt (field "issue_description" b)]) pre.
Proof.
  intros Hskip Hans Hparsed Hout run bs call failure Hk Hbefore Hfail. subst run.
  pose proof (bs_findings results issues Hout) as Hfind. fold bs in Hfind.
  assert (Hne : blockers issues <> []).
  { fold bs. intros E. rewrite E in Hk. discriminate. }
  destruct (review_resolving env argv adw_id state resp Hans results issues Hparsed Hout
              Hskip Hne) as [Ht Hr].
  fold bs in Ht, Hr.
  destruct (resolve_issues_first_failure env adw_id state bs 0%nat k b Hfind Hk Hbefore Hfail)
    as (Hlr & Hlp & Hls & Hle & _ & pre & Hpre & Hin).
  fold call in Hlp, Hle, Hpre. fold failure in Hle, Hpre.
  unfold exit_status. rewrite Hr, Ht, Hlr.
  rewrite Hlr in Ht.
  rewrite app_nil_r, !error_logs_app, !patch_calls_app, !saved_states_app, Hle, Hlp, Hls.
  repeat split; try reflexivity.
  exists (review_prefix env adw_id state
          ++ [summary_line results; blocking_found_line false (length bs)] ++ pre).
  split.
  - rewrite Hpre, <- !app_assoc. reflexivity.
  - apply in_or_app. right. apply in_or_app. right. exact Hin.
Qed.

Lemma review_patch_failure_aborts_witness :
  let env := review_env second_patch_fails loads_two in
  let run := adw_review_iso env review_argv in
  exit_status run = 1
  /\ length (patch_calls (trace run)) = 2%nat
  /\ saved_states (trace run) = [].
Proof.
  intros env run.
  assert (Hans : review_answered env review_argv "a1b2c3d4" state (ok "PAYLOAD")).
  { repeat split; reflexivity. }
  assert (Hout : review_outcome two_blockers
                   [finding 1 "blocker" "Login button missing" "Add the button";
                    finding 2 "skippable" "Typo in footer" "Fix the typo";
                    finding 3 "blocker" "Form does not submit" "Wire the handler"]).
  { eexists. repeat split; reflexivity. }
  pose proof (review_patch_failure_aborts env review_argv "a1b2c3d4" state (ok "PAYLOAD")
                two_blockers _ 1%nat
                (finding 3 "blocker" "Form does not submit" "Wire the handler")
                eq_refl Hans eq_refl Hout eq_refl) as H.
  destruct H as (Hexit & _ & Hcalls & Hsaved & _).
  - intros [|i] b' Hi Hb'; [reflexivity | lia].
  - reflexivity.
  - split; [exact Hexit | split; [|exact Hsaved]].
    fold run in Hcalls. rewrite Hcalls. reflexivity.
Defined.

(** ** The planning phase *)

Lemma bind_reach {A B} (m : M A) (k : A -> M B) (e : event) :
  In e (trace (bind m k)) ->
  ~ In e (trace m) ->
  exists a, result m = Ok a
            /\ In e (trace (k a))
            /\ trace (bind m k) = trace m ++ trace (k a)
            /\ result (bind m k) = result (k a).
Proof.
  rewrite trace_bind, result_bind. intros Hin Hnot.
  apply in_app_or in Hin as [Hin|Hin]; [contradiction|].
  destruct (result m) as [a|x]; [|contradiction].
  exists a. repeat split; assumption.
Qed.


Lemma plain_no_build (t : list event) (issue : option Issue) (c : value) (a : string)
    (w : value) :
  Forall plain t -> ~ In (BuildPlan issue c a w) t.
Proof.
  induction 1 as [|e t [He _] _ IH]; intros Hin; [contradiction|].
  destruct Hin as [->|Hin]; [discriminate He | exact (IH Hin)].
Qed.

Lemma plain_no_save (t : list event) : Forall plain t -> saved_states t = [].
Proof.
  induction 1 as [|e t [_ He] _ IH]; [reflexivity|].
  destruct e; try discriminate He; simpl; exact IH.
Qed.

Ltac plain_trace :=
  repeat first [apply Forall_nil_2 | apply Forall_cons_2; [split; reflexivity|]].

Lemma fetch_step_plain (env : Env) (issue_number : string) :
  Forall plain (trace (fetch_step env issue_number)).
Proof.
  unfold fetch_step.
  destruct (fetch_issue_unified env issue_number) as [[issue|] [[|c error]|]];
    destruct (is_beads_issue env issue_number);
    try destruct (update_beads_status env issue_number "in_progress") as [[] ?];
    simpl; plain_trace.
Qed.

Lemma branch_step_plain (env : Env) (issue : option Issue) (adw_id : string)
    (state : ADWState) :
  Forall plain (trace (branch_step env issue adw_id state)).
Proof.
  unfold branch_step.
  destruct (truthy (state_get state "branch_name")); simpl; [plain_trace|].
  destruct (classify_issue env issue adw_id) as [issue_command [[|c error]|]]; simpl;
    try plain_trace;
    destruct (generate_branch_name env issue issue_command adw_id) as [b [[|c' error']|]];
    simpl; plain_trace.
Qed.

Lemma install_step_plain (env : Env) (adw_id : string) (worktree_path : value)
    (backend_port frontend_port : Z) :
  Forall plain (trace (install_step env adw_id worktree_path backend_port frontend_port)).
Proof.
  unfold install_step.
  destruct (success (execute_template env
              (install_request adw_id worktree_path backend_port frontend_port)));
    simpl; plain_trace.
Qed.


Lemma no_build_in (t : list event) (issue : option Issue) (c : value) (a : string)
    (w : value) :
  Forall no_build t -> ~ In (BuildPlan issue c a w) t.
Proof.
  induction 1 as [|e t He _ IH]; intros Hin; [contradiction|].
  destruct Hin as [->|Hin]; [discriminate He | exact (IH Hin)].
Qed.

Lemma worktree_step_spec (env : Env) (adw_id : string) (st : ADWState) (branch_name : value) :
  let ws := worktree_step env adw_id st branch_name in
  let worktree_path := of_opt (create_worktree env adw_id branch_name).1 in
  let ports := find_next_available_ports env adw_id in
  let st' := state_update st
               [("worktree_path", worktree_path); ("branch_name", branch_name);
                ("backend_port", PInt ports.1); ("frontend_port", PInt ports.2)] in
  Forall no_build (trace ws)
  /\ ((result ws = Ok (st', worktree_path, ports) /\ saved_states (trace ws) = [st'])
      \/ (result ws = Raise (SystemExit 1) /\ saved_states (trace ws) = [])).
Proof.
  unfold worktree_step.
  destruct (create_worktree env adw_id branch_name) as [path [[|c error]|]];
    destruct (find_next_available_ports env adw_id) as [bp fp]; simpl;
    (split; [repeat first [apply Forall_nil_2 | apply Forall_cons_2; [reflexivity|]]|]);
    first [left; split; reflexivity | right; split; reflexivity].
Qed.

Lemma plan_step_spec (env : Env) (issue : option Issue) (adw_id : string) (st : ADWState)
    (branch_name worktree_path : value) (bp fp : Z) :
  let ps := plan_step env issue adw_id st branch_name worktree_path bp fp in
  let resp := build_plan env issue (plan_command st) adw_id worktree_path in
  (forall i c a w, In (BuildPlan i c a w) (trace ps) ->
     i = issue /\ c = plan_command st /\ a = adw_id /\ w = worktree_path)
  /\ (success resp = true ->
      result ps = Ok tt
      /\ saved_states (trace ps) =
           [state_update st [("plan_file", PStr (plan_file_of (output resp)))]])
  /\ (success resp = false ->
      result ps = Raise (SystemExit 1) /\ saved_states (trace ps) = []).
Proof.
  unfold plan_step.
  destruct (success (build_plan env issue (plan_command st) adw_id worktree_path)) eqn:E;
    simpl; (split; [|split; [intros; try discriminate; split; reflexivity
                                             |intros; try discriminate; split; reflexivity]]);
    intros i c a w Hin;
    repeat (destruct Hin as [Hin|Hin]; [try discriminate Hin|]); try contradiction;
    injection Hin as <- <- <- <-; repeat split; reflexivity.
Qed.

Lemma state_update_plan_file (st : ADWState) (v : value) (key : string) :
  key <> "plan_file" -> state_update st [("plan_file", v)] !! key = st !! key.
Proof. intros Hne. simpl. apply lookup_insert_ne. congruence. Qed.

Lemma allocated_after_update (env : Env) (adw_id : string) (st : ADWState)
    (branch_name : value) :
  let ports := find_next_available_ports env adw_id in
  allocated_fields env adw_id
    (state_update st
       [("worktree_path", of_opt (create_worktree env adw_id branch_name).1);
        ("branch_name", branch_name);
        ("backend_port", PInt ports.1); ("frontend_port", PInt ports.2)]).
Proof.
  exists branch_name. simpl.
  repeat split;
    repeat first [ apply lookup_insert_eq
                 | rewrite lookup_insert_ne by discriminate ].
Qed.

Lemma allocated_plan_file (env : Env) (adw_id : string) (st : ADWState) (v : value) :
  allocated_fields env adw_id st ->
  allocated_fields env adw_id (state_update st [("plan_file", v)]).
Proof.
  intros (b & H1 & H2 & H3 & H4). exists b.
  rewrite !state_update_plan_file by discriminate. auto.
Qed.

(** The run of the planning phase, step by step. *)
Lemma plan_run (env : Env) (script issue_number : string) (rest : list string) :
  let argv := script :: issue_number :: rest in
  let adw_id := ensure_adw_id env issue_number (argv !! 2%nat) in
  let run := adw_plan_iso env argv in
  (Forall no_build (trace run) /\ result run <> Ok tt
   /\ Forall (allocated_fields env adw_id) (saved_states (trace run)))
  \/ exists pre issue st branch_name bp fp,
       let worktree_path := of_opt (create_worktree env adw_id branch_name).1 in
       let ps := plan_step env issue adw_id st branch_name worktree_path bp fp in
       trace run = pre ++ trace ps
       /\ result run = result ps
       /\ Forall no_build pre
       /\ saved_states pre = [st]
       /\ allocated_fields env adw_id st.
Proof.
  intros argv adw_id run. subst run argv.
  assert (Hid : match rest with a :: _ => Some a | [] => None end
                = (script :: issue_number :: rest) !! 2%nat) by (destruct rest; reflexivity).
  unfold adw_plan_iso. rewrite Hid. fold adw_id.
  set (st0 := plan_state env adw_id issue_number).
  pose proof (fetch_step_plain env issue_number) as Hfetch.
  destruct (fetch_step env issue_number) as [tf [issue|e]]; unfold trace in Hfetch;
    simpl in Hfetch.
  2:{ left. simpl. split; [|split].
      - apply Forall_cons_2; [reflexivity|].
        eapply Forall_impl; [exact Hfetch|]. intros x [Hx _]. exact Hx.
      - discriminate.
      - rewrite (plain_no_save _ Hfetch). constructor. }
  cbn beta iota delta [bind log emit].
  pose proof (branch_step_plain env issue adw_id st0) as Hbranch.
  destruct (branch_step env issue adw_id st0) as [tb [[st1 branch_name]|e]];
    unfold trace in Hbranch; simpl in Hbranch.
  2:{ left. simpl. split; [|split].
      - apply Forall_cons_2; [reflexivity|]. apply Forall_app_2;
          (eapply Forall_impl; [eassumption|]); intros x [Hx _]; exact Hx.
      - discriminate.
      - rewrite saved_states_app, (plain_no_save _ Hfetch), (plain_no_save _ Hbranch).
        constructor. }
  cbn beta iota delta [bind log emit].
  pose proof (allocated_after_update env adw_id st1 branch_name) as Halloc.
  destruct (worktree_step_spec env adw_id st1 branch_name) as [Hwb [[Hwr Hws]|[Hwr Hws]]];
    destruct (worktree_step env adw_id st1 branch_name) as [tw rw];
    unfold trace, result in Hwb, Hwr, Hws; cbn [fst snd] in Hwb, Hwr, Hws; subst rw.
  2:{ left. simpl. split; [|split].
      - apply Forall_cons_2; [reflexivity|]. apply Forall_app_2.
        { eapply Forall_impl; [exact Hfetch|]. intros x [Hx _]. exact Hx. }
        apply Forall_app_2.
        { eapply Forall_impl; [exact Hbranch|]. intros x [Hx _]. exact Hx. }
        apply Forall_cons_2; [reflexivity|]. exact Hwb.
      - discriminate.
      - rewrite !saved_states_app, (plain_no_save _ Hfetch), (plain_no_save _ Hbranch).
        simpl. rewrite Hws. constructor. }
  cbn beta iota delta [bind log emit].
  destruct (find_next_available_ports env adw_id) as [bp fp].
  simpl fst in *. simpl snd in *.
  set (st2 := state_update st1 _) in *.
  pose proof (install_step_plain env adw_id
                (of_opt (create_worktree env adw_id branch_name).1) bp fp) as Hinst.
  destruct (install_step env adw_id _ bp fp) as [ti [[]|e]];
    unfold trace in Hinst; simpl in Hinst.
  2:{ left. simpl. split; [|split].
      - apply Forall_cons_2; [reflexivity|]. apply Forall_app_2.
        { eapply Forall_impl; [exact Hfetch|]. intros x [Hx _]. exact Hx. }
        apply Forall_app_2.
        { eapply Forall_impl; [exact Hbranch|]. intros x [Hx _]. exact Hx. }
        apply Forall_cons_2; [reflexivity|]. apply Forall_app_2; [exact Hwb|].
        eapply Forall_impl; [exact Hinst|]. intros x [Hx _]. exact Hx.
      - discriminate.
      - rewrite !saved_states_app, (plain_no_save _ Hfetch), (plain_no_save _ Hbranch).
        simpl. rewrite saved_states_app, Hws, (plain_no_save _ Hinst). simpl.
        constructor; [exact Halloc | constructor]. }
  cbn beta iota delta [bind log emit].
  right.
  exists (Log INFO [Txt "Using ADW ID: "; Txt adw_id]
          :: tf ++ tb ++ Log INFO [Txt "Using branch: "; Fmt branch_name] :: tw ++ ti),
    issue, st2, branch_name, bp, fp. cbv zeta.
  destruct (plan_step env issue adw_id st2 branch_name _ bp fp) as [tp rp].
  split; [|split; [reflexivity|split; [|split]]].
  - simpl. rewrite <- !app_assoc. simpl. rewrite <- !app_assoc. reflexivity.
  - apply Forall_cons_2; [reflexivity|]. apply Forall_app_2.
    { eapply Forall_impl; [exact Hfetch|]. intros x [Hx _]. exact Hx. }
    apply Forall_app_2.
    { eapply Forall_impl; [exact Hbranch|]. intros x [Hx _]. exact Hx. }
    apply Forall_cons_2; [reflexivity|]. apply Forall_app_2; [exact Hwb|].
    eapply Forall_impl; [exact Hinst|]. intros x [Hx _]. exact Hx.
  - simpl. rewrite !saved_states_app, (plain_no_save _ Hfetch), (plain_no_save _ Hbranch).
    simpl. rewrite saved_states_app, Hws, (plain_no_save _ Hinst). reflexivity.
  - exact Halloc.
Qed.

Lemma silent_quiet (t : list event) :
  Forall silent t -> agent_calls t = [] /\ saved_states t = [].
Proof.
  induction 1 as [|e t [Ha Hs] _ [IHa IHs]]; [split; reflexivity|].
  unfold agent_calls in *. simpl. rewrite Ha.
  destruct e; try discriminate Hs; simpl; auto.
Qed.

Lemma agent_calls_app (t1 t2 : list event) :
  agent_calls (t1 ++ t2) = agent_calls t1 ++ agent_calls t2.
Proof. apply List.filter_app. Qed.

Lemma fetch_step_silent (env : Env) (issue_number : string) :
  Forall silent (trace (fetch_step env issue_number)).
Proof.
  unfold fetch_step.
  destruct (fetch_issue_unified env issue_number) as [[issue|] [[|c error]|]];
    destruct (is_beads_issue env issue_number);
    try destruct (update_beads_status env issue_number "in_progress") as [[] ?];
    simpl; plain_trace.
Qed.

Lemma branch_step_silent (env : Env) (issue : option Issue) (adw_id : string)
    (state : ADWState) :
  Forall silent (trace (branch_step env issue adw_id state)).
Proof.
  unfold branch_step.
  destruct (truthy (state_get state "branch_name")); simpl; [plain_trace|].
  destruct (classify_issue env issue adw_id) as [issue_command [[|c error]|]]; simpl;
    try plain_trace;
    destruct (generate_branch_name env issue issue_command adw_id) as [b [[|c' error']|]];
    simpl; plain_trace.
Qed.

(** The branch step leaves the state as it is, the issue class apart. *)
Lemma branch_step_state (env : Env) (issue : option Issue) (adw_id : string)
    (state state' : ADWState) (branch_name : value) :
  result (branch_step env issue adw_id state) = Ok (state', branch_name) ->
  same_but ["issue_class"] state state'.
Proof.
  unfold branch_step.
  destruct (truthy (state_get state "branch_name")); simpl.
  { intros [= <- _] key _. reflexivity. }
  destruct (classify_issue env issue adw_id) as [issue_command [[|c error]|]]; simpl;
    try discriminate;
    destruct (generate_branch_name env issue issue_command adw_id) as [b [[|c' error']|]];
    simpl; try discriminate;
    intros [= <- _] key Hkey; apply lookup_insert_ne; intros <-; apply Hkey; left;
    reflexivity.
Qed.

Lemma worktree_step_calls (env : Env) (adw_id : string) (st : ADWState)
    (branch_name : value) :
  agent_calls (trace (worktree_step env adw_id st branch_name)) = [].
Proof.
  unfold worktree_step.
  destruct (create_worktree env adw_id branch_name) as [path [[|c error]|]];
    destruct (find_next_available_ports env adw_id) as [bp fp]; reflexivity.
Qed.

Lemma same_but_allocated (st st' : ADWState) (v1 v2 v3 v4 : value) :
  same_but ["issue_class"] st st' ->
  same_but planning_fields st
    (state_update st' [("worktree_path", v1); ("branch_name", v2);
                       ("backend_port", v3); ("frontend_port", v4)]).
Proof.
  intros Hsame key Hkey. simpl.
  rewrite !lookup_insert_ne
    by (intros <-; apply Hkey; unfold planning_fields; simpl; tauto).
  apply Hsame. intros [<-|[]]. apply Hkey. left. reflexivity.
Qed.

(** How far a run of the planning phase gets: it stops before the first
    save, having reached no agent; or it saves the allocated state and
    stops; or it saves the allocated state, and then that state with the
    plan file, and completes. *)
Lemma plan_progress (env : Env) (script issue_number : string) (rest : list string) :
  let argv := script :: issue_number :: rest in
  let adw_id := ensure_adw_id env issue_number (argv !! 2%nat) in
  let run := adw_plan_iso env argv in
  (saved_states (trace run) = [] /\ agent_calls (trace run) = [] /\ result run <> Ok tt)
  \/ exists st : ADWState,
       allocated_fields env adw_id st
       /\ same_but planning_fields (plan_state env adw_id issue_number) st
       /\ ((saved_states (trace run) = [st] /\ result run <> Ok tt)
           \/ exists plan_file : string,
                saved_states (trace run) = [st; state_update st [("plan_file", PStr plan_file)]]
                /\ result run = Ok tt).
Proof.
  intros argv adw_id run. subst run argv.
  assert (Hid : match rest with a :: _ => Some a | [] => None end
                = (script :: issue_number :: rest) !! 2%nat) by (destruct rest; reflexivity).
  unfold adw_plan_iso. rewrite Hid. fold adw_id.
  set (st0 := plan_state env adw_id issue_number).
  destruct (silent_quiet _ (fetch_step_silent env issue_number)) as [Hfa Hfs].
  destruct (fetch_step env issue_number) as [tf [issue|e]]; unfold trace in Hfa, Hfs;
    simpl in Hfa, Hfs.
  2:{ left. simpl. fold (agent_calls tf). rewrite Hfa, Hfs.
      repeat split; discriminate. }
  cbn beta iota delta [bind log emit].
  destruct (silent_quiet _ (branch_step_silent env issue adw_id st0)) as [Hba Hbs].
  pose proof (branch_step_state env issue adw_id st0) as Hbst.
  destruct (branch_step env issue adw_id st0) as [tb [[st1 branch_name]|e]];
    unfold trace in Hba, Hbs; simpl in Hba, Hbs, Hbst.
  2:{ left. simpl. fold (agent_calls (tf ++ tb)).
      rewrite agent_calls_app, saved_states_app, Hfa, Hfs, Hba, Hbs.
      repeat split; discriminate. }
  specialize (Hbst st1 branch_name eq_refl).
  cbn beta iota delta [bind log emit].
  pose proof (allocated_after_update env adw_id st1 branch_name) as Halloc.
  pose proof (worktree_step_calls env adw_id st1 branch_name) as Hwa.
  destruct (worktree_step_spec env adw_id st1 branch_name) as [_ [[Hwr Hws]|[Hwr Hws]]];
    destruct (worktree_step env adw_id st1 branch_name) as [tw rw];
    unfold trace, result in Hwa, Hwr, Hws; cbn [fst snd] in Hwa, Hwr, Hws; subst rw.
  2:{ left. simpl.
      fold (agent_calls (tf ++ tb ++ Log INFO [Txt "Using branch: "; Fmt branch_name] :: tw)).
      rewrite !agent_calls_app, !saved_states_app, Hfa, Hfs, Hba, Hbs. simpl.
      fold (agent_calls tw). rewrite Hwa, Hws.
      repeat split; discriminate. }
  cbn beta iota delta [bind log emit].
  right.
  eexists. split; [exact Halloc|]. split; [apply same_but_allocated, Hbst|].
  destruct (find_next_available_ports env adw_id) as [bp fp].
  simpl fst in *. simpl snd in *.
  set (st2 := state_update st1 _) in *.
  pose proof (install_step_plain env adw_id
                (of_opt (create_worktree env adw_id branch_name).1) bp fp) as Hinst.
  apply plain_no_save in Hinst.
  destruct (install_step env adw_id _ bp fp) as [ti [[]|e]];
    unfold trace in Hinst; simpl in Hinst.
  2:{ left. simpl.
      rewrite !saved_states_app, Hfs, Hbs. simpl.
      rewrite saved_states_app, Hws, Hinst. split; [reflexivity | discriminate]. }
  cbn beta iota delta [bind log emit].
  destruct (plan_step_spec env issue adw_id st2 branch_name
              (of_opt (create_worktree env adw_id branch_name).1) bp fp) as (_ & Hok & Hko).
  destruct (plan_step env issue adw_id st2 branch_name _ bp fp) as [tp rp].
  unfold trace, result in Hok, Hko. cbn [fst snd] in Hok, Hko.
  destruct (success (build_plan env issue (plan_command st2) adw_id _)).
  - destruct (Hok eq_refl) as [-> Hps]. right. eexists. split; [|reflexivity].
    simpl. rewrite !saved_states_app, Hfs, Hbs. simpl.
    rewrite !saved_states_app, Hws, Hinst, Hps. reflexivity.
  - destruct (Hko eq_refl) as [-> Hps]. left. split; [|discriminate].
    simpl. rewrite !saved_states_app, Hfs, Hbs. simpl.
    rewrite !saved_states_app, Hws, Hinst, Hps. reflexivity.
Qed.

(** ** The planning phase without persisted state (C5) *)

Lemma identified_kept (adw_id issue_number : string) (st st' : ADWState) :
  identified adw_id issue_number st ->
  same_but planning_fields st st' ->
  identified adw_id issue_number st'.
Proof.
  intros [Hid Hissue] Hsame. split.
  - rewrite Hsame; [exact Hid|]. unfold planning_fields. simpl.
    intros [H|[H|[H|[H|[H|[]]]]]]; discriminate H.
  - rewrite Hsame; [exact Hissue|]. unfold planning_fields. simpl.
    intros [H|[H|[H|[H|[H|[]]]]]]; discriminate H.
Qed.

Lemma identified_plan_file (adw_id issue_number : string) (st : ADWState) (v : value) :
  identified adw_id issue_number st ->
  identified adw_id issue_number (state_update st [("plan_file", v)]).
Proof.
  intros [Hid Hissue]. split; rewrite state_update_plan_file by discriminate; assumption.
Qed.

(** C5: with no persisted state for the run identifier, the build, test,
    review and document phases exit with status 1 having logged the error
    and made no agent call (nor saved anything); the planning phase goes
    on, exactly as if it had loaded a state holding the run identifier and
    the issue number: its next step (fetching the issue) is taken, every
    state it saves holds that run identifier and that issue number, it has
    saved such a state before it reaches the agent, and a run that
    completes has saved twice. *)
Theorem missing_state_is_fatal_except_for_planning (env : Env) (argv : list string) :
  (forall (p : phase) (adw_id : string),
      sys_argv p argv !! 2%nat = Some adw_id ->
      ADWState_load env adw_id = None ->
      exit_status (run_phase p env argv) = 1
      /\ agent_calls (trace (run_phase p env argv)) = []
      /\ saved_states (trace (run_phase p env argv)) = []
      /\ In (Log ERROR [Txt "No state found for ADW ID: "; Txt adw_id])
            (trace (run_phase p env argv)))
  /\ (forall issue_number : string,
      argv !! 1%nat = Some issue_number ->
      let adw_id := ensure_adw_id env issue_number (argv !! 2%nat) in
      let fresh := state_update (ADWState_new adw_id)
                     [("adw_id", PStr adw_id); ("issue_number", PStr issue_number)] in
      ADWState_load env adw_id = None ->
      adw_plan_iso env argv = adw_plan_iso (with_loaded env fresh) argv
      /\ fresh !! "adw_id" = Some (PStr adw_id)
      /\ fresh !! "issue_number" = Some (PStr issue_number)
      /\ In (Log INFO [Txt "Fetching ";
                       Txt (if is_beads_issue env issue_number then "beads" else "GitHub");
                       Txt " issue: "; Txt issue_number])
            (trace (adw_plan_iso env argv))
      /\ Forall (identified adw_id issue_number)
                (saved_states (trace (adw_plan_iso env argv)))
      /\ (agent_calls (trace (adw_plan_iso env argv)) <> [] ->
          saved_states (trace (adw_plan_iso env argv)) <> [])
      /\ (result (adw_plan_iso env argv) = Ok tt ->
          length (saved_states (trace (adw_plan_iso env argv))) = 2%nat)).
Proof.
  split.
  - intros p adw_id Hargv Hload.
    rewrite (phase_without_state p env argv adw_id Hargv Hload).
    repeat split; try reflexivity. in_trace.
  - intros issue_number Hargv adw_id fresh Hload.
    destruct (plan_fresh_state_fields adw_id issue_number) as [Hid Hissue].
    destruct argv as [|script [|issue rest]]; try discriminate Hargv.
    simpl in Hargv. injection Hargv as ->.
    assert (Hid2 : match rest with a :: _ => Some a | [] => None end
                   = (script :: issue_number :: rest) !! 2%nat)
      by (destruct rest; reflexivity).
    assert (Hfresh : plan_state env adw_id issue_number = fresh)
      by (unfold plan_state; rewrite Hload; reflexivity).
    split; [|split; [exact Hid|split; [exact Hissue|split]]].
    + unfold adw_plan_iso, plan_state. rewrite Hid2. fold adw_id. rewrite Hload. reflexivity.
    + unfold adw_plan_iso. rewrite Hid2. fold adw_id.
      rewrite trace_bind. apply in_or_app. right.
      change (result (log INFO [Txt "Using ADW ID: "; Txt adw_id])) with (@Ok unit tt).
      cbv beta iota.
      unfold fetch_step.
      rewrite trace_bind. apply in_or_app. left.
      rewrite trace_bind. apply in_or_app. left. in_trace.
    + pose proof (plan_progress env script issue_number rest) as Hprog.
      cbv zeta in Hprog. fold adw_id in Hprog.
      destruct Hprog as [(Hs & Ha & Hr) | (st & _ & Hsame & Hrun)].
      { rewrite Hs, Ha. split; [constructor|]. split; [congruence|].
        intros Hok. contradiction. }
      rewrite Hfresh in Hsame.
      assert (Hst : identified adw_id issue_number st)
        by (apply (identified_kept _ _ fresh); [split; assumption | exact Hsame]).
      destruct Hrun as [[Hs Hr] | (plan_file & Hs & Hr)]; rewrite Hs.
      * split; [apply Forall_cons_2; [exact Hst | apply Forall_nil_2]|].
        split; [discriminate|]. intros Hok. contradiction.
      * split; [apply Forall_cons_2; [exact Hst|];
                apply Forall_cons_2; [apply identified_plan_file, Hst | apply Forall_nil_2]|].
        split; [discriminate | reflexivity].
Qed.

Lemma missing_state_is_fatal_except_for_planning_witness :
  let none := env None (true, None) (Some "specs/issue-42-login.md") (ok "specs/issue-42-login.md")
                (fun _ => (None, ok "")) (fun _ => None) in
  let plan := adw_plan_iso none ["adw_plan_iso.py"; "42"; "a1b2c3d4"] in
  exit_status (adw_build_iso none ["adw_build_iso.py"; "42"; "a1b2c3d4"]) = 1
  /\ agent_calls (trace (adw_build_iso none ["adw_build_iso.py"; "42"; "a1b2c3d4"])) = []
  /\ exit_status plan = 0
  /\ Forall (identified "a1b2c3d4" "42") (saved_states (trace plan))
  /\ length (saved_states (trace plan)) = 2%nat.
Proof.
  intros none plan.
  destruct (missing_state_is_fatal_except_for_planning none
              ["adw_build_iso.py"; "42"; "a1b2c3d4"]) as [Hphase _].
  pose proof (Hphase Build "a1b2c3d4" eq_refl eq_refl) as (He & Ha & _).
  destruct (missing_state_is_fatal_except_for_planning none
              ["adw_plan_iso.py"; "42"; "a1b2c3d4"]) as [_ Hplan].
  pose proof (Hplan "42" eq_refl eq_refl) as (Heq & _ & _ & _ & Hsaved & _ & Htwice).
  split; [exact He | split; [exact Ha | split; [|split]]].
  - unfold plan. rewrite Heq. reflexivity.
  - exact Hsaved.
  - apply Htwice. reflexivity.
Defined.

(** ** What a phase saves (C7) *)


Lemma saves_only_in (state : ADWState) (t : list event) (st : ADWState) :
  Forall (saves_only state) t -> In st (saved_states t) -> st = state.
Proof.
  induction 1 as [|e t He _ IH]; simpl; [contradiction|].
  destruct e; simpl in *; auto.
  intros [Heq|Hin]; [congruence | exact (IH Hin)].
Qed.

Lemma Forall_bind {A B} (Q : event -> Prop) (m : M A) (k : A -> M B) :
  Forall Q (trace m) -> (forall a, Forall Q (trace (k a))) -> Forall Q (trace (bind m k)).
Proof.
  intros Hm Hk. rewrite trace_bind. apply Forall_app_2; [exact Hm|].
  destruct (result m); [apply Hk | constructor].
Qed.

Lemma Forall_try {A} (Q : event -> Prop) (body handler : M A) :
  Forall Q (trace body) -> Forall Q (trace handler) ->
  Forall Q (trace (try_except_JSONDecodeError body handler)).
Proof.
  intros Hb Hh. rewrite trace_try. apply Forall_app_2; [exact Hb|].
  destruct (result body) as [|[]]; try constructor. exact Hh.
Qed.

Lemma trace_py_get (v : value) (k : string) (d : value) : trace (py_get v k d) = [].
Proof. destruct v; reflexivity. Qed.

Lemma trace_py_item (v : value) (k : string) : trace (py_item v k) = [].
Proof. destruct v; try reflexivity. simpl. destruct (assoc k items); reflexivity. Qed.

Lemma trace_py_iter (v : value) : trace (py_iter v) = [].
Proof. destruct v; reflexivity. Qed.

Lemma trace_blocking (issues : list value) : trace (blocking issues) = [].
Proof.
  induction issues as [|issue rest IH]; [reflexivity|].
  simpl. rewrite trace_bind, trace_py_get. simpl.
  destruct (result (py_get issue "issue_severity" PNone)); [|reflexivity].
  rewrite trace_bind, IH. simpl. destruct (result (blocking rest)); reflexivity.
Qed.

Lemma resolve_issues_cons (env : Env) (adw_id : string) (spec_file worktree_path : value)
    (n : nat) (issue : value) (rest : list value) :
  resolve_issues env adw_id spec_file worktree_path n (issue :: rest) =
    (number <- py_item issue "review_issue_number" ;;
     description <- py_item issue "issue_description" ;;
     log INFO [Txt "Resolving issue "; Fmt number; Txt ": "; Fmt description] ;;;
     resolution <- py_item issue "issue_resolution" ;;
     screenshots <- py_get issue "screenshot_path" PNone ;;
     let call := patch_call adw_id spec_file worktree_path resolution screenshots in
     emit (CreateAndImplementPatch call) ;;;
     let '(patch_file, patch_response) := create_and_implement_patch env n call in
     when (negb (success patch_response))
       (log ERROR [Txt "Failed to resolve issue: "; Txt (output patch_response)] ;;;
        sys_exit 1) ;;;
     number <- py_item issue "review_issue_number" ;;
     log INFO [Txt "Resolved issue "; Fmt number] ;;;
     resolve_issues env adw_id spec_file worktree_path (S n) rest).
Proof. reflexivity. Qed.

Lemma report_blocking_cons (issue : value) (rest : list value) :
  report_blocking (issue :: rest) =
    (description <- py_item issue "issue_description" ;;
     log ERROR [Txt "  - "; Fmt description] ;;;
     report_blocking rest).
Proof. reflexivity. Qed.

Lemma resolve_issues_saves_nothing (state : ADWState) (env : Env) (adw_id : string)
    (spec_file worktree_path : value) (bs : list value) : forall n : nat,
  Forall (saves_only state)
    (trace (resolve_issues env adw_id spec_file worktree_path n bs)).
Proof.
  induction bs as [|b rest IH]; intros n; [constructor|].
  rewrite resolve_issues_cons.
  apply Forall_bind; [rewrite trace_py_item; constructor | intros number].
  apply Forall_bind; [rewrite trace_py_item; constructor | intros description].
  apply Forall_bind; [repeat constructor | intros _].
  apply Forall_bind; [rewrite trace_py_item; constructor | intros resolution].
  apply Forall_bind; [rewrite trace_py_get; constructor | intros screenshots].
  apply Forall_bind; [repeat constructor | intros _].
  destruct (create_and_implement_patch env n _) as [patch_file patch_response].
  apply Forall_bind; [destruct (success patch_response); repeat constructor | intros _].
  apply Forall_bind; [rewrite trace_py_item; constructor | intros number'].
  apply Forall_bind; [repeat constructor | intros _].
  apply IH.
Qed.

Lemma report_blocking_saves_nothing (state : ADWState) (bs : list value) :
  Forall (saves_only state) (trace (report_blocking bs)).
Proof.
  induction bs as [|b rest IH]; [constructor|].
  rewrite report_blocking_cons.
  apply Forall_bind; [rewrite trace_py_item; constructor | intros description].
  apply Forall_bind; [repeat constructor | intros _]. exact IH.
Qed.

Lemma review_step_saves (env : Env) (skip : bool) (adw_id : string) (state : ADWState)
    (spec_file worktree_path : value) (resp : AgentResponse) :
  Forall (saves_only state)
    (trace (review_results_step env skip adw_id state spec_file worktree_path resp)).
Proof.
  unfold review_results_step. apply Forall_try; [|repeat constructor].
  unfold review_try.
  apply Forall_bind; [destruct (json_loads env _); constructor | intros results].
  apply Forall_bind; [rewrite trace_py_get; constructor | intros summary].
  apply Forall_bind; [repeat constructor | intros _].
  apply Forall_bind; [rewrite trace_py_get; constructor | intros issues].
  apply Forall_bind; [rewrite trace_py_iter; constructor | intros issues'].
  apply Forall_bind; [rewrite trace_blocking; constructor | intros bs].
  apply Forall_bind; [|intros _].
  - unfold review_gate.
    destruct (nonempty bs && negb skip); [|destruct (nonempty bs)].
    + apply Forall_bind; [repeat constructor | intros _].
      apply resolve_issues_saves_nothing.
    + apply Forall_bind; [repeat constructor | intros _].
      apply Forall_bind; [apply report_blocking_saves_nothing | intros _]. constructor.
    + constructor.
  - unfold review_finish.
    apply Forall_bind; [repeat constructor | intros _].
    apply Forall_bind; [repeat constructor | intros _].
    apply Forall_bind; [repeat constructor | intros _].
    apply Forall_bind; [repeat constructor | intros _].
    apply Forall_bind; [rewrite trace_py_get; constructor | intros ok].
    apply Forall_bind; [repeat constructor | intros _].
    apply Forall_bind; [repeat constructor | intros _].
    destruct (skip && nonempty bs); repeat constructor.
Qed.

Ltac explicit_trace := unfold trace; cbn [fst]; repeat (constructor; simpl); auto.

Lemma phase_saves_loaded_state (p : phase) (env : Env) (argv : list string)
    (adw_id : string) (state : ADWState) :
  sys_argv p argv !! 2%nat = Some adw_id ->
  ADWState_load env adw_id = Some state ->
  (validate_worktree env adw_id state).1 = true ->
  Forall (saves_only state) (trace (run_phase p env argv)).
Proof.
  intros Hargv Hload Hvalid.
  destruct p; enter_phase Hargv; rewrite (load_state_some _ _ _ Hload); simpl;
    rewrite (check_worktree_valid _ _ _ Hvalid); simpl.
  - (* build *)
    destruct (truthy (of_opt (find_spec_file env state))); simpl; [|explicit_trace].
    destruct (success (implement_plan env _ adw_id _ _)); simpl; explicit_trace.
  - (* test *)
    destruct (success (execute_template env _)); destruct (mem "--skip-e2e" argv);
      simpl; explicit_trace.
  - (* review *)
    destruct (truthy (of_opt (find_spec_file env state))); simpl; [|explicit_trace].
    destruct (success (execute_template env _)); simpl; [|explicit_trace].
    match goal with
    | |- context [review_results_step ?e ?k ?a ?s ?f ?w ?r] =>
        pose proof (review_step_saves e k a s f w r) as Hstep;
        destruct (review_results_step e k a s f w r) as [t r']
    end.
    unfold trace in *. cbn [fst] in *. repeat (constructor; simpl; auto).
  - (* document *)
    destruct (truthy (of_opt (find_spec_file env state)));
      destruct (path_exists env _); simpl;
      destruct (success (execute_template env _)); simpl; explicit_trace.
Qed.

(** C7: whatever the build, test, review or document phase saves is the
    state it loaded, so worktree_path, branch_name, backend_port and
    frontend_port are unchanged field for field; the planning phase sets
    them: every state it saves has these four fields set to the worktree
    it created for the branch and to the ports it allocated, and a run of
    it that reaches the agent or completes has saved such a state, which
    is the state it started from in every field but these four and the
    issue class. *)
Theorem worktree_fields_set_by_planning_only (env : Env) (argv : list string)
    (saved : ADWState) :
  (forall p : phase,
      In saved (saved_states (trace (run_phase p env argv))) ->
      exists (adw_id : string) (loaded : ADWState),
        sys_argv p argv !! 2%nat = Some adw_id
        /\ ADWState_load env adw_id = Some loaded
        /\ saved = loaded
        /\ saved !! "worktree_path" = loaded !! "worktree_path"
        /\ saved !! "branch_name" = loaded !! "branch_name"
        /\ saved !! "backend_port" = loaded !! "backend_port"
        /\ saved !! "frontend_port" = loaded !! "frontend_port")
  /\ (In saved (saved_states (trace (adw_plan_iso env argv))) ->
      exists issue_number : string,
        argv !! 1%nat = Some issue_number
        /\ allocated_fields env (ensure_adw_id env issue_number (argv !! 2%nat)) saved)
  /\ (agent_calls (trace (adw_plan_iso env argv)) <> []
      \/ result (adw_plan_iso env argv) = Ok tt ->
      exists (issue_number : string) (first : ADWState) (later : list ADWState),
        let adw_id := ensure_adw_id env issue_number (argv !! 2%nat) in
        argv !! 1%nat = Some issue_number
        /\ saved_states (trace (adw_plan_iso env argv)) = first :: later
        /\ allocated_fields env adw_id first
        /\ same_but planning_fields (plan_state env adw_id issue_number) first).
Proof.
  split; [|split].
  - intros p Hin.
    destruct (phase_cases p env argv)
      as [Hargv | [(adw_id & Hargv & Hload) | [(adw_id & state & Hargv & Hload & Hvalid)
                                              | (adw_id & state & Hargv & Hload & Hvalid)]]].
    + destruct (phase_usage p env argv Hargv) as [_ Hnone]. rewrite Hnone in Hin.
      contradiction.
    + rewrite (phase_without_state p env argv adw_id Hargv Hload) in Hin. contradiction.
    + rewrite (phase_with_invalid_worktree p env argv adw_id state Hargv Hload Hvalid) in Hin.
      contradiction.
    + pose proof (phase_saves_loaded_state p env argv adw_id state Hargv Hload Hvalid) as Hall.
      apply (saves_only_in state _ saved Hall) in Hin. subst saved.
      exists adw_id, state. repeat split; assumption.
  - intros Hin.
    destruct argv as [|script [|issue_number rest]]; try contradiction.
    exists issue_number. split; [reflexivity|].
    destruct (plan_progress env script issue_number rest)
      as [(Hs & _) | (st & Halloc & _ & [[Hs _] | (plan_file & Hs & _)])];
      rewrite Hs in Hin.
    + contradiction.
    + destruct Hin as [<-|[]]. exact Halloc.
    + destruct Hin as [<-|[<-|[]]]; [exact Halloc | apply allocated_plan_file, Halloc].
  - intros Hrun.
    destruct argv as [|script [|issue_number rest]];
      try (destruct Hrun as [Hrun|Hrun]; [contradiction Hrun; reflexivity | discriminate Hrun]).
    destruct (plan_progress env script issue_number rest)
      as [(_ & Ha & Hr) | (st & Halloc & Hsame & Hsaved)].
    { destruct Hrun as [Hrun|Hrun]; contradiction. }
    destruct Hsaved as [[Hs _] | (plan_file & Hs & _)]; eexists issue_number, st, _;
      (split; [reflexivity|split; [exact Hs|split; [exact Halloc | exact Hsame]]]).
Qed.

Lemma worktree_fields_set_by_planning_only_witness :
  let env := review_env patches_ok loads_one in
  let plan := adw_plan_iso (plan_env (ok "specs/plan-42.md")) plan_argv in
  Forall (fun saved => saved = state)
         (saved_states (trace (adw_review_iso env review_argv)))
  /\ Forall (fun saved => saved !! "backend_port" = Some (PInt 9100))
            (saved_states (trace plan))
  /\ exists first later,
       saved_states (trace plan) = first :: later
       /\ first !! "worktree_path" = Some (PStr "/trees/a1b2c3d4")
       /\ first !! "adw_id" = Some (PStr "a1b2c3d4").
Proof.
  intros env plan. split; [|split].
  - apply List.Forall_forall. intros saved Hin.
    destruct (worktree_fields_set_by_planning_only env review_argv saved) as [Hphase _].
    destruct (Hphase Review Hin) as (adw_id & loaded & _ & Hload & -> & _).
    injection Hload as <-. reflexivity.
  - apply List.Forall_forall. intros saved Hin.
    destruct (worktree_fields_set_by_planning_only (plan_env (ok "specs/plan-42.md"))
                plan_argv saved) as (_ & Hplan & _).
    destruct (Hplan Hin) as (issue_number & _ & (b & _ & _ & Hport & _)).
    exact Hport.
  - destruct (worktree_fields_set_by_planning_only (plan_env (ok "specs/plan-42.md"))
                plan_argv state) as (_ & _ & Hsets).
    destruct (Hsets (or_intror eq_refl))
      as (issue_number & first & later & Hargv & Hs & (b & _ & Hpath & _) & Hsame).
    injection Hargv as <-.
    exists first, later. split; [exact Hs|]. split; [exact Hpath|].
    rewrite Hsame; [reflexivity|].
    unfold planning_fields. simpl. intros [H|[H|[H|[H|[H|[]]]]]]; discriminate H.
Defined.

(** ** Unparseable answers (C4) *)

(** C4 as stated fails: when the planning agent answers without any
    specs/*.md path, the planning phase takes the stripped answer as the
    plan file, saves it in state and ends with status 0. *)
Lemma plan_without_spec_path_completes :
  let env := plan_env (ok " The plan is ready. ") in
  let run := adw_plan_iso env plan_argv in
  PlanRe.search " The plan is ready. " = None
  /\ exit_status run = 0
  /\ exists st, last (saved_states (trace run)) = Some st
                /\ st !! "plan_file" = Some (PStr "The plan is ready.").
Proof.
  intros env run.
  split; [reflexivity|]. split; [vm_compute; reflexivity|].
  eexists. split; [vm_compute; reflexivity | vm_compute; reflexivity].
Qed.

(** C4, as the code has it: the review phase exits with status 1 when the
    answer of the review agent holds no parseable JSON, logging the parse
    error and the raw output, without saving and without a patch call;
    the planning phase, when the answer of a successful build_plan call
    holds no specs/*.md path, falls back to the stripped answer as plan
    file, records it in state and ends with status 0.  The answer is any
    string of the code points U+0000..U+00FF: on these [PlanRe.search] is
    re.search with the pattern of line 164 (a letter such as U+00E9 is a
    word character) and [Str.strip] is str.strip; answers with characters
    beyond U+00FF are outside the model. *)
Theorem unparseable_answers (env : Env) (argv : list string) :
  (forall (adw_id : string) (state : ADWState) (resp : AgentResponse),
      review_answered env argv adw_id state resp ->
      json_loads env (extract_json (output resp)) = None ->
      let run := adw_review_iso env argv in
      exit_status run = 1
      /\ error_logs (trace run) =
           [Log ERROR [Txt "Failed to parse review results: "; Exc "JSONDecodeError"];
            Log ERROR [Txt "Review output: "; Txt (output resp)]]
      /\ saved_states (trace run) = []
      /\ patch_calls (trace run) = [])
  /\ (forall (issue : option Issue) (command : value) (adw_id : string) (wd : value),
      In (BuildPlan issue command adw_id wd) (trace (adw_plan_iso env argv)) ->
      let resp := build_plan env issue command adw_id wd in
      success resp = true ->
      PlanRe.search (output resp) = None ->
      let run := adw_plan_iso env argv in
      exit_status run = 0
      /\ exists st : ADWState,
           last (saved_states (trace run)) = Some st
           /\ st !! "plan_file" = Some (PStr (Str.strip (output resp)))).
Proof.
  split.
  - intros adw_id state resp Hans Hnone run. subst run.
    rewrite (review_unparsed env argv adw_id state resp Hans Hnone).
    unfold exit_status, trace, result. cbn [fst snd].
    rewrite error_logs_app, saved_states_app, patch_calls_app.
    repeat split; reflexivity.
  - intros issue command adw_id wd Hin resp Hok Hsearch run. subst run.
    destruct argv as [|script [|issue_number rest]];
      try (simpl in Hin; repeat (destruct Hin as [Hin|Hin]; [discriminate Hin|]);
           contradiction).
    destruct (plan_run env script issue_number rest) as [(Hall & _) | Hrun].
    { exfalso. exact (no_build_in _ _ _ _ _ Hall Hin). }
    destruct Hrun as (pre & issue' & st & branch_name & bp & fp & Ht & Hr & Hpre & Hsaved & _).
    cbv zeta in Ht, Hr.
    set (id := ensure_adw_id env issue_number ((script :: issue_number :: rest) !! 2%nat)) in *.
    set (wt := of_opt (create_worktree env id branch_name).1) in *.
    destruct (plan_step_spec env issue' id st branch_name wt bp fp) as (Hargs & Hstep & _).
    rewrite Ht in Hin. apply in_app_or in Hin as [Hin|Hin].
    { exfalso. exact (no_build_in _ _ _ _ _ Hpre Hin). }
    destruct (Hargs _ _ _ _ Hin) as (-> & -> & -> & ->).
    fold resp in Hstep. destruct (Hstep Hok) as [Hres Hs].
    unfold exit_status. rewrite Hr, Hres. split; [reflexivity|].
    rewrite Ht, saved_states_app, Hsaved, Hs.
    eexists. split; [reflexivity|].
    simpl. rewrite lookup_insert_eq. unfold plan_file_of. fold resp. rewrite Hsearch.
    reflexivity.
Qed.

Lemma unparseable_answers_witness :
  exit_status (adw_review_iso (review_env patches_ok (fun _ => None)) review_argv) = 1
  /\ exit_status (adw_plan_iso (plan_env (ok " The plan is ready. ")) plan_argv) = 0.
Proof.
  split.
  - destruct (unparseable_answers (review_env patches_ok (fun _ => None)) review_argv)
      as [Hreview _].
    assert (Hans : review_answered (review_env patches_ok (fun _ => None)) review_argv
                     "a1b2c3d4" state (ok "PAYLOAD")) by (repeat split; reflexivity).
    destruct (Hreview "a1b2c3d4" state (ok "PAYLOAD") Hans eq_refl) as [He _]. exact He.
  - destruct (unparseable_answers (plan_env (ok " The plan is ready. ")) plan_argv)
      as [_ Hplan].
    destruct (Hplan (Some {| title := "Add login" |}) (PStr "/feature") "a1b2c3d4"
                (PStr "/trees/a1b2c3d4")) as [He _];
      [vm_compute; tauto | reflexivity | reflexivity | exact He].
Defined.

(** ** No spec file (C10) *)

(** C10: with state present and the worktree valid, when find_spec_file
    finds nothing the documentation phase logs a warning, sends the agent
    a request whose spec reference is the empty string, and, the agent call
    succeeding, saves the state and ends with status 0; the build and
    review phases exit with status 1 in the same situation, without any
    agent call. *)
Theorem document_tolerates_missing_spec
    (env : Env) (adw_id : string) (state : ADWState) :
  ADWState_load env adw_id = Some state ->
  (validate_worktree env adw_id state).1 = true ->
  truthy (of_opt (find_spec_file env state)) = false ->
  (forall argv : list string,
      sys_argv Document argv !! 2%nat = Some adw_id ->
      let request := doc_request adw_id (PStr "") (review_img_dir env adw_id)
                       (state_get state "worktree_path") in
      let run := adw_document_iso env argv in
      In (Log WARNING [Txt "No spec file found, documenting without spec reference"])
         (trace run)
      /\ agent_calls (trace run) = [ExecuteTemplate request]
      /\ args request = [PStr adw_id; PStr ""; PStr (review_img_dir env adw_id)]
      /\ (success (execute_template env request) = true ->
          exit_status run = 0 /\ saved_states (trace run) = [state]))
  /\ (forall (p : phase) (argv : list string),
      p = Build \/ p = Review ->
      sys_argv p argv !! 2%nat = Some adw_id ->
      let run := run_phase p env argv in
      exit_status run = 1
      /\ agent_calls (trace run) = []
      /\ last (trace run) = Some (Log ERROR [Txt "No spec file found"])).
Proof.
  intros Hload Hvalid Hspec. split.
  - intros argv Hargv request run. subst run request.
    enter_phase Hargv. rewrite (load_state_some _ _ _ Hload). simpl.
    rewrite (check_worktree_valid _ _ _ Hvalid). simpl. rewrite Hspec. simpl.
    unfold review_img_dir.
    destruct (path_exists env _); simpl;
      destruct (success (execute_template env _)); simpl;
      repeat split; try discriminate; try reflexivity; try in_trace.
  - intros p argv Hp Hargv run. subst run.
    destruct Hp as [-> | ->]; enter_phase Hargv; rewrite (load_state_some _ _ _ Hload);
      simpl; rewrite (check_worktree_valid _ _ _ Hvalid); simpl; rewrite Hspec; simpl;
      repeat split; reflexivity.
Qed.

Lemma document_tolerates_missing_spec_witness :
  let env := env (Some state) (true, None) None (ok " app_docs/feature-login.md ")
               patches_ok (fun _ => None) in
  exit_status (adw_document_iso env ["adw_document_iso.py"; "42"; "a1b2c3d4"]) = 0
  /\ exit_status (adw_build_iso env ["adw_build_iso.py"; "42"; "a1b2c3d4"]) = 1
  /\ exit_status (adw_review_iso env review_argv) = 1.
Proof.
  intros env.
  destruct (document_tolerates_missing_spec env "a1b2c3d4" state eq_refl eq_refl eq_refl)
    as [Hdoc Hothers].
  destruct (Hdoc ["adw_document_iso.py"; "42"; "a1b2c3d4"] eq_refl) as (_ & _ & _ & Hok).
  destruct (Hok eq_refl) as [Hexit _].
  destruct (Hothers Build ["adw_build_iso.py"; "42"; "a1b2c3d4"] (or_introl eq_refl) eq_refl)
    as [Hbuild _].
  destruct (Hothers Review review_argv (or_intror eq_refl) eq_refl) as [Hreview _].
  split; [exact Hexit | split; [exact Hbuild | exact Hreview]].
Defined.

(** ** Facts about the str methods *)

Module StrFacts.
Import Str.

Lemma length_app (a b : string) :
  String.length (a +:+ b) = (String.length a + String.length b)%nat.
Proof. induction a as [|c a IH]; simpl; [reflexivity | now rewrite IH]. Qed.

Lemma app_assoc (a b c : string) : a +:+ (b +:+ c) = (a +:+ b) +:+ c.
Proof.
  induction a as [|x a IH]; [reflexivity|].
  change (String x (a +:+ (b +:+ c)) = String x ((a +:+ b) +:+ c)).
  f_equal. exact IH.
Qed.

Lemma drop_app (a b : string) : drop (String.length a) (a +:+ b) = b.
Proof. induction a as [|c a IH]; simpl; [reflexivity | exact IH]. Qed.

Lemma drop_app_sep (a : string) (c : ascii) (b : string) :
  drop (String.length a + 1) (a +:+ String c b) = b.
Proof. induction a as [|x a IH]; simpl; [reflexivity | exact IH]. Qed.

Lemma take_app_sep (a : string) (c : ascii) (b : string) :
  take (String.length a + 1) (a +:+ String c b) = a +:+ String c EmptyString.
Proof. induction a as [|x a IH]; simpl; [reflexivity | now rewrite IH]. Qed.


Lemma startswith_sep (sub : string) (c : ascii) : forall p r : string,
  lacks c sub = true ->
  startswith sub (p +:+ String c r) = startswith sub p.
Proof.
  induction sub as [|a sub IH]; intros p r Hc; [destruct p; reflexivity|].
  simpl in Hc. apply andb_true_iff in Hc as [Hac Hsub].
  destruct p as [|b p]; simpl.
  - apply negb_true_iff in Hac. rewrite Hac. reflexivity.
  - rewrite (IH p r Hsub). reflexivity.
Qed.

Lemma contains_cons (sub : string) (c : ascii) (s : string) :
  contains sub (String c s) = false ->
  startswith sub (String c s) = false /\ contains sub s = false.
Proof.
  unfold contains. simpl find0.
  destruct (startswith sub (String c s)); [discriminate|].
  destruct (find0 sub s); [discriminate | auto].
Qed.

Lemma contains_cons_intro (sub : string) (c : ascii) (s : string) :
  contains sub s = true -> contains sub (String c s) = true.
Proof.
  unfold contains. simpl find0.
  destruct (startswith sub (String c s)); [reflexivity|].
  destruct (find0 sub s); [reflexivity | discriminate].
Qed.

(** No occurrence of [sub] straddles a character that [sub] lacks. *)
Lemma find0_sep (sub : string) (c : ascii) (r : string) : forall p : string,
  sub <> EmptyString ->
  lacks c sub = true ->
  contains sub p = false ->
  find0 sub (p +:+ String c r) =
    option_map (fun n => (String.length p + 1 + n)%nat) (find0 sub r).
Proof.
  intros p Hne Hc. induction p as [|a p IH]; intros Hp.
  - change (EmptyString +:+ String c r) with (String c r).
    simpl find0.
    replace (startswith sub (String c r)) with false.
    + destruct (find0 sub r); reflexivity.
    + destruct sub as [|a sub]; [contradiction|]. simpl in *.
      apply andb_true_iff in Hc as [Hac _]. apply negb_true_iff in Hac.
      rewrite Hac. reflexivity.
  - apply contains_cons in Hp as [Hstart Hrest].
    change (String a p +:+ String c r) with (String a (p +:+ String c r)).
    simpl find0.
    change (String a (p +:+ String c r)) with (String a p +:+ String c r).
    rewrite (startswith_sep sub c (String a p) r Hc), Hstart, (IH Hrest).
    destruct (find0 sub r); reflexivity.
Qed.

Lemma find0_char (c : ascii) (r : string) : forall p : string,
  contains (String c EmptyString) p = false ->
  find0 (String c EmptyString) (p +:+ String c r) = Some (String.length p).
Proof.
  induction p as [|a p IH]; intros Hp.
  - simpl. rewrite Ascii.eqb_refl. reflexivity.
  - apply contains_cons in Hp as [Hstart Hrest].
    change (String a p +:+ String c r) with (String a (p +:+ String c r)).
    simpl find0. simpl in Hstart.
    destruct (Ascii.eqb c a); [destruct p; discriminate Hstart|].
    simpl. rewrite (IH Hrest). reflexivity.
Qed.

(** A needle cannot occur where its first character does not. *)
Lemma find0_first_char (a : ascii) (sub : string) : forall s : string,
  contains (String a EmptyString) s = false -> find0 (String a sub) s = None.
Proof.
  induction s as [|b s IH]; intros Hs; [reflexivity|].
  apply contains_cons in Hs as [Hstart Hrest].
  simpl in *. destruct (Ascii.eqb a b); [discriminate Hstart|].
  simpl. rewrite (IH Hrest). reflexivity.
Qed.

Lemma startswith_first_char (a : ascii) (sub s : string) :
  contains (String a EmptyString) s = false -> startswith (String a sub) s = false.
Proof.
  destruct s as [|b s]; [reflexivity|]. intros Hs.
  apply contains_cons in Hs as [Hstart _]. simpl in *.
  destruct (Ascii.eqb a b); [discriminate Hstart | reflexivity].
Qed.

Lemma startswith_app (sub a b : string) :
  startswith sub a = true -> startswith sub (a +:+ b) = true.
Proof.
  revert a. induction sub as [|x sub IH]; intros a; [reflexivity|].
  destruct a as [|y a]; simpl; [discriminate|].
  rewrite !andb_true_iff. intros [-> H]. split; [reflexivity | exact (IH a H)].
Qed.

Lemma contains_app_l (sub a b : string) :
  contains sub a = true -> contains sub (a +:+ b) = true.
Proof.
  induction a as [|c a IH]; intros Ha.
  - unfold contains in *. simpl in Ha.
    destruct (startswith sub EmptyString) eqn:E; [|discriminate].
    destruct sub; [|discriminate]. destruct b; reflexivity.
  - unfold contains in Ha. simpl find0 in Ha.
    destruct (startswith sub (String c a)) eqn:E.
    + unfold contains.
      change (String c a +:+ b) with (String c (a +:+ b)). simpl find0.
      change (String c (a +:+ b)) with (String c a +:+ b).
      rewrite (startswith_app _ _ b E). reflexivity.
    + change (String c a +:+ b) with (String c (a +:+ b)).
      apply contains_cons_intro, IH. unfold contains.
      destruct (find0 sub a); [reflexivity | discriminate].
Qed.

Lemma contains_app_r (sub a b : string) :
  contains sub b = true -> contains sub (a +:+ b) = true.
Proof.
  intros Hb. induction a as [|c a IH]; [exact Hb|].
  change (String c a +:+ b) with (String c (a +:+ b)).
  apply contains_cons_intro, IH.
Qed.

(** An occurrence of a needle is an occurrence of each of its prefixes. *)
Lemma startswith_prefix (p q s : string) :
  startswith (p +:+ q) s = true -> startswith p s = true.
Proof.
  revert s. induction p as [|a p IH]; intros s; [reflexivity|].
  destruct s as [|b s]; simpl; [discriminate|].
  rewrite !andb_true_iff. intros [-> H]. split; [reflexivity | exact (IH s H)].
Qed.

Lemma contains_prefix (p q : string) : forall s : string,
  contains p s = false -> contains (p +:+ q) s = false.
Proof.
  induction s as [|c s IH]; intros Hs.
  - unfold contains in *. simpl in *.
    destruct (startswith (p +:+ q) EmptyString) eqn:E; [|reflexivity].
    apply startswith_prefix in E. rewrite E in Hs. discriminate.
  - apply contains_cons in Hs as [Hstart Hrest].
    unfold contains. simpl find0.
    destruct (startswith (p +:+ q) (String c s)) eqn:E.
    + apply startswith_prefix in E. congruence.
    + specialize (IH Hrest). unfold contains in IH.
      destruct (find0 (p +:+ q) s); [discriminate | reflexivity].
Qed.

(** *** strip *)

Lemma rstrip_space (c : ascii) : forall s : string,
  is_space c = true -> rstrip (s +:+ String c EmptyString) = rstrip s.
Proof.
  intros s Hc. induction s as [|a s IH]; simpl.
  - rewrite Hc. reflexivity.
  - rewrite IH. reflexivity.
Qed.

Lemma rstrip_solid (t : string) : forall s : string,
  rstrip t = t -> t <> EmptyString -> rstrip (s +:+ t) = s +:+ t.
Proof.
  intros s Ht Hne. induction s as [|a s IH]; simpl; [exact Ht|].
  rewrite IH.
  assert (Hnz : String.eqb (s +:+ t) "" = false).
  { destruct s; simpl; [destruct t; [contradiction | reflexivity] | reflexivity]. }
  rewrite Hnz, andb_false_r. reflexivity.
Qed.

Lemma strip_lines (c : ascii) (s : string) :
  is_space c = true ->
  strip (String c (s +:+ String c EmptyString)) = strip s
  /\ strip (s +:+ String c EmptyString) = strip s.
Proof.
  intros Hc. unfold strip. split; [|now rewrite rstrip_space].
  simpl rstrip. rewrite (rstrip_space c s Hc), Hc. simpl.
  destruct (rstrip s) eqn:E; simpl; [reflexivity|]. rewrite Hc. reflexivity.
Qed.

Lemma rstrip_is_prefix (s : string) : exists t, s = rstrip s +:+ t.
Proof.
  induction s as [|c s [t IH]]; [exists EmptyString; reflexivity|].
  simpl. destruct (is_space c && String.eqb (rstrip s) "").
  - exists (String c s). reflexivity.
  - exists t. change (String c (rstrip s) +:+ t) with (String c (rstrip s +:+ t)).
    rewrite <- IH. reflexivity.
Qed.

Lemma contains_lstrip (sub : string) : forall s : string,
  contains sub (lstrip s) = true -> contains sub s = true.
Proof.
  induction s as [|c s IH]; simpl; [auto|].
  destruct (is_space c); [|auto].
  intros H. apply contains_cons_intro, IH, H.
Qed.

Lemma contains_strip (sub s : string) :
  contains sub s = false -> contains sub (strip s) = false.
Proof.
  intros Hs. destruct (contains sub (strip s)) eqn:E; [|reflexivity].
  unfold strip in E. apply contains_lstrip in E.
  destruct (rstrip_is_prefix s) as [t Ht].
  apply (contains_app_l sub _ t) in E. rewrite <- Ht in E. congruence.
Qed.

End StrFacts.

(** ** The payload extractor (C9) *)

Import Str StrFacts.

Lemma closing_fence (payload r : string) :
  contains "```" payload = false ->
  find0 "```" (payload +:+ (NL +:+ ("```" +:+ r))) = Some (String.length payload + 1)%nat.
Proof.
  intros Hfence.
  change (NL +:+ ("```" +:+ r)) with (String "010"%char ("```" +:+ r)).
  rewrite (find0_sep "```" "010"%char _ payload); [|discriminate|reflexivity|exact Hfence].
  simpl. rewrite Nat.add_0_r. reflexivity.
Qed.

Lemma extract_bare (payload : string) :
  contains "```" payload = false -> extract_json payload = strip payload.
Proof.
  intros Hfence. unfold extract_json.
  assert (H3 : contains "```" (strip payload) = false) by (apply contains_strip, Hfence).
  assert (Hj : contains "```json" (strip payload) = false).
  { apply (contains_prefix "```" "json"), H3. }
  rewrite Hj, H3. reflexivity.
Qed.

Lemma strip_fenced (tag payload : string) : strip (fenced tag payload) = fenced tag payload.
Proof.
  unfold strip, fenced.
  rewrite !app_assoc.
  rewrite (rstrip_solid "```"); [reflexivity | reflexivity | discriminate].
Qed.

Lemma extract_json_tag (payload : string) :
  contains "```" payload = false ->
  extract_json (fenced "json" payload) = strip payload.
Proof.
  intros Hfence. unfold extract_json. rewrite strip_fenced.
  assert (A1 : contains "```json" (fenced "json" payload) = true) by reflexivity.
  assert (A2 : find (fenced "json" payload) "```json" 0 = Some 0%nat) by reflexivity.
  assert (A3 : find (fenced "json" payload) "```" 7
               = Some (7 + S (String.length payload + 1))%nat).
  { unfold find.
    change (drop 7 (fenced "json" payload))
      with (String "010"%char (payload +:+ (NL +:+ ("```" +:+ "")))).
    change (7 <=? String.length (fenced "json" payload))%nat with true. cbv iota.
    change (find0 "```" (String "010"%char (payload +:+ (NL +:+ ("```" +:+ "")))))
      with (option_map S (find0 "```" (payload +:+ (NL +:+ ("```" +:+ ""))))).
    rewrite (closing_fence payload "" Hfence). reflexivity. }
  rewrite A1, A2. cbv iota beta. change (0 + 7)%nat with 7%nat. rewrite A3.
  unfold slice.
  replace (7 + S (String.length payload + 1) - 7)%nat
    with (S (String.length payload + 1)) by lia.
  change (drop 7 (fenced "json" payload))
    with (String "010"%char (payload +:+ String "010"%char "```")).
  change (take (S (String.length payload + 1))
            (String "010"%char (payload +:+ String "010"%char "```")))
    with (String "010"%char
            (take (String.length payload + 1) (payload +:+ String "010"%char "```"))).
  rewrite take_app_sep.
  apply (strip_lines "010"%char payload eq_refl).
Qed.

Lemma extract_generic_tag (tag payload : string) :
  contains "```" payload = false ->
  contains "{" payload = true ->
  contains "`" tag = false ->
  contains NL tag = false ->
  startswith "json" tag = false ->
  extract_json (fenced tag payload) = strip payload.
Proof.
  intros Hfence Hbrace Htick Hnl Hjson.
  set (R := payload +:+ String "010"%char "```").
  set (X := tag +:+ String "010"%char R).
  assert (Hfenced : fenced tag payload = "```" +:+ X) by reflexivity.
  assert (HdropX : drop (String.length tag + 1) X = R) by apply drop_app_sep.
  assert (B1 : contains "```json" (fenced tag payload) = false).
  { unfold contains. rewrite Hfenced.
    change (find0 "```json" ("```" +:+ X))
      with (if startswith "json" X then Some 0%nat
            else option_map S
                   (if startswith "`json" X then Some 0%nat
                    else option_map S
                           (if startswith "``json" X then Some 0%nat
                            else option_map S (find0 "```json" X)))).
    unfold X.
    rewrite !startswith_sep by reflexivity.
    rewrite Hjson, !startswith_first_char by exact Htick.
    rewrite find0_sep; [|discriminate|reflexivity|].
    2:{ unfold contains. rewrite find0_first_char by exact Htick. reflexivity. }
    unfold R. rewrite find0_sep; [reflexivity|discriminate|reflexivity|].
    apply (contains_prefix "```" "json"), Hfence. }
  assert (B2 : contains "```" (fenced tag payload) = true) by reflexivity.
  assert (B3 : contains "{" (fenced tag payload) = true).
  { unfold fenced. do 3 apply contains_app_r. apply contains_app_l, Hbrace. }
  assert (B4 : find (fenced tag payload) "```" 0 = Some 0%nat) by reflexivity.
  assert (Hlen : String.length (fenced tag payload)
                 = (3 + (String.length tag + (1 + (String.length payload + 4))))%nat).
  { unfold fenced. rewrite !length_app. reflexivity. }
  assert (B5 : find (fenced tag payload) NL 3 = Some (3 + String.length tag)%nat).
  { unfold find.
    replace (3 <=? String.length (fenced tag payload))%nat with true
      by (symmetry; apply Nat.leb_le; lia).
    change (drop 3 (fenced tag payload)) with X. unfold X.
    change NL with (String "010"%char EmptyString).
    rewrite find0_char by exact Hnl. reflexivity. }
  assert (Hdrop : drop (3 + String.length tag + 1) (fenced tag payload) = R).
  { change (drop (3 + String.length tag + 1) (fenced tag payload))
      with (drop (String.length tag + 1) X). exact HdropX. }
  assert (B6 : find (fenced tag payload) "```" (3 + String.length tag + 1)
               = Some (3 + String.length tag + 1 + (String.length payload + 1))%nat).
  { unfold find.
    replace (3 + String.length tag + 1 <=? String.length (fenced tag payload))%nat with true
      by (symmetry; apply Nat.leb_le; lia).
    rewrite Hdrop. unfold R.
    change (payload +:+ String "010"%char "```")
      with (payload +:+ (NL +:+ ("```" +:+ ""))).
    rewrite (closing_fence payload "" Hfence). reflexivity. }
  unfold extract_json. rewrite strip_fenced, B1, B2, B3. cbv iota. simpl andb. cbv iota.
  rewrite B4. cbv iota beta. change (0 + 3)%nat with 3%nat.
  rewrite B5. cbv iota beta. rewrite B6.
  unfold slice. rewrite Hdrop.
  replace (3 + String.length tag + 1 + (String.length payload + 1)
           - (3 + String.length tag + 1))%nat
    with (String.length payload + 1)%nat by lia.
  unfold R. rewrite take_app_sep.
  apply (strip_lines "010"%char payload eq_refl).
Qed.

(** C9 as stated fails: a review outcome whose summary mentions a code
    fence is accepted bare, but wrapped in a json fence it is cut at the
    fence inside the summary and no longer parses: the run that ends with
    status 0 on the bare payload ends with status 1 on the wrapped one. *)
Lemma fenced_payload_with_inner_fence_is_cut :
  extract_json fence_in_summary = fence_in_summary
  /\ extract_json (fenced "json" fence_in_summary)
     = "{" +:+ DQ +:+ "review_summary" +:+ DQ +:+ ": " +:+ DQ +:+ "Wrap the snippet in"
  /\ loads_fence (extract_json fence_in_summary) = Some fence_outcome
  /\ loads_fence (extract_json (fenced "json" fence_in_summary)) = None
  /\ exit_status (adw_review_iso (answer_env fence_in_summary) review_argv) = 0
  /\ exit_status (adw_review_iso (answer_env (fenced "json" fence_in_summary)) review_argv) = 1.
Proof. vm_compute. repeat split; reflexivity. Qed.

(** C9, as the code has it: for a payload that holds no triple backtick
    and has an opening brace, and a language tag without backtick or
    newline that is "json" or does not begin with "json" (the empty tag
    included), the extractor hands json.loads the same text, the stripped
    payload, whether the payload comes bare or inside the fenced block;
    so both parse to the same review outcome. *)
Theorem fenced_payload_extracted_as_bare (tag payload : string) :
  Str.contains "```" payload = false ->
  Str.contains "{" payload = true ->
  Str.contains "`" tag = false ->
  Str.contains NL tag = false ->
  tag = "json" \/ Str.startswith "json" tag = false ->
  extract_json payload = Str.strip payload
  /\ extract_json (fenced tag payload) = Str.strip payload
  /\ forall env : Env,
       json_loads env (extract_json (fenced tag payload))
       = json_loads env (extract_json payload).
Proof.
  intros Hfence Hbrace Htick Hnl Htag.
  assert (Hbare : extract_json payload = strip payload) by exact (extract_bare _ Hfence).
  assert (Hwrapped : extract_json (fenced tag payload) = strip payload).
  { destruct Htag as [-> | Hjson].
    - apply extract_json_tag, Hfence.
    - apply extract_generic_tag; assumption. }
  split; [exact Hbare | split; [exact Hwrapped|]].
  intros env. rewrite Hbare, Hwrapped. reflexivity.
Qed.

Lemma fenced_payload_extracted_as_bare_witness :
  extract_json (fenced "" "  {}  ") = "{}"
  /\ extract_json (fenced "json" "  {}  ") = "{}"
  /\ extract_json "  {}  " = "{}".
Proof.
  destruct (fenced_payload_extracted_as_bare "" "  {}  " eq_refl eq_refl eq_refl eq_refl
              (or_intror eq_refl)) as (Hbare & Hplain & _).
  destruct (fenced_payload_extracted_as_bare "json" "  {}  " eq_refl eq_refl eq_refl eq_refl
              (or_introl eq_refl)) as (_ & Hjson & _).
  split; [exact Hplain | split; [exact Hjson | exact Hbare]].
Defined.

(* ===================================================================== *)
(** * Further properties of the phase scripts *)
(* ===================================================================== *)

(** ** Too few arguments *)

(** X1: a phase started without both positional arguments (the planning
    phase: without the issue number) only prints its usage and exits with
    status 1: nothing is logged as an error, no agent is called, nothing
    is saved. *)
Theorem too_few_arguments_print_usage (env : Env) (argv : list string) :
  (forall p : phase,
      sys_argv p argv !! 2%nat = None ->
      let run := run_phase p env argv in
      exit_status run = 1
      /\ agent_calls (trace run) = []
      /\ saved_states (trace run) = []
      /\ error_logs (trace run) = []
      /\ Forall (fun e => exists msg, e = Print msg) (trace run))
  /\ (argv !! 1%nat = None ->
      let run := adw_plan_iso env argv in
      exit_status run = 1
      /\ agent_calls (trace run) = []
      /\ saved_states (trace run) = []
      /\ error_logs (trace run) = []
      /\ Forall (fun e => exists msg, e = Print msg) (trace run)).
Proof.
  split.
  - intros p Hargv run. subst run.
    destruct p; unfold run_phase, adw_build_iso, adw_test_iso, adw_review_iso,
      adw_document_iso; simpl in Hargv;
    match goal with
    | H : ?l !! 2%nat = None |- _ => destruct l as [|? [|? [|? ?]]]; try discriminate H
    end; (repeat split; try reflexivity); repeat (constructor; eauto).
  - intros Hargv run. subst run.
    destruct argv as [|? [|? ?]]; try discriminate Hargv;
      (repeat split; try reflexivity); repeat (constructor; eauto).
Qed.

Lemma too_few_arguments_print_usage_witness :
  exit_status (adw_review_iso (review_env patches_ok loads_one)
                 ["adw_review_iso.py"; "--skip-resolution"; "42"]) = 1
  /\ exit_status (adw_plan_iso (plan_env (ok "specs/plan-42.md")) ["adw_plan_iso.py"]) = 1.
Proof.
  destruct (too_few_arguments_print_usage (review_env patches_ok loads_one)
              ["adw_review_iso.py"; "--skip-resolution"; "42"]) as [Hphase _].
  destruct (Hphase Review eq_refl) as [Hreview _].
  destruct (too_few_arguments_print_usage (plan_env (ok "specs/plan-42.md"))
              ["adw_plan_iso.py"]) as [_ Hplan].
  destruct (Hplan eq_refl) as [Hp _].
  split; [exact Hreview | exact Hp].
Defined.

(** ** The build and document phases end as their agent call does *)

(** X2: with state present, the worktree valid and a spec file found, the
    build phase makes exactly one agent call, implement_plan on that spec
    file in the worktree; it saves the state and ends with status 0 when
    the call succeeds, and exits with status 1 without saving when it
    fails. *)
Theorem build_ends_as_implementation_does
    (env : Env) (argv : list string) (adw_id : string) (state : ADWState) :
  argv !! 2%nat = Some adw_id ->
  ADWState_load env adw_id = Some state ->
  (validate_worktree env adw_id state).1 = true ->
  truthy (of_opt (find_spec_file env state)) = true ->
  let spec_file := of_opt (find_spec_file env state) in
  let worktree_path := state_get state "worktree_path" in
  let resp := implement_plan env spec_file adw_id "build_implementor" worktree_path in
  let run := adw_build_iso env argv in
  agent_calls (trace run) = [ImplementPlan spec_file adw_id "build_implementor" worktree_path]
  /\ exit_status run = (if success resp then 0 else 1)
  /\ saved_states (trace run) = (if success resp then [state] else [])
  /\ error_logs (trace run) =
       (if success resp then []
        else [Log ERROR [Txt "Implementation failed: "; Txt (output resp)]]).
Proof.
  intros Hargv Hload Hvalid Hspec spec_file worktree_path resp run. subst run.
  change (argv !! 2%nat) with (sys_argv Build argv !! 2%nat) in Hargv.
  enter_phase Hargv. rewrite (load_state_some _ _ _ Hload). simpl.
  rewrite (check_worktree_valid _ _ _ Hvalid). simpl. rewrite Hspec. simpl.
  fold spec_file worktree_path resp.
  destruct (success resp); simpl; repeat split; reflexivity.
Qed.

Lemma build_ends_as_implementation_does_witness :
  let failing := env (Some state) (true, None) (Some "specs/issue-42-login.md")
                   (ko "compile error") patches_ok (fun _ => None) in
  exit_status (adw_build_iso failing ["adw_build_iso.py"; "42"; "a1b2c3d4"]) = 1
  /\ saved_states (trace (adw_build_iso failing ["adw_build_iso.py"; "42"; "a1b2c3d4"])) = [].
Proof.
  intros failing.
  destruct (build_ends_as_implementation_does failing ["adw_build_iso.py"; "42"; "a1b2c3d4"]
              "a1b2c3d4" state eq_refl eq_refl eq_refl eq_refl) as (_ & He & Hs & _).
  split; [exact He | exact Hs].
Defined.

(** X3: with state present and the worktree valid, the documentation
    phase makes exactly one agent call, the /document request; it saves
    the state and ends with status 0 when the call succeeds, and exits
    with status 1 without saving when it fails.  The request carries the
    spec file found, or the empty string when none is found. *)
Theorem document_ends_as_agent_does
    (env : Env) (argv : list string) (adw_id : string) (state : ADWState) :
  argv !! 2%nat = Some adw_id ->
  ADWState_load env adw_id = Some state ->
  (validate_worktree env adw_id state).1 = true ->
  let found := of_opt (find_spec_file env state) in
  let spec_file := if truthy found then found else PStr "" in
  let request := doc_request adw_id spec_file (review_img_dir env adw_id)
                   (state_get state "worktree_path") in
  let resp := execute_template env request in
  let run := adw_document_iso env argv in
  agent_calls (trace run) = [ExecuteTemplate request]
  /\ exit_status run = (if success resp then 0 else 1)
  /\ saved_states (trace run) = (if success resp then [state] else [])
  /\ error_logs (trace run) =
       (if success resp then []
        else [Log ERROR [Txt "Documentation generation failed: "; Txt (output resp)]]).
Proof.
  intros Hargv Hload Hvalid found spec_file request resp run. subst run.
  change (argv !! 2%nat) with (sys_argv Document argv !! 2%nat) in Hargv.
  enter_phase Hargv. rewrite (load_state_some _ _ _ Hload). simpl.
  rewrite (check_worktree_valid _ _ _ Hvalid). simpl.
  subst resp request spec_file found. unfold review_img_dir.
  destruct (truthy (of_opt (find_spec_file env state))); simpl;
    destruct (path_exists env _); simpl;
    destruct (success (execute_template env _)); simpl; repeat split; reflexivity.
Qed.

Lemma document_ends_as_agent_does_witness :
  let failing := env (Some state) (true, None) (Some "specs/issue-42-login.md")
                   (ko "agent crashed") patches_ok (fun _ => None) in
  exit_status (adw_document_iso failing ["adw_document_iso.py"; "42"; "a1b2c3d4"]) = 1
  /\ saved_states (trace (adw_document_iso failing
                            ["adw_document_iso.py"; "42"; "a1b2c3d4"])) = [].
Proof.
  intros failing.
  destruct (document_ends_as_agent_does failing ["adw_document_iso.py"; "42"; "a1b2c3d4"]
              "a1b2c3d4" state eq_refl eq_refl eq_refl) as (_ & He & Hs & _).
  split; [exact He | exact Hs].
Defined.

(** ** The review phase beyond the blocking findings *)

(** X4: when the review agent call itself fails, the review phase exits
    with status 1 right after it, logging the agent output; the output is
    not parsed (the run is the same whatever json.loads would answer), no
    patch is attempted and nothing is saved. *)
Theorem review_agent_failure_is_fatal
    (env : Env) (argv : list string) (adw_id : string) (state : ADWState) :
  sys_argv Review argv !! 2%nat = Some adw_id ->
  ADWState_load env adw_id = Some state ->
  (validate_worktree env adw_id state).1 = true ->
  truthy (of_opt (find_spec_file env state)) = true ->
  let request := review_request adw_id (of_opt (find_spec_file env state))
                   (state_get state "worktree_path") in
  let resp := execute_template env request in
  success resp = false ->
  let run := adw_review_iso env argv in
  exit_status run = 1
  /\ trace run = review_prefix env adw_id state
                 ++ [Log ERROR [Txt "Review failed to execute: "; Txt (output resp)]]
  /\ patch_calls (trace run) = []
  /\ saved_states (trace run) = []
  /\ forall loads, adw_review_iso (with_json_loads env loads) argv = run.
Proof.
  intros Hargv Hload Hvalid Hspec request resp Hfail run. subst run.
  assert (Hrun : forall loads,
            adw_review_iso (with_json_loads env loads) argv =
              (review_prefix env adw_id state
               ++ [Log ERROR [Txt "Review failed to execute: "; Txt (output resp)]],
               Raise (SystemExit 1))).
  { intros loads. enter_phase Hargv.
    change (load_state (with_json_loads env loads) adw_id) with (load_state env adw_id).
    rewrite (load_state_some _ _ _ Hload). simpl.
    change (check_worktree (with_json_loads env loads) adw_id state)
      with (check_worktree env adw_id state).
    rewrite (check_worktree_valid _ _ _ Hvalid). simpl. rewrite Hspec. simpl.
    fold request resp. rewrite Hfail. reflexivity. }
  assert (Hself : adw_review_iso env argv
                  = adw_review_iso (with_json_loads env (json_loads env)) argv).
  { destruct env; reflexivity. }
  rewrite Hself, Hrun.
  repeat split; try reflexivity.
  intros loads. apply Hrun.
Qed.

Lemma review_agent_failure_is_fatal_witness :
  let failing := env (Some state) (true, None) (Some "specs/issue-42-login.md")
                   (ko "agent crashed") patches_ok loads_two in
  exit_status (adw_review_iso failing review_argv) = 1
  /\ patch_calls (trace (adw_review_iso failing review_argv)) = [].
Proof.
  intros failing.
  destruct (review_agent_failure_is_fatal failing review_argv "a1b2c3d4" state
              eq_refl eq_refl eq_refl eq_refl eq_refl) as (He & _ & Hp & _).
  split; [exact He | exact Hp].
Defined.

(** X5: a review outcome without blocking finding lets the review phase
    complete, with or without --skip-resolution: the state is saved once,
    no patch is attempted, no error is logged and the status is 0. *)
Theorem review_without_blockers_completes
    (env : Env) (argv : list string) (adw_id : string) (state : ADWState)
    (resp : AgentResponse) (results : value) (issues : list value) :
  review_answered env argv adw_id state resp ->
  json_loads env (extract_json (output resp)) = Some results ->
  review_outcome results issues ->
  blockers issues = [] ->
  let run := adw_review_iso env argv in
  exit_status run = 0
  /\ saved_states (trace run) = [state]
  /\ patch_calls (trace run) = []
  /\ error_logs (trace run) = []
  /\ length (review_calls (trace run)) = 1%nat.
Proof.
  intros Hans Hparsed Hout Hnone run. subst run.
  destruct (review_clean env argv adw_id state resp Hans results issues Hparsed Hout Hnone)
    as [Ht Hr].
  destruct (review_finish_saves env argv adw_id state resp results issues Hparsed Hout)
    as (_ & Hp & Hs & He & Hv).
  unfold exit_status. rewrite Hr, Ht.
  rewrite !saved_states_app, !patch_calls_app, !error_logs_app, !review_calls_app.
  rewrite Hp, Hs, He, Hv. repeat split; reflexivity.
Qed.

Lemma review_without_blockers_completes_witness :
  exit_status (adw_review_iso (answer_env fence_in_summary) review_argv_skip) = 0
  /\ saved_states (trace (adw_review_iso (answer_env fence_in_summary) review_argv_skip))
     = [state].
Proof.
  assert (Hans : review_answered (answer_env fence_in_summary) review_argv_skip
                   "a1b2c3d4" state (ok fence_in_summary)) by (repeat split; reflexivity).
  assert (Hout : review_outcome fence_outcome []).
  { eexists. repeat split; reflexivity. }
  destruct (review_without_blockers_completes (answer_env fence_in_summary) review_argv_skip
              "a1b2c3d4" state (ok fence_in_summary) fence_outcome [] Hans eq_refl Hout
              eq_refl) as (He & Hs & _).
  split; [exact He | exact Hs].
Defined.

(** X6: an answer that parses as JSON but is not an object (a list, a
    string, a number, null) is not handled: the first .get on it raises
    AttributeError, which the handler of json.JSONDecodeError does not
    catch, so the process dies with status 1 having logged nothing after
    the agent call, attempted no patch and saved nothing. *)
Theorem review_of_non_object_json_dies
    (env : Env) (argv : list string) (adw_id : string) (state : ADWState)
    (resp : AgentResponse) (results : value) :
  review_answered env argv adw_id state resp ->
  json_loads env (extract_json (output resp)) = Some results ->
  is_dict results = false ->
  let run := adw_review_iso env argv in
  result run = Raise AttributeError
  /\ exit_status run = 1
  /\ trace run = review_prefix env adw_id state
  /\ saved_states (trace run) = []
  /\ patch_calls (trace run) = [].
Proof.
  intros Hans Hparsed Hdict run. subst run.
  assert (Hrun : adw_review_iso env argv = (review_prefix env adw_id state, Raise AttributeError)).
  { rewrite (review_run env argv adw_id state resp Hans).
    unfold review_results_step, review_try. rewrite Hparsed.
    destruct results; try discriminate Hdict; reflexivity. }
  rewrite Hrun. repeat split; reflexivity.
Qed.

Lemma review_of_non_object_json_dies_witness :
  let listing := review_env patches_ok (fun _ => Some (PList [])) in
  exit_status (adw_review_iso listing review_argv) = 1
  /\ saved_states (trace (adw_review_iso listing review_argv)) = [].
Proof.
  intros listing.
  assert (Hans : review_answered listing review_argv "a1b2c3d4" state (ok "PAYLOAD"))
    by (repeat split; reflexivity).
  destruct (review_of_non_object_json_dies listing review_argv "a1b2c3d4" state
              (ok "PAYLOAD") (PList []) Hans eq_refl eq_refl) as (_ & He & _ & Hs & _).
  split; [exact He | exact Hs].
Defined.

(** ** The flags *)

Lemma remove_first_at (x : string) (l1 l2 : list string) :
  mem x l1 = false ->
  mem x (l1 ++ x :: l2) = true /\ remove_first x (l1 ++ x :: l2) = l1 ++ l2.
Proof.
  unfold mem. induction l1 as [|y l1 IH]; simpl.
  - intros _. rewrite String.eqb_refl. split; reflexivity.
  - intros H. apply orb_false_iff in H as [Hxy Hrest].
    destruct (IH Hrest) as [Hm Hr]. rewrite Hxy, Hm, Hr. split; reflexivity.
Qed.

(** X7: the flag of the test and review phases may stand anywhere on the
    command line, before, between or after the positional arguments: only
    its first occurrence is removed, and the positional arguments are read
    from what is left. *)
Theorem flag_position_is_free (p : phase) (flag : string) (env : Env)
    (before after : list string) :
  phase_flag p = Some flag ->
  mem flag before = false ->
  sys_argv p (before ++ flag :: after) = before ++ after
  /\ run_phase p env (before ++ flag :: after) = run_phase p env (flag :: before ++ after).
Proof.
  intros Hflag Hbefore.
  destruct (remove_first_at flag before after Hbefore) as [Hm Hr].
  destruct (remove_first_at flag [] (before ++ after) eq_refl) as [Hm0 Hr0].
  simpl app in Hm0, Hr0.
  destruct p; try discriminate Hflag; injection Hflag as <-;
    unfold sys_argv, run_phase, adw_test_iso, adw_review_iso;
    rewrite Hm, Hr, Hm0, Hr0; split; reflexivity.
Qed.

Lemma flag_position_is_free_witness :
  adw_review_iso (review_env patches_ok loads_one)
    ["adw_review_iso.py"; "--skip-resolution"; "42"; "a1b2c3d4"]
  = adw_review_iso (review_env patches_ok loads_one) review_argv_skip.
Proof.
  destruct (flag_position_is_free Review "--skip-resolution"
              (review_env patches_ok loads_one) ["adw_review_iso.py"]
              ["42"; "a1b2c3d4"] eq_refl eq_refl) as [_ H1].
  destruct (flag_position_is_free Review "--skip-resolution"
              (review_env patches_ok loads_one) ["adw_review_iso.py"; "42"; "a1b2c3d4"]
              [] eq_refl eq_refl) as [_ H2].
  simpl app in H1, H2. unfold run_phase in H1, H2. unfold review_argv_skip.
  rewrite H1, H2. reflexivity.
Defined.

Ltac no_args :=
  unfold trace; cbn [fst];
  repeat first
    [ apply Forall_nil_2
    | apply Forall_cons_2;
      [ let r := fresh "r" in let Hr := fresh "Hr" in
        intros r Hr; first [discriminate Hr | injection Hr as <-; reflexivity] |] ].

(** X8: --skip-e2e never reaches the test agent: with and without the
    flag the test phase sends the same /test request (without arguments),
    saves the same and ends with the same status; the flag only adds a
    line to the printed summary. *)
Theorem skip_e2e_does_not_reach_the_agent (env : Env) (before after : list string) :
  mem "--skip-e2e" before = false ->
  mem "--skip-e2e" after = false ->
  let flagged := adw_test_iso env (before ++ "--skip-e2e" :: after) in
  let plain_run := adw_test_iso env (before ++ after) in
  agent_calls (trace flagged) = agent_calls (trace plain_run)
  /\ saved_states (trace flagged) = saved_states (trace plain_run)
  /\ exit_status flagged = exit_status plain_run
  /\ Forall (fun e => forall r, e = ExecuteTemplate r -> args r = []) (trace flagged).
Proof.
  intros Hbefore Hafter flagged plain_run. subst flagged plain_run.
  destruct (remove_first_at "--skip-e2e" before after Hbefore) as [Hm Hr].
  assert (Hnone : mem "--skip-e2e" (before ++ after) = false).
  { unfold mem in *. rewrite existsb_app, Hbefore, Hafter. reflexivity. }
  unfold adw_test_iso. rewrite Hm, Hr, Hnone.
  destruct (before ++ after) as [|script [|issue [|adw_id rest]]];
    try solve [split; [|split; [|split]]; try reflexivity; no_args].
  unfold load_state. destruct (ADWState_load env adw_id) as [state|]; simpl;
    [|split; [|split; [|split]]; try reflexivity; no_args].
  unfold check_worktree. destruct (validate_worktree env adw_id state) as [[] error]; simpl;
    [|split; [|split; [|split]]; try reflexivity; no_args].
  destruct (success (execute_template env _)); simpl;
    (split; [|split; [|split]]); try reflexivity; no_args.
Qed.

Lemma skip_e2e_does_not_reach_the_agent_witness :
  let env := review_env patches_ok loads_one in
  agent_calls (trace (adw_test_iso env ["adw_test_iso.py"; "42"; "a1b2c3d4"; "--skip-e2e"]))
  = agent_calls (trace (adw_test_iso env ["adw_test_iso.py"; "42"; "a1b2c3d4"])).
Proof.
  intros env.
  destruct (skip_e2e_does_not_reach_the_agent env ["adw_test_iso.py"; "42"; "a1b2c3d4"] []
              eq_refl eq_refl) as [H _].
  exact H.
Defined.

(** ** The plan file pattern *)

Module PlanReFacts.
Import Str StrFacts PlanRe.

Lemma startswith_split (p : string) : forall s : string,
  startswith p s = true -> exists t, s = p +:+ t.
Proof.
  induction p as [|a p IH]; intros s Hs; [exists s; reflexivity|].
  destruct s as [|b s]; [discriminate|]. simpl in Hs.
  apply andb_true_iff in Hs as [Hab Hrest]. apply Ascii.eqb_eq in Hab as ->.
  destruct (IH s Hrest) as [t ->]. exists t. reflexivity.
Qed.

Lemma startswith_self (p t : string) : startswith p (p +:+ t) = true.
Proof.
  induction p as [|a p IH]; [reflexivity|].
  change (String a p +:+ t) with (String a (p +:+ t)). simpl.
  rewrite Ascii.eqb_refl. exact IH.
Qed.

Lemma contains_startswith (m s : string) : startswith m s = true -> contains m s = true.
Proof. intros H. unfold contains. destruct s; simpl in *; rewrite H; reflexivity. Qed.

Lemma span_split : forall s w r : string,
  span s = (w, r) -> s = w +:+ r /\ all_class w = true.
Proof.
  induction s as [|c s IH]; intros w r Hs; simpl in Hs.
  - injection Hs as <- <-. split; reflexivity.
  - destruct (in_class c) eqn:Hc.
    + destruct (span s) as [w' r'] eqn:E. injection Hs as <- <-.
      destruct (IH w' r' eq_refl) as [-> Hw]. split; [reflexivity|].
      simpl. rewrite Hc. exact Hw.
    + injection Hs as <- <-. split; reflexivity.
Qed.

Lemma span_word (w : string) (c : ascii) (r : string) :
  all_class w = true -> in_class c = false -> span (w +:+ String c r) = (w, String c r).
Proof.
  intros Hw Hc. induction w as [|a w IH].
  - simpl. rewrite Hc. reflexivity.
  - simpl in Hw. apply andb_true_iff in Hw as [Ha Hw].
    change (String a w +:+ String c r) with (String a (w +:+ String c r)).
    simpl. rewrite Ha, (IH Hw). reflexivity.
Qed.

Lemma match_here_sound (s m : string) :
  match_here s = Some m ->
  startswith m s = true
  /\ exists w, m = "specs/" +:+ (w +:+ ".md") /\ w <> EmptyString /\ all_class w = true.
Proof.
  unfold match_here. destruct (startswith "specs/" s) eqn:Hs; [|discriminate].
  apply startswith_split in Hs as [t ->].
  change (drop 6 ("specs/" +:+ t)) with t.
  destruct (span t) as [w r] eqn:Ht.
  destruct (negb (String.eqb w "")) eqn:Hw; [|discriminate].
  destruct (startswith ".md" r) eqn:Hr; [|discriminate].
  simpl. intros [= <-].
  apply span_split in Ht as [-> Hclass].
  apply startswith_split in Hr as [r' ->].
  split.
  - replace ("specs/" +:+ (w +:+ (".md" +:+ r'))) with (("specs/" +:+ (w +:+ ".md")) +:+ r').
    + apply startswith_self.
    + rewrite <- !app_assoc. reflexivity.
  - exists w. split; [reflexivity|]. split; [|exact Hclass].
    intros ->. discriminate Hw.
Qed.

Lemma search_sound : forall s m : string,
  search s = Some m ->
  contains m s = true
  /\ exists w, m = "specs/" +:+ (w +:+ ".md") /\ w <> EmptyString /\ all_class w = true.
Proof.
  induction s as [|c s IH]; intros m Hm.
  - discriminate Hm.
  - simpl in Hm. destruct (match_here (String c s)) eqn:E.
    + injection Hm as ->. apply match_here_sound in E as [Hs Hw].
      split; [apply contains_startswith, Hs | exact Hw].
    + destruct (IH m Hm) as [Hc Hw]. split; [apply contains_cons_intro, Hc | exact Hw].
Qed.

Lemma match_here_path (w post : string) :
  all_class w = true -> w <> EmptyString ->
  match_here ("specs/" +:+ (w +:+ (".md" +:+ post))) = Some ("specs/" +:+ (w +:+ ".md")).
Proof.
  intros Hw Hne. unfold match_here.
  change (startswith "specs/" ("specs/" +:+ (w +:+ (".md" +:+ post)))) with true. cbv iota.
  change (drop 6 ("specs/" +:+ (w +:+ (".md" +:+ post)))) with (w +:+ String "."%char ("md" +:+ post)).
  rewrite (span_word w "."%char _ Hw eq_refl).
  destruct w; [contradiction | reflexivity].
Qed.

Lemma search_suffix (pre s : string) :
  is_Some (search s) -> is_Some (search (pre +:+ s)).
Proof.
  intros Hs. induction pre as [|c pre IH]; [exact Hs|].
  change (String c pre +:+ s) with (String c (pre +:+ s)). simpl.
  destruct (match_here (String c (pre +:+ s))); [eauto | exact IH].
Qed.

End PlanReFacts.

(** X9: whatever the pattern search of the planning phase returns is a
    piece of the answer of the form specs/<name>.md with a non-empty name
    made of word characters and hyphens. *)
Theorem plan_path_found_is_well_formed (answer path : string) :
  PlanRe.search answer = Some path ->
  Str.contains path answer = true
  /\ exists name : string,
       path = "specs/" +:+ (name +:+ ".md")
       /\ name <> EmptyString
       /\ all_class name = true.
Proof. apply PlanReFacts.search_sound. Qed.

Lemma plan_path_found_is_well_formed_witness :
  Str.contains "specs/issue-12_plan.md" "Created plan at specs/issue-12_plan.md, done" = true.
Proof.
  destruct (plan_path_found_is_well_formed "Created plan at specs/issue-12_plan.md, done"
              "specs/issue-12_plan.md" eq_refl) as [H _].
  exact H.
Defined.

(** X10: an answer that holds a path specs/<name>.md, the name non-empty
    and made of word characters and hyphens, always yields a match, so the
    fallback to the raw answer is taken only when no such path is there;
    and an answer that begins with the path yields exactly that path, even
    when more word characters follow the extension. *)
Theorem plan_path_present_is_found (before name after : string) :
  all_class name = true ->
  name <> EmptyString ->
  let path := "specs/" +:+ (name +:+ ".md") in
  (exists found, PlanRe.search (before +:+ ("specs/" +:+ (name +:+ (".md" +:+ after))))
                 = Some found)
  /\ PlanRe.search ("specs/" +:+ (name +:+ (".md" +:+ after))) = Some path
  /\ plan_file_of ("specs/" +:+ (name +:+ (".md" +:+ after))) = path.
Proof.
  intros Hname Hne path.
  assert (Hhere : PlanRe.search ("specs/" +:+ (name +:+ (".md" +:+ after))) = Some path).
  { change (PlanRe.search ("specs/" +:+ (name +:+ (".md" +:+ after))))
      with (match PlanRe.match_here ("specs/" +:+ (name +:+ (".md" +:+ after))) with
            | Some m => Some m
            | None => PlanRe.search (Str.drop 1 ("specs/" +:+ (name +:+ (".md" +:+ after))))
            end).
    rewrite (PlanReFacts.match_here_path name after Hname Hne). reflexivity. }
  split; [|split; [exact Hhere | unfold plan_file_of; rewrite Hhere; reflexivity]].
  destruct (PlanReFacts.search_suffix before _ (mk_is_Some _ _ Hhere)) as [found Hfound].
  exists found. exact Hfound.
Qed.

Lemma plan_path_present_is_found_witness :
  PlanRe.search "specs/plan-42.mdx" = Some "specs/plan-42.md".
Proof.
  destruct (plan_path_present_is_found "" "plan-42" "x" eq_refl) as (_ & H & _);
    [discriminate | exact H].
Defined.

(** ** The planning phase beyond the plan file *)

Lemma saved_states_cons_log (lv : level) (msg : list piece) (t : list event) :
  saved_states (Log lv msg :: t) = saved_states t.
Proof. reflexivity. Qed.

(** Splits the saved states of a trace along its appends. *)
Ltac split_saved H :=
  repeat first [rewrite saved_states_app in H | rewrite saved_states_cons_log in H].

Lemma branch_step_recorded (env : Env) (issue : option Issue) (adw_id : string)
    (st : ADWState) :
  truthy (state_get st "branch_name") = true ->
  branch_step env issue adw_id st = ret (st, state_get st "branch_name").
Proof. unfold branch_step. intros ->. reflexivity. Qed.

(** X11: run again on a state that already records a branch name, the
    planning phase keeps it: every state it saves has that branch name,
    the worktree created for that branch, and the issue class it had (the
    issue is not classified again). *)
Theorem planning_keeps_recorded_branch (env : Env) (argv : list string)
    (issue_number : string) (loaded saved : ADWState) :
  argv !! 1%nat = Some issue_number ->
  let adw_id := ensure_adw_id env issue_number (argv !! 2%nat) in
  let branch_name := state_get loaded "branch_name" in
  ADWState_load env adw_id = Some loaded ->
  truthy branch_name = true ->
  In saved (saved_states (trace (adw_plan_iso env argv))) ->
  saved !! "branch_name" = Some branch_name
  /\ saved !! "worktree_path" = Some (of_opt (create_worktree env adw_id branch_name).1)
  /\ saved !! "issue_class" = loaded !! "issue_class".
Proof.
  intros Hargv adw_id branch_name Hload Hbranch Hin.
  destruct argv as [|script [|issue rest]]; try discriminate Hargv.
  simpl in Hargv. injection Hargv as ->.
  assert (Hid : match rest with a :: _ => Some a | [] => None end
                = (script :: issue_number :: rest) !! 2%nat) by (destruct rest; reflexivity).
  unfold adw_plan_iso in Hin. rewrite Hid in Hin. fold adw_id in Hin.
  unfold plan_state in Hin. rewrite Hload in Hin.
  pose proof (fetch_step_plain env issue_number) as Hfetch.
  destruct (fetch_step env issue_number) as [tf [issue|e]]; unfold trace in Hfetch;
    simpl in Hfetch.
  2:{ simpl in Hin. rewrite (plain_no_save _ Hfetch) in Hin. contradiction. }
  cbn beta iota delta [bind log emit] in Hin.
  rewrite (branch_step_recorded env issue adw_id loaded Hbranch) in Hin.
  fold branch_name in Hin.
  cbn beta iota delta [bind log emit ret] in Hin.
  destruct (worktree_step_spec env adw_id loaded branch_name) as [_ [[Hwr Hws]|[Hwr Hws]]];
    destruct (worktree_step env adw_id loaded branch_name) as [tw rw];
    unfold trace, result in Hwr, Hws; cbn [fst snd] in Hwr, Hws; subst rw.
  2:{ simpl in Hin. split_saved Hin.
      rewrite (plain_no_save _ Hfetch), Hws in Hin. contradiction. }
  cbn beta iota delta [bind log emit] in Hin.
  destruct (find_next_available_ports env adw_id) as [bp fp].
  simpl fst in *. simpl snd in *.
  set (wt := of_opt (create_worktree env adw_id branch_name).1) in *.
  set (st1 := state_update loaded _) in *.
  assert (Hst1 : st1 !! "branch_name" = Some branch_name
                 /\ st1 !! "worktree_path" = Some wt
                 /\ st1 !! "issue_class" = loaded !! "issue_class").
  { subst st1. simpl.
    repeat split;
      repeat first [ apply lookup_insert_eq
                   | rewrite lookup_insert_ne by discriminate ]; reflexivity. }
  pose proof (install_step_plain env adw_id wt bp fp) as Hinst.
  destruct (install_step env adw_id wt bp fp) as [ti [[]|e]];
    unfold trace in Hinst; simpl in Hinst.
  2:{ simpl in Hin. split_saved Hin.
      rewrite (plain_no_save _ Hfetch), Hws, (plain_no_save _ Hinst) in Hin.
      destruct Hin as [<-|[]]. exact Hst1. }
  cbn beta iota delta [bind log emit] in Hin.
  destruct (plan_step_spec env issue adw_id st1 branch_name wt bp fp) as (_ & Hok & Hko).
  destruct (plan_step env issue adw_id st1 branch_name wt bp fp) as [tp rp].
  unfold trace, result in Hok, Hko. cbn [fst snd] in Hok, Hko.
  unfold trace in Hin. cbn [fst] in Hin. split_saved Hin.
  rewrite (plain_no_save _ Hfetch), Hws, (plain_no_save _ Hinst) in Hin. simpl in Hin.
  destruct Hin as [<-|Hin]; [exact Hst1|].
  destruct (success (build_plan env issue (plan_command st1) adw_id wt)).
  - destruct (Hok eq_refl) as [_ Hs]. rewrite Hs in Hin. destruct Hin as [<-|[]].
    rewrite !state_update_plan_file by discriminate. exact Hst1.
  - destruct (Hko eq_refl) as [_ Hs]. rewrite Hs in Hin. contradiction.
Qed.

Lemma planning_keeps_recorded_branch_witness :
  Forall (fun saved : ADWState =>
            saved !! "branch_name" = Some (PStr "feat-issue-42-adw-a1b2c3d4-login"))
    (saved_states
       (trace (adw_plan_iso
                 (env (Some state) (true, None) None (ok "specs/plan-42.md") patches_ok
                    (fun _ => None))
                 ["adw_plan_iso.py"; "42"; "a1b2c3d4"]))).
Proof.
  apply List.Forall_forall. intros saved Hin.
  destruct (planning_keeps_recorded_branch
              (env (Some state) (true, None) None (ok "specs/plan-42.md") patches_ok
                 (fun _ => None))
              ["adw_plan_iso.py"; "42"; "a1b2c3d4"] "42"
              state saved eq_refl eq_refl eq_refl Hin) as [H _].
  exact H.
Defined.

(** X12: when the issue cannot be fetched the planning phase exits with
    status 1 at once: the error is logged, no worktree is created or
    saved and no agent is called. *)
Theorem planning_stops_when_issue_fetch_fails (env : Env) (argv : list string)
    (issue_number : string) :
  argv !! 1%nat = Some issue_number ->
  truthy (of_opt (fetch_issue_unified env issue_number).2) = true ->
  let run := adw_plan_iso env argv in
  exit_status run = 1
  /\ last (trace run) =
       Some (Log ERROR [Txt "Failed to fetch issue: ";
                        Fmt (of_opt (fetch_issue_unified env issue_number).2)])
  /\ agent_calls (trace run) = []
  /\ saved_states (trace run) = [].
Proof.
  intros Hargv Herr run. subst run.
  destruct argv as [|script [|issue rest]]; try discriminate Hargv.
  simpl in Hargv. injection Hargv as ->.
  unfold adw_plan_iso, fetch_step.
  destruct (fetch_issue_unified env issue_number) as [issue error].
  simpl in Herr. simpl. rewrite Herr. simpl. repeat split; reflexivity.
Qed.

Lemma planning_stops_when_issue_fetch_fails_witness :
  let offline :=
    {| ADWState_load := fun _ => None;
       validate_worktree := fun _ _ => (true, None);
       find_spec_file := fun _ => None;
       execute_template := fun _ => ok "";
       implement_plan := fun _ _ _ _ => ok "";
       create_and_implement_patch := fun _ _ => (None, ok "");
       json_loads := fun _ => None;
       path_exists := fun _ => false;
       script_root := "/repo";
       ensure_adw_id := fun _ a => default "a1b2c3d4" a;
       is_beads_issue := fun _ => false;
       fetch_issue_unified := fun _ => (None, Some "gh: could not resolve host");
       update_beads_status := fun _ _ => (true, None);
       classify_issue := fun _ _ => (Some "/feature", None);
       generate_branch_name := fun _ _ _ => (Some "feat-42", None);
       create_worktree := fun _ _ => (Some "/trees/a1b2c3d4", None);
       find_next_available_ports := fun _ => (9100, 9200);
       build_plan := fun _ _ _ _ => ok "" |} in
  exit_status (adw_plan_iso offline plan_argv) = 1
  /\ saved_states (trace (adw_plan_iso offline plan_argv)) = [].
Proof.
  intros offline.
  destruct (planning_stops_when_issue_fetch_fails offline plan_argv "42" eq_refl eq_refl)
    as (He & _ & _ & Hs).
  split; [exact He | exact Hs].
Defined.

Lemma plan_step_calls_build_plan (env : Env) (issue : option Issue) (adw_id : string)
    (st : ADWState) (branch_name worktree_path : value) (bp fp : Z) :
  In (BuildPlan issue (plan_command st) adw_id worktree_path)
     (trace (plan_step env issue adw_id st branch_name worktree_path bp fp)).
Proof.
  unfold plan_step.
  destruct (success (build_plan env issue (plan_command st) adw_id worktree_path));
    simpl; in_trace.
Qed.

(** X13: the planning phase returns normally only after a successful
    build_plan call, and then it has saved exactly twice: first the state
    with the worktree fields, then that state with the plan file read off
    the answer. *)
Theorem planning_completes_only_with_a_plan (env : Env) (argv : list string) :
  result (adw_plan_iso env argv) = Ok tt ->
  exists (issue : option Issue) (command : value) (adw_id : string) (wd : value)
         (allocated : ADWState),
    In (BuildPlan issue command adw_id wd) (trace (adw_plan_iso env argv))
    /\ success (build_plan env issue command adw_id wd) = true
    /\ allocated_fields env adw_id allocated
    /\ saved_states (trace (adw_plan_iso env argv)) =
         [allocated;
          state_update allocated
            [("plan_file",
              PStr (plan_file_of (output (build_plan env issue command adw_id wd))))]].
Proof.
  intros Hdone.
  destruct argv as [|script [|issue_number rest]]; try discriminate Hdone.
  destruct (plan_run env script issue_number rest) as [(_ & Hnot & _) | Hrun];
    [contradiction|].
  destruct Hrun as (pre & issue & st & branch_name & bp & fp & Ht & Hr & _ & Hsaved & Halloc).
  cbv zeta in Ht, Hr.
  set (id := ensure_adw_id env issue_number ((script :: issue_number :: rest) !! 2%nat)) in *.
  set (wt := of_opt (create_worktree env id branch_name).1) in *.
  destruct (plan_step_spec env issue id st branch_name wt bp fp) as (_ & Hok & Hko).
  exists issue, (plan_command st), id, wt, st.
  destruct (success (build_plan env issue (plan_command st) id wt)) eqn:Hsucc.
  - destruct (Hok eq_refl) as [_ Hs].
    split; [|split; [reflexivity | split; [exact Halloc|]]].
    + rewrite Ht. apply in_or_app. right. apply plan_step_calls_build_plan.
    + rewrite Ht, saved_states_app, Hsaved, Hs. reflexivity.
  - destruct (Hko eq_refl) as [Hres _]. rewrite Hr, Hres in Hdone. discriminate.
Qed.

Lemma planning_completes_only_with_a_plan_witness :
  length (saved_states (trace (adw_plan_iso (plan_env (ok "specs/plan-42.md")) plan_argv)))
  = 2%nat.
Proof.
  destruct (planning_completes_only_with_a_plan (plan_env (ok "specs/plan-42.md")) plan_argv
              eq_refl) as (issue & command & adw_id & wd & allocated & _ & _ & _ & Hs).
  rewrite Hs. reflexivity.
Defined.
